(** * Maintenance-request pipeline: a shallow embedding of [magneto/gmail.py]
    and [magneto/backend.py]

    The two Python modules poll a mailbox, classify every message with a
    language model, write a ticket and a chat notification per message, and
    aggregate statistics.  This development embeds both modules as Rocq
    functions over an explicit model of the Python values they handle
    (strings of code points, JSON values, dictionaries), of the exceptions
    they raise and catch, and of the external collaborators they call
    (mail store, ticket store, chat channel, language model), and proves the
    properties stated about them. *)

From Stdlib Require Import ZArith NArith List Strings.Byte.
From Stdlib Require Import Floats.PrimFloat Floats.FloatOps Floats.SpecFloat Uint63.
From stdpp Require Import base option list gmap fin_maps countable.

Set Warnings "-register-all,-inexact-float".
Local Open Scope Z_scope.

(* ===================================================================== *)
(** ** Python strings *)
(* ===================================================================== *)

(** A Python [str] is a sequence of Unicode code points; [len], indexing and
    slicing count code points.  *)
Record pystr := PyStr { codepoints : list N }.

(** String literals of this file are written in UTF-8 and read as code
    points. *)
Fixpoint utf8_decode (bs : list Byte.byte) : list N :=
  match bs with
  | [] => []
  | b0 :: r0 =>
    let n0 := Byte.to_N b0 in
    if (n0 <? 128)%N then n0 :: utf8_decode r0 else
    match r0 with
    | b1 :: r1 =>
      let n1 := (Byte.to_N b1 mod 64)%N in
      if (n0 <? 224)%N then ((n0 mod 32) * 64 + n1)%N :: utf8_decode r1 else
      match r1 with
      | b2 :: r2 =>
        let n2 := (Byte.to_N b2 mod 64)%N in
        if (n0 <? 240)%N
        then ((n0 mod 16) * 4096 + n1 * 64 + n2)%N :: utf8_decode r2 else
        match r2 with
        | b3 :: r3 =>
          let n3 := (Byte.to_N b3 mod 64)%N in
          ((n0 mod 8) * 262144 + n1 * 4096 + n2 * 64 + n3)%N :: utf8_decode r3
        | [] => [n0]
        end
      | [] => [n0]
      end
    | [] => [n0]
    end
  end.

Definition byte_of_N (n : N) : Byte.byte :=
  match Byte.of_N n with Some b => b | None => Byte.x00 end.

Definition utf8_encode1 (c : N) : list Byte.byte :=
  if (c <? 128)%N then [byte_of_N c]
  else if (c <? 2048)%N then
    [byte_of_N (192 + c / 64); byte_of_N (128 + c mod 64)]
  else if (c <? 65536)%N then
    [byte_of_N (224 + c / 4096); byte_of_N (128 + (c / 64) mod 64);
     byte_of_N (128 + c mod 64)]
  else
    [byte_of_N (240 + c / 262144); byte_of_N (128 + (c / 4096) mod 64);
     byte_of_N (128 + (c / 64) mod 64); byte_of_N (128 + c mod 64)].

Definition pystr_of_bytes (bs : list Byte.byte) : pystr := PyStr (utf8_decode bs).
Definition bytes_of_pystr (s : pystr) : list Byte.byte :=
  flat_map utf8_encode1 (codepoints s).

Declare Scope py_scope.
Delimit Scope py_scope with py.
Bind Scope py_scope with pystr.
String Notation pystr pystr_of_bytes bytes_of_pystr : py_scope.
Local Open Scope py_scope.

#[global] Instance pystr_eq_dec : EqDecision pystr.
Proof. solve_decision. Defined.

#[global] Instance pystr_countable : Countable pystr :=
  inj_countable' codepoints PyStr (fun s => match s with PyStr l => eq_refl end).

(** [len(s)] *)
Definition str_len (s : pystr) : nat := length (codepoints s).

(** [s1 + s2], and the pieces of an f-string put together *)
Definition str_cat (s1 s2 : pystr) : pystr :=
  PyStr (codepoints s1 ++ codepoints s2).
Notation "a +++ b" := (str_cat a b) (at level 60, right associativity) : py_scope.

(** [s[:n]] for a literal bound [n >= 0] *)
Definition str_prefix (n : nat) (s : pystr) : pystr := PyStr (take n (codepoints s)).

(** [s[a:b]] for indices [0 <= a] and [0 <= b] (the only ones the program
    computes): Python clamps both to [len(s)] and yields the empty string when
    [b <= a]. *)
Definition str_slice (s : pystr) (a b : Z) : pystr :=
  PyStr (take (Z.to_nat (b - a)) (drop (Z.to_nat a) (codepoints s))).

(** Index of the first occurrence of code point [c] in [l], counted from [i]. *)
Fixpoint find_from (c : N) (l : list N) (i : Z) : Z :=
  match l with
  | [] => -1
  | x :: r => if (x =? c)%N then i else find_from c r (i + 1)
  end.

(** Index of the last occurrence of [c] in [l], counted from [i]; [last] is
    the best index seen so far. *)
Fixpoint rfind_from (c : N) (l : list N) (i : Z) (last : Z) : Z :=
  match l with
  | [] => last
  | x :: r => rfind_from c r (i + 1) (if (x =? c)%N then i else last)
  end.

(** [s.find(c)] and [s.rfind(c)] for a one-character pattern: the lowest
    (highest) index where it occurs, [-1] when it does not. *)
Definition str_find (s : pystr) (c : N) : Z := find_from c (codepoints s) 0.
Definition str_rfind (s : pystr) (c : N) : Z := rfind_from c (codepoints s) 0 (-1).

(** [str.isspace] on one code point: the characters Python's [str.strip()]
    removes (Unicode white space). *)
Definition py_isspace (c : N) : bool :=
  ((9 <=? c) && (c <=? 13) || (28 <=? c) && (c <=? 32) || (c =? 133) || (c =? 160)
   || (c =? 5760) || (8192 <=? c) && (c <=? 8202) || (c =? 8232) || (c =? 8233)
   || (c =? 8239) || (c =? 8287) || (c =? 12288))%N.

Fixpoint lstrip (l : list N) : list N :=
  match l with
  | [] => []
  | x :: r => if py_isspace x then lstrip r else l
  end.

(** [s.strip()] *)
Definition str_strip (s : pystr) : pystr :=
  PyStr (rev (lstrip (rev (lstrip (codepoints s))))).

(** [sep.join(parts)] *)
Fixpoint str_join (sep : pystr) (parts : list pystr) : pystr :=
  match parts with
  | [] => ""
  | [p] => p
  | p :: rest => p +++ sep +++ str_join sep rest
  end.

(** [c * n] for a one-character string, as in ['=' * 50] *)
Definition str_repeat (c : N) (n : nat) : pystr := PyStr (repeat c n).

(** Decimal digits of a natural number, most significant first; [fuel] bounds
    the number of digits. *)
Fixpoint digits_of (fuel : nat) (n : N) (acc : list N) : list N :=
  match fuel with
  | O => acc
  | S fuel' =>
    let acc' := (48 + n mod 10)%N :: acc in
    if (n <? 10)%N then acc' else digits_of fuel' (n / 10)%N acc'
  end.

(** [str(n)] for an [int] that counts something *)
Definition str_of_nat (n : nat) : pystr :=
  PyStr (digits_of (S n) (N.of_nat n) []).

(** Characters the program names. *)
Definition LBRACE : N := 123%N.
Definition RBRACE : N := 125%N.
Definition dquote : pystr := PyStr [34%N].

(* ===================================================================== *)
(** ** Python values, exceptions and effects *)
(* ===================================================================== *)

(** What [json.loads] can return: [None], [bool], [int], [float], [str],
    [list], and [dict] with string keys (its items in insertion order). *)
Inductive pyval :=
| PNone
| PBool (b : bool)
| PInt (z : Z)
| PFloat (f : float)
| PStr (s : pystr)
| PList (l : list pyval)
| PDict (items : list (pystr * pyval)).

(** An issue record is a [dict] of text fields, an analysis a [dict] of JSON
    values.  Nothing iterates over either, so both are finite maps. *)
Abbreviation issue_record := (gmap pystr pystr).
Abbreviation pydict := (gmap pystr pyval).

(** The exceptions of the program, all subclasses of [Exception]: the ones
    the interpreter raises on the program's own operations, the ones the
    program raises itself, and the ones its collaborators raise.
    [OtherError cls msg] is any further subclass of [Exception] a collaborator
    can raise (a network failure of the HTTP layer, an API response error of
    the ticket store, ...).  Exits of the interpreter ([KeyboardInterrupt],
    [SystemExit]) are not [Exception]s and are outside the model. *)
Inductive exn :=
| KeyError (key : pystr)
| TypeError (msg : pystr)
| AttributeError (msg : pystr)
| ValueError (msg : pystr)
| JSONDecodeError (msg : pystr)
| SlackApiError (msg : pystr) (error : pystr)
| HTTPException (status_code : Z) (detail : pystr)
| OtherError (cls : pystr) (msg : pystr).

(** [isinstance(e, SlackApiError)] *)
Definition is_SlackApiError (e : exn) : bool :=
  match e with SlackApiError _ _ => true | _ => false end.

(** [isinstance(e, HTTPException)] *)
Definition is_HTTPException (e : exn) : bool :=
  match e with HTTPException _ _ => true | _ => false end.

(** [str(e)], as the f-strings of the log lines format an exception.  A
    [KeyError] prints the [repr] of its key; the keys of this program are
    plain identifiers, whose [repr] is the key between single quotes. *)
Definition exn_str (e : exn) : pystr :=
  match e with
  | KeyError k => "'" +++ k +++ "'"
  | TypeError m | AttributeError m | ValueError m | JSONDecodeError m => m
  | SlackApiError m _ => m
  | HTTPException c d => str_of_nat (Z.to_nat c) +++ ": " +++ d
  | OtherError _ m => m
  end.

Inductive res (A : Type) :=
| Return (a : A)
| Raise (e : exn).
Arguments Return {A} a.
Arguments Raise {A} e.

(** *** What the program sends to its collaborators *)

(** A block of a ticket page: a second-level heading with a fixed title, or a
    paragraph whose rich text holds the given content. *)
Inductive notion_block :=
| Heading2 (content : pystr)
| Paragraph (content : pyval).

(** The arguments of [pages.create]: the database, the page properties
    (Subject, Category, Priority, Sender, Date, Status) and the child
    blocks. *)
Record notion_page := {
  page_database_id : option pystr;
  page_subject : pystr;
  page_category : pyval;
  page_priority : pyval;
  page_sender : pystr;
  page_date : pystr;
  page_status : pystr;
  page_children : list notion_block
}.

(** A block of a chat message: a plain-text header, a section of mrkdwn
    fields, a section of one mrkdwn text, a divider. *)
Inductive slack_block :=
| Header (text : pystr)
| SectionFields (fields : list pystr)
| SectionText (text : pystr)
| Divider.

(** The arguments of [chat_postMessage]. *)
Record slack_post := {
  post_channel : option pystr;
  post_text : pystr;
  post_blocks : option (list slack_block)
}.

(** *** The trace of a run *)

(** Everything a run does that is visible outside it, in order: lines
    printed to the console and calls to the collaborators (recorded when the
    call is made, whatever its outcome). *)
Inductive event :=
| Printed (line : pystr)
| GmailListed (max_results : option Z)
| GmailGot (id : pystr)
| LlmInvoked (prompt : pystr)
| NotionCreated (page : notion_page)
| SlackPosted (post : slack_post).

Abbreviation trace := (list event).

(** A message of the mail store as [messages().get] returns it: the headers
    of its payload as (name, value) pairs, and its snippet when present. *)
Record gmail_message := {
  msg_headers : list (pystr * pystr);
  msg_snippet : option pystr
}.

(** The mail store: [messages().list(maxResults=n).execute()] ([n] may be
    [None]) yields the
    ["messages"] entry of the response (absent when the mailbox is empty) as
    the list of message ids; [messages().get(id=i).execute()] yields one
    message.  Either may raise.  Like every collaborator below, the answer
    may depend on the whole history of the run. *)
Record gmail_api := {
  messages_list : trace -> option Z -> res (option (list pystr));
  messages_get : trace -> pystr -> res gmail_message
}.

(** An issue with its analysis: [{"issue": issue, "analysis": analysis}] in
    [gmail.py], the issue dictionary with an ["analysis"] entry in
    [backend.py]. *)
Record processed_item := {
  item_issue : issue_record;
  item_analysis : pydict
}.

(** The arguments of the [CategoryStats] and [DashboardStats] models of
    [backend.py]; a dictionary of counts is given as its items in insertion
    order. *)
Record category_stats := {
  cs_category : pyval;
  cs_count : nat;
  cs_percentage : float
}.

Record dashboard_stats := {
  total_issues : nat;
  by_category : list category_stats;
  by_priority : list (pyval * nat);
  recent_issues : list processed_item
}.

(** The environment of a run: the library functions the program calls but
    does not define, and the module-level service handles ([None] when the
    service is not configured). *)
Record env := {
  (** [json.loads] *)
  json_loads : pystr -> res pyval;
  (** [str(v)] of a value that is not a [str] (an f-string placeholder) *)
  builtin_str : pyval -> pystr;
  (** [json.dumps] of a dictionary of counts, given as its items *)
  json_dumps : list (pyval * nat) -> res pystr;
  (** [datetime.datetime.now().isoformat()] *)
  now_isoformat : trace -> pystr;
  (** [datetime.datetime.now().strftime(fmt)] *)
  now_strftime : trace -> pystr -> pystr;
  (** [os.getenv] *)
  getenv : pystr -> option pystr;
  (** The constructors of the pydantic models [EmailIssue], [CategoryStats]
      and [DashboardStats], which validate (and may convert) their fields and
      raise when a field is missing or of the wrong type *)
  new_EmailIssue : processed_item -> res processed_item;
  new_CategoryStats : category_stats -> res category_stats;
  new_DashboardStats : dashboard_stats -> res dashboard_stats;
  gmail_service : option gmail_api;
  notion_client : option (trace -> notion_page -> res unit);
  slack_client : option (trace -> slack_post -> res unit);
  cerebras_llm : option (trace -> pystr -> res pystr)
}.

(** *** Computations: a trace and a possible exception *)

Definition M (A : Type) : Type := trace -> res A * trace.

#[global] Instance M_ret : MRet M := fun A a t => (Return a, t).

#[global] Instance M_bind : MBind M := fun A B f m t =>
  match m t with
  | (Return a, t') => f a t'
  | (Raise e, t') => (Raise e, t')
  end.

(** [raise e] *)
Definition raise {A} (e : exn) : M A := fun t => (Raise e, t).

(** A pure operation that may raise. *)
Definition lift {A} (r : res A) : M A := fun t => (r, t).

(** [try: body / except Exception as e: handler(e)] *)
Definition try_except {A} (body : M A) (handler : exn -> M A) : M A := fun t =>
  match body t with
  | (Return a, t') => (Return a, t')
  | (Raise e, t') => handler e t'
  end.

(** [try: body / except cls as e: handler(e)] for the exception class
    recognised by [cls]: any other exception propagates. *)
Definition try_except_only {A} (cls : exn -> bool) (body : M A)
    (handler : exn -> M A) : M A := fun t =>
  match body t with
  | (Return a, t') => (Return a, t')
  | (Raise e, t') => if cls e then handler e t' else (Raise e, t')
  end.

(** [print(line)] *)
Definition print (line : pystr) : M unit := fun t => (Return tt, t ++ [Printed line]).

(** A call to a collaborator: the call is recorded, its outcome is the
    collaborator's answer to the request after the history so far. *)
Definition call {Q A} (ev : Q -> event) (f : trace -> Q -> res A) (q : Q) : M A :=
  fun t => (f t q, t ++ [ev q]).

(** [for x in xs: body(x)] *)
Fixpoint for_each {A} (xs : list A) (body : A -> M unit) : M unit :=
  match xs with
  | [] => mret tt
  | x :: rest => body x ;; for_each rest body
  end.

(** [d[k]] on a dictionary *)
Definition dict_index {V} (d : gmap pystr V) (k : pystr) : res V :=
  match d !! k with
  | Some v => Return v
  | None => Raise (KeyError k)
  end.

(** [d.setdefault(k, v)]: sets [k] only when it is absent *)
Definition dict_setdefault {V} (k : pystr) (v : V) (d : gmap pystr V) : gmap pystr V :=
  match d !! k with
  | Some _ => d
  | None => <[k := v]> d
  end.

(** [str(v)] *)
Definition py_str (e : env) (v : pyval) : pystr :=
  match v with
  | PStr s => s
  | _ => builtin_str e v
  end.

(** The name of a value's type, as error messages print it. *)
Definition type_name (v : pyval) : pystr :=
  match v with
  | PNone => "NoneType"
  | PBool _ => "bool"
  | PInt _ => "int"
  | PFloat _ => "float"
  | PStr _ => "str"
  | PList _ => "list"
  | PDict _ => "dict"
  end.

(** The dictionary with the given items, a later item replacing an earlier
    one of the same key. *)
Definition dict_of_items (items : list (pystr * pyval)) : pydict :=
  foldl (fun d kv => <[kv.1 := kv.2]> d) ∅ items.

(** The receiver of [analysis.get(...)], [analysis[...] = ...] and
    [analysis.setdefault(...)]: a value that is not a [dict] has none of
    these methods. *)
Definition as_dict (v : pyval) : res pydict :=
  match v with
  | PDict items => Return (dict_of_items items)
  | _ => Raise (AttributeError ("'" +++ type_name v +++ "' object has no attribute 'get'"))
  end.

(** [v in names] for a list of strings: membership compares with [==], and
    only a [str] equals a [str]; an absent entry ([.get] gave [None]) is in
    no such list. *)
Definition in_names (v : option pyval) (names : list pystr) : bool :=
  match v with
  | Some (PStr s) => bool_decide (s ∈ names)
  | _ => false
  end.

(** [next((h["value"] for h in headers if h["name"] == name), default)] *)
Definition header_value (name : pystr) (headers : list (pystr * pystr))
    (default : pystr) : pystr :=
  match List.find (fun h => bool_decide (h.1 = name)) headers with
  | Some h => h.2
  | None => default
  end.

(** The first ['{'] and one past the last ['}'] of a completion. *)
Definition json_start (response_text : pystr) : Z := str_find response_text LBRACE.
Definition json_end (response_text : pystr) : Z := str_rfind response_text RBRACE + 1.

(** [json_start != -1 and json_end > json_start] *)
Definition has_json_span (response_text : pystr) : bool :=
  negb (json_start response_text =? -1) && (json_end response_text >? json_start response_text).

#[global] Instance res_ret : MRet res := fun A a => Return a.

#[global] Instance res_bind : MBind res := fun A B f r =>
  match r with
  | Return a => f a
  | Raise ex => Raise ex
  end.

(** [[f(x) for x in xs]] for an [f] that may raise *)
Fixpoint map_res {A B} (f : A -> res B) (xs : list A) : res (list B) :=
  match xs with
  | [] => Return []
  | x :: rest =>
    match f x with
    | Return y =>
      match map_res f rest with
      | Return ys => Return (y :: ys)
      | Raise ex => Raise ex
      end
    | Raise ex => Raise ex
    end
  end.

(** [for item in v]: the items of a list, the characters of a string, the
    keys of a dictionary; other values are not iterable. *)
Definition py_iter (v : pyval) : res (list pyval) :=
  match v with
  | PList l => Return l
  | PStr s => Return (map (fun c => PStr (PyStr [c])) (codepoints s))
  | PDict items => Return (map (fun kv => PStr kv.1) items)
  | _ => Raise (TypeError ("'" +++ type_name v +++ "' object is not iterable"))
  end.

(** [v[:n]]: a prefix of a string or of a list; a dictionary cannot be
    indexed by a slice and other values cannot be subscripted. *)
Definition py_prefix (n : nat) (v : pyval) : res pyval :=
  match v with
  | PStr s => Return (PStr (str_prefix n s))
  | PList l => Return (PList (take n l))
  | PDict _ => Raise (TypeError "unhashable type: 'slice'")
  | _ => Raise (TypeError ("'" +++ type_name v +++ "' object is not subscriptable"))
  end.

(** [len(v)] of a string or a list *)
Definition py_len (v : pyval) : nat :=
  match v with
  | PStr s => str_len s
  | PList l => length l
  | _ => 0%nat
  end.

(** A value used as a dictionary key must be hashable: lists and
    dictionaries are not. *)
Definition check_hashable (v : pyval) : res unit :=
  match v with
  | PList _ | PDict _ => Raise (TypeError ("unhashable type: '" +++ type_name v +++ "'"))
  | _ => Return tt
  end.

(** [table.get(key, default)] on a dictionary literal with string keys: only
    a [str] equals one of its keys. *)
Definition table_get (table : list (pystr * pystr)) (key : pyval) (dflt : pystr)
    : res pystr :=
  match check_hashable key with
  | Raise ex => Raise ex
  | Return _ =>
    match key with
    | PStr s => Return (default dflt (snd <$> List.find (fun kv => bool_decide (kv.1 = s)) table))
    | _ => Return dflt
    end
  end.

(** *** Dictionaries of counts *)

(** The exact comparison [z == f] of an [int] with a [float]. *)
Definition float_eq_Z (f : float) (z : Z) : bool :=
  match Prim2SF f with
  | S754_zero _ => z =? 0
  | S754_finite s m e =>
    let sign := if s then -1 else 1 in
    if 0 <=? e then z =? sign * (Z.pos m * 2 ^ e)
    else (Z.pos m mod 2 ^ (- e) =? 0) && (z =? sign * (Z.pos m / 2 ^ (- e)))
  | _ => false
  end.

(** Two hashable values are the same dictionary key when they are equal:
    numbers compare by value across [bool], [int] and [float]; a string equals
    only the same string.  The one not-a-number [json.loads] returns is a
    single object, found again by identity. *)
Definition py_key_eqb (v w : pyval) : bool :=
  match v, w with
  | PNone, PNone => true
  | PStr s, PStr s' => bool_decide (s = s')
  | PBool b, PBool b' => bool_decide (b = b')
  | PBool b, PInt z | PInt z, PBool b => z =? (if b then 1 else 0)
  | PInt z, PInt z' => z =? z'
  | PBool b, PFloat f | PFloat f, PBool b => float_eq_Z f (if b then 1 else 0)
  | PInt z, PFloat f | PFloat f, PInt z => float_eq_Z f z
  | PFloat f, PFloat f' => PrimFloat.eqb f f' || (PrimFloat.is_nan f && PrimFloat.is_nan f')
  | _, _ => false
  end.

(** A dictionary of counts, as its items in insertion order. *)
Abbreviation counts := (list (pyval * nat)).

(** [d.get(key, 0)] *)
Fixpoint counts_get (d : counts) (key : pyval) : nat :=
  match d with
  | [] => 0%nat
  | (k, n) :: rest => if py_key_eqb k key then n else counts_get rest key
  end.

(** [d[key] = n]: replaces the value of an existing key where it stands, adds
    a new key at the end. *)
Fixpoint counts_set (d : counts) (key : pyval) (n : nat) : counts :=
  match d with
  | [] => [(key, n)]
  | (k, m) :: rest =>
    if py_key_eqb k key then (k, n) :: rest else (k, m) :: counts_set rest key n
  end.

(** [d[key]] for a string key, which raises when the key is absent. *)
Fixpoint counts_index (d : counts) (key : pystr) : res nat :=
  match d with
  | [] => Raise (KeyError key)
  | (k, n) :: rest => if py_key_eqb k (PStr key) then Return n else counts_index rest key
  end.

(** Insertion of an item in a list sorted by decreasing count, after the
    items of a strictly larger count and before all others. *)
Fixpoint insert_by_count (x : pyval * nat) (l : counts) : counts :=
  match l with
  | [] => [x]
  | y :: rest => if (x.2 <? y.2)%nat then y :: insert_by_count x rest else x :: l
  end.

(** [sorted(d.items(), key=lambda x: x[1], reverse=True)]: by decreasing
    count, items of equal count in their original order. *)
Definition sorted_by_count (d : counts) : counts := foldr insert_by_count [] d.

(* ===================================================================== *)
(** ** [magneto/gmail.py] *)
(* ===================================================================== *)

Module Gmail.

Definition MAINTENANCE_CATEGORIES : list pystr :=
  ["Electrical"; "Plumbing"; "IT Support"; "HVAC"; "General Inquiry"].

(** The module's [gmail_service] is built when the module is imported, which
    fails when it cannot be built; a run therefore has one. *)
Definition the_gmail_service (e : env) : M gmail_api :=
  match gmail_service e with
  | Some api => mret api
  | None => raise (AttributeError "'NoneType' object has no attribute 'users'")
  end.

(** The issue record built from one message (the body of the loop of
    [fetch_gmail_issues]). *)
Definition issue_of_message (id : pystr) (msg_data : gmail_message) : issue_record :=
  let headers := msg_headers msg_data in
  let subject := header_value "Subject" headers "(No Subject)" in
  let sender := header_value "From" headers "(Unknown)" in
  let date := header_value "Date" headers "" in
  let snippet := default "" (msg_snippet msg_data) in
  {[ "id" := id; "subject" := subject; "sender" := sender; "date" := date;
     "snippet" := snippet ]}.

Fixpoint fetch_messages (api : gmail_api) (ids : list pystr) : M (list issue_record) :=
  match ids with
  | [] => mret []
  | id :: rest =>
    msg_data ← call GmailGot (messages_get api) id;
    issue_list ← fetch_messages api rest;
    mret (issue_of_message id msg_data :: issue_list)
  end.

Definition fetch_gmail_issues (e : env) : M (list issue_record) :=
  api ← the_gmail_service e;
  messages ← call GmailListed (messages_list api) (Some 10);
  fetch_messages api (default [] messages).

(** The f-string of the classification prompt. *)
Definition classify_prompt (subject sender date snippet : pystr) : pystr :=
  "You are an AI Maintenance Supervisor analyzing facility maintenance requests.

MAINTENANCE REQUEST:
Subject: " +++ subject +++ "
From: " +++ sender +++ "
Date: " +++ date +++ "
Content: " +++ snippet +++ "

TASK: Analyze this maintenance issue and provide a structured response in JSON format.

CATEGORIES (choose ONE):
- Electrical: Power outages, wiring issues, lighting problems, circuit breakers, electrical safety
- Plumbing: Leaks, clogs, water pressure, pipes, drains, toilets, faucets, water heaters
- IT Support: Computers, network issues, software problems, printers, access cards, security systems
- HVAC: Heating, cooling, air conditioning, ventilation, temperature control, air quality
- General Inquiry: Questions, requests that don't fit above, or multi-category issues

OUTPUT FORMAT (must be valid JSON):
{
    " +++ dquote +++ "category" +++ dquote +++ ": " +++ dquote +++ "<one of the 5 categories above>" +++ dquote +++ ",
    " +++ dquote +++ "summary" +++ dquote +++ ": " +++ dquote +++ "<2-3 sentence summary of the issue>" +++ dquote +++ ",
    " +++ dquote +++ "priority" +++ dquote +++ ": " +++ dquote +++ "<High/Medium/Low>" +++ dquote +++ ",
    " +++ dquote +++ "root_cause" +++ dquote +++ ": " +++ dquote +++ "<likely root cause analysis in 1-2 sentences>" +++ dquote +++ ",
    " +++ dquote +++ "action_items" +++ dquote +++ ": [" +++ dquote +++ "<specific action 1>" +++ dquote +++ ", " +++ dquote +++ "<specific action 2>" +++ dquote +++ ", " +++ dquote +++ "..." +++ dquote +++ "]
}

PRIORITY GUIDELINES:
- High: Safety hazards, complete system failures, affecting multiple people
- Medium: Partial failures, inconvenience, single person affected
- Low: Minor issues, cosmetic problems, non-urgent requests

Respond ONLY with the JSON object, no additional text.".

(** The prompt for an issue: the four subscripts of the f-string, in order. *)
Definition prompt_of (issue : issue_record) : res pystr :=
  match issue !! "subject", issue !! "sender", issue !! "date", issue !! "snippet" with
  | Some subject, Some sender, Some date, Some snippet =>
    Return (classify_prompt subject sender date snippet)
  | None, _, _, _ => Raise (KeyError "subject")
  | _, None, _, _ => Raise (KeyError "sender")
  | _, _, None, _ => Raise (KeyError "date")
  | _, _, _, None => Raise (KeyError "snippet")
  end.

(** The result when the model is not configured. *)
Definition unconfigured_analysis (issue : issue_record) : pydict :=
  {[ "category" := PStr "General Inquiry";
     "summary" := PStr (default "No summary available" (issue !! "snippet"));
     "priority" := PStr "Medium";
     "root_cause" := PStr "Unable to determine (AI not configured)";
     "action_items" := PList [PStr "Manual review required"] ]}.

(** The result of the [except] branch. *)
Definition fallback_analysis (issue : issue_record) : pydict :=
  {[ "category" := PStr "General Inquiry";
     "summary" := PStr (default "No summary available" (issue !! "snippet"));
     "priority" := PStr "Medium";
     "root_cause" := PStr "Classification failed - manual review needed";
     "action_items" := PList [PStr "Manual classification required";
                              PStr "Review email content"] ]}.

(** Validation of the category and the defaults of the other fields. *)
Definition repair (issue : issue_record) (analysis : pydict) : pydict :=
  let analysis :=
    if in_names (analysis !! "category") MAINTENANCE_CATEGORIES then analysis
    else <["category" := PStr "General Inquiry"]> analysis in
  let analysis :=
    dict_setdefault "summary" (PStr (default "No summary" (issue !! "snippet"))) analysis in
  let analysis := dict_setdefault "priority" (PStr "Medium") analysis in
  let analysis := dict_setdefault "root_cause" (PStr "To be determined") analysis in
  dict_setdefault "action_items" (PList [PStr "Review and assess"]) analysis.

Definition classify_maintenance_issue (e : env) (issue : issue_record) : M pydict :=
  match cerebras_llm e with
  | None => mret (unconfigured_analysis issue)
  | Some llm =>
    try_except
      (prompt ← lift (prompt_of issue);
       content ← call LlmInvoked llm prompt;
       let response_text := str_strip content in
       if has_json_span response_text then
         let json_str := str_slice response_text (json_start response_text)
                                   (json_end response_text) in
         parsed ← lift (json_loads e json_str);
         analysis ← lift (as_dict parsed);
         mret (repair issue analysis)
       else raise (ValueError "No valid JSON found in response"))
      (fun ex =>
         print ("⚠️  AI classification failed: " +++ exn_str ex);;
         mret (fallback_analysis issue))
  end.

(** ["\n".join([f"• {item}" for item in analysis.get("action_items", [])])] *)
Definition action_items_text (e : env) (analysis : pydict) : res pystr :=
  match py_iter (default (PList []) (analysis !! "action_items")) with
  | Return items => Return (str_join "
" (map (fun item => "• " +++ py_str e item) items))
  | Raise ex => Raise ex
  end.

(** The page [add_to_notion] creates: every argument of [pages.create], its
    subscripts and slices evaluated in the order of the source. *)
Definition notion_page_of (e : env) (issue : issue_record) (analysis : pydict)
    : M notion_page :=
  items_text ← lift (action_items_text e analysis);
  subject ← lift (dict_index issue "subject");
  category ← lift (dict_index analysis "category");
  priority ← lift (dict_index analysis "priority");
  sender ← lift (dict_index issue "sender");
  date ← (fun t => (Return (now_isoformat e t), t));
  summary ← lift (dict_index analysis "summary");
  summary ← lift (py_prefix 2000 summary);
  root_cause ← lift (dict_index analysis "root_cause");
  root_cause ← lift (py_prefix 2000 root_cause);
  snippet ← lift (dict_index issue "snippet");
  mret {| page_database_id := getenv e "NOTION_DATABASE_ID";
          page_subject := str_prefix 2000 subject;
          page_category := category;
          page_priority := priority;
          page_sender := str_prefix 2000 sender;
          page_date := date;
          page_status := "Open";
          page_children :=
            [ Heading2 "📋 Summary";
              Paragraph summary;
              Heading2 "🔍 Root Cause Analysis";
              Paragraph root_cause;
              Heading2 "✅ Action Items";
              Paragraph (PStr (str_prefix 2000 items_text));
              Heading2 "📧 Original Email";
              Paragraph (PStr (str_prefix 2000 snippet)) ] |}.

Definition add_to_notion (e : env) (issue : issue_record) (analysis : pydict) : M unit :=
  match notion_client e with
  | None =>
    subject ← lift (dict_index issue "subject");
    print ("⏭️  Skipping Notion: " +++ subject)
  | Some notion =>
    try_except
      (page ← notion_page_of e issue analysis;
       call NotionCreated notion page;;
       subject ← lift (dict_index issue "subject");
       category ← lift (dict_index analysis "category");
       print ("✅ Added to Notion: " +++ subject +++ " [" +++ py_str e category +++ "]"))
      (fun ex => print ("❌ Failed to add to Notion: " +++ exn_str ex))
  end.

(** [if blocks:] holds for a list that is not empty. *)
Definition truthy_blocks (blocks : option (list slack_block)) : bool :=
  match blocks with
  | Some (_ :: _) => true
  | _ => false
  end.

(** The text [e.response['error']] of a chat API error. *)
Definition response_error (ex : exn) : pystr :=
  match ex with
  | SlackApiError _ err => err
  | _ => ""
  end.

Definition send_slack_message (e : env) (text : pystr)
    (blocks : option (list slack_block)) : M unit :=
  match slack_client e with
  | None => print "⏭️  Skipping Slack notification"
  | Some client =>
    try_except_only is_SlackApiError
      ((if truthy_blocks blocks then
          call SlackPosted client
               {| post_channel := getenv e "SLACK_CHANNEL_ID"; post_text := text;
                  post_blocks := blocks |}
        else
          call SlackPosted client
               {| post_channel := getenv e "SLACK_CHANNEL_ID"; post_text := text;
                  post_blocks := None |});;
       print "✅ Sent to Slack")
      (fun ex => print ("❌ Slack Error: " +++ response_error ex))
  end.

Definition category_emojis : list (pystr * pystr) :=
  [("Electrical", "⚡"); ("Plumbing", "🚰"); ("IT Support", "💻"); ("HVAC", "🌡️");
   ("General Inquiry", "📋")].

Definition priority_emojis : list (pystr * pystr) :=
  [("High", "🔴"); ("Medium", "🟡"); ("Low", "🟢")].

Definition format_maintenance_slack_message (e : env) (issue : issue_record)
    (analysis : pydict) : M (pystr * list slack_block) :=
  category ← lift (dict_index analysis "category");
  category_emoji ← lift (table_get category_emojis category "📋");
  priority ← lift (dict_index analysis "priority");
  priority_emoji ← lift (table_get priority_emojis priority "🟡");
  items_text ← lift (action_items_text e analysis);
  sender ← lift (dict_index issue "sender");
  now ← (fun t => (Return (now_strftime e t "%Y-%m-%d %H:%M"), t));
  subject ← lift (dict_index issue "subject");
  summary ← lift (dict_index analysis "summary");
  root_cause ← lift (dict_index analysis "root_cause");
  let blocks :=
    [ Header (category_emoji +++ " New Maintenance Request");
      SectionFields
        [ "*Category:*
" +++ category_emoji +++ " " +++ py_str e category;
          "*Priority:*
" +++ priority_emoji +++ " " +++ py_str e priority ];
      SectionFields
        [ "*From:*
" +++ sender;
          "*Date:*
" +++ now ];
      SectionText ("*Subject:*
" +++ subject);
      Divider;
      SectionText ("*📋 Summary:*
" +++ py_str e summary);
      SectionText ("*🔍 Root Cause:*
" +++ py_str e root_cause);
      SectionText ("*✅ Action Items:*
" +++ items_text) ] in
  let fallback_text :=
    category_emoji +++ " " +++ py_str e category +++ " - " +++ py_str e priority
      +++ " Priority: " +++ subject in
  mret (fallback_text, blocks).

(** One step of the counting loop of [generate_daily_summary_with_ai]. *)
Definition count_item (acc : counts * counts) (item : processed_item)
    : res (counts * counts) :=
  let '(category_counts, priority_counts) := acc in
  let analysis := item_analysis item in
  category ← dict_index analysis "category";
  priority ← dict_index analysis "priority";
  check_hashable category;;
  let category_counts :=
    counts_set category_counts category (counts_get category_counts category + 1) in
  check_hashable priority;;
  let priority_counts :=
    counts_set priority_counts priority (counts_get priority_counts priority) in
  Return (category_counts, priority_counts).

Fixpoint count_items (items : list processed_item) (acc : counts * counts)
    : res (counts * counts) :=
  match items with
  | [] => Return acc
  | item :: rest =>
    match count_item acc item with
    | Return acc' => count_items rest acc'
    | Raise ex => Raise ex
    end
  end.

(** [category_counts = {}] and [priority_counts = {"High": 0, "Medium": 0, "Low": 0}] *)
Definition initial_counts : counts * counts :=
  ([], [(PStr "High", 0%nat); (PStr "Medium", 0%nat); (PStr "Low", 0%nat)]).

(** The lines [f"• {emoji} {cat}: {count}\n"] of the categories, by
    decreasing count. *)
Definition category_lines (e : env) (category_counts : counts) : res pystr :=
  lines ← map_res (fun cc : pyval * nat =>
                     emoji ← table_get category_emojis cc.1 "📋";
                     Return ("• " +++ emoji +++ " " +++ py_str e cc.1 +++ ": "
                               +++ str_of_nat cc.2 +++ "
"))
                  (sorted_by_count category_counts);
  Return (foldr str_cat "" lines).

(** The numbered listing of the issues given to the model, from [idx]. *)
Fixpoint issue_lines (e : env) (idx : nat) (items : list processed_item)
    : res (list pystr) :=
  match items with
  | [] => Return []
  | item :: rest =>
    category ← dict_index (item_analysis item) "category";
    priority ← dict_index (item_analysis item) "priority";
    subject ← dict_index (item_issue item) "subject";
    sender ← dict_index (item_issue item) "sender";
    lines ← issue_lines e (S idx) rest;
    Return ((str_of_nat idx +++ ". [" +++ py_str e category +++ "] " +++ py_str e priority
               +++ " - " +++ subject +++ " (from " +++ sender +++ ")") :: lines)
  end.

(** The listing of the fallback report, from [idx]. *)
Fixpoint top_issue_lines (e : env) (idx : nat) (items : list processed_item)
    : res pystr :=
  match items with
  | [] => Return ""
  | item :: rest =>
    category ← dict_index (item_analysis item) "category";
    priority ← dict_index (item_analysis item) "priority";
    subject ← dict_index (item_issue item) "subject";
    lines ← top_issue_lines e (S idx) rest;
    Return (str_of_nat idx +++ ". [" +++ py_str e category +++ "] " +++ py_str e priority
              +++ ": " +++ str_prefix 60 subject +++ "...
" +++ lines)
  end.

Definition summary_prompt (total : nat) (category_json priority_json issues_summary : pystr)
    : pystr :=
  "Create a professional daily maintenance summary report.

STATISTICS:
Total Issues: " +++ str_of_nat total +++ "
By Category: " +++ category_json +++ "
By Priority: " +++ priority_json +++ "

ISSUES DETAILS:
" +++ issues_summary +++ "

Please provide:
1. Executive summary of the day's maintenance requests
2. Key trends or patterns by category
3. High priority items requiring immediate attention
4. Recommended resource allocation
5. Any systemic issues identified

Format professionally and concisely for management review.".

(** The statistics header put before the model's narrative. *)
Definition stats_header (today : pystr) (total high medium low : nat) : pystr :=
  "📅 *Daily Maintenance Report* - " +++ today +++ "

📊 *Quick Stats:*
• Total Issues: " +++ str_of_nat total +++ "
• High Priority: " +++ str_of_nat high +++ " | Medium: " +++ str_of_nat medium +++ " | Low: " +++ str_of_nat low +++ "

📂 *By Category:*
".

(** The head of the fallback report and its priority section. *)
Definition fallback_head (today : pystr) (total : nat) : pystr :=
  "📅 *Daily Maintenance Report* - " +++ today +++ "

📊 *Summary:*
Total Issues Processed: " +++ str_of_nat total +++ "

📂 *By Category:*
".

Definition priority_section (high medium low : nat) : pystr :=
  "
🚨 *By Priority:*
• 🔴 High: " +++ str_of_nat high +++ "
• 🟡 Medium: " +++ str_of_nat medium +++ "
• 🟢 Low: " +++ str_of_nat low +++ "

📋 *Top Issues:*
".

Definition no_issues_message : pystr :=
  "📅 *Daily Maintenance Report*

No issues processed today.".

(** [datetime.datetime.now().strftime(fmt)] *)
Definition strftime_now (e : env) (fmt : pystr) : M pystr :=
  fun t => (Return (now_strftime e t fmt), t).

(** The body of the [try] of [generate_daily_summary_with_ai]. *)
Definition narrated_summary (e : env) (llm : trace -> pystr -> res pystr)
    (items : list processed_item) (category_counts priority_counts : counts)
    : M pystr :=
  let total := length items in
  lines ← lift (issue_lines e 1 items);
  let issues_summary := str_join "
" lines in
  category_json ← lift (json_dumps e category_counts);
  priority_json ← lift (json_dumps e priority_counts);
  content ← call LlmInvoked llm
            (summary_prompt total category_json priority_json issues_summary);
  let ai_summary := str_strip content in
  today ← strftime_now e "%Y-%m-%d";
  high ← lift (counts_index priority_counts "High");
  medium ← lift (counts_index priority_counts "Medium");
  low ← lift (counts_index priority_counts "Low");
  by_category ← lift (category_lines e category_counts);
  let header := stats_header today total high medium low +++ by_category in
  mret (header +++ "
" +++ str_repeat 61 50 +++ "

" +++ ai_summary).

(** The report built without the model. *)
Definition fallback_summary (e : env) (items : list processed_item)
    (category_counts priority_counts : counts) : M pystr :=
  let total := length items in
  today ← strftime_now e "%Y-%m-%d";
  by_category ← lift (category_lines e category_counts);
  high ← lift (counts_index priority_counts "High");
  medium ← lift (counts_index priority_counts "Medium");
  low ← lift (counts_index priority_counts "Low");
  top ← lift (top_issue_lines e 1 (take 5 items));
  mret (fallback_head today total +++ by_category +++ priority_section high medium low
          +++ top).

Definition generate_daily_summary_with_ai (e : env) (issues_with_analysis : list processed_item)
    : M pystr :=
  match issues_with_analysis with
  | [] => mret no_issues_message
  | _ :: _ =>
    '(category_counts, priority_counts) ←
      lift (count_items issues_with_analysis initial_counts);
    narrated ←
      match cerebras_llm e with
      | Some llm =>
        try_except
          (report ← narrated_summary e llm issues_with_analysis category_counts
                                     priority_counts;
           mret (Some report))
          (fun ex => print ("⚠️  AI daily summary failed: " +++ exn_str ex);; mret None)
      | None => mret None
      end;
    match narrated with
    | Some report => mret report
    | None => fallback_summary e issues_with_analysis category_counts priority_counts
    end
  end.

(** The loop of [main] over the fetched issues, [idx] being the number of
    the first one and [n] their total; the result is [issues_with_analysis]. *)
Fixpoint process_issues (e : env) (n idx : nat) (issues : list issue_record)
    : M (list processed_item) :=
  match issues with
  | [] => mret []
  | issue :: rest =>
    subject ← lift (dict_index issue "subject");
    print ("
[" +++ str_of_nat idx +++ "/" +++ str_of_nat n +++ "] Analyzing: "
             +++ str_prefix 60 subject +++ "...");;
    sender ← lift (dict_index issue "sender");
    print ("   From: " +++ sender);;
    print "   🤖 Classifying maintenance issue...";;
    analysis ← classify_maintenance_issue e issue;
    category ← lift (dict_index analysis "category");
    priority ← lift (dict_index analysis "priority");
    print ("   ✓ Category: " +++ py_str e category +++ " | Priority: " +++ py_str e priority);;
    add_to_notion e issue analysis;;
    '(fallback_text, blocks) ← format_maintenance_slack_message e issue analysis;
    send_slack_message e fallback_text (Some blocks);;
    issues_with_analysis ← process_issues e n (S idx) rest;
    mret ({| item_issue := issue; item_analysis := analysis |} :: issues_with_analysis)
  end.

Definition main (e : env) : M unit :=
  print ("
" +++ str_repeat 61 70);;
  print "🔧 AI MAINTENANCE SUPERVISOR - Starting Analysis...";;
  print (str_repeat 61 70 +++ "
");;
  issues ← fetch_gmail_issues e;
  match issues with
  | [] => print "📭 No emails found."
  | _ :: _ =>
    print ("📬 Found " +++ str_of_nat (length issues) +++ " maintenance request(s)
");;
    issues_with_analysis ← process_issues e (length issues) 1 issues;
    (match slack_client e, issues_with_analysis with
     | Some _, _ :: _ =>
       print "
📊 Generating daily maintenance summary...";;
       daily_summary ← generate_daily_summary_with_ai e issues_with_analysis;
       print "   ✓ Daily summary generated";;
       send_slack_message e daily_summary None
     | _, _ => mret tt
     end);;
    print ("
" +++ str_repeat 61 70);;
    print "✅ Maintenance analysis complete!";;
    print ("   Processed: " +++ str_of_nat (length issues_with_analysis) +++ " issues");;
    print (str_repeat 61 70)
  end.

End Gmail.

(* ===================================================================== *)
(** ** Floating-point percentages *)
(* ===================================================================== *)

(** [float(n)] for an [int] below [2^53] (a count of issues), which converts
    exactly. *)
Definition float_of_nat (n : nat) : float :=
  PrimFloat.of_uint63 (Uint63.of_Z (Z.of_nat n)).

(** The integer nearest to [n / d] for [0 <= n] and [0 < d], a tie going to the
    even one. *)
Definition div_half_even (n d : Z) : Z :=
  let q := n / d in
  let r := n mod d in
  if 2 * r <? d then q
  else if d <? 2 * r then q + 1
  else if Z.even q then q else q + 1.

(** [round(x, 1)] of a float: the decimal with one digit after the point that
    is nearest to the exact value of [x] (a tie going to the even digit),
    converted back to the nearest float; the quotient of the tenths by ten is
    that float, since the division rounds correctly.  A float without
    fractional part, an infinity and a not-a-number round to themselves. *)
Definition py_round1 (x : float) : float :=
  match Prim2SF x with
  | S754_finite s m e =>
    if 0 <=? e then x
    else
      let tenths := div_half_even (10 * Z.pos m) (2 ^ (- e)) in
      let magnitude := (PrimFloat.of_uint63 (Uint63.of_Z tenths) / 10)%float in
      if s then (- magnitude)%float else magnitude
  | _ => x
  end.

(** [round((count / total) * 100, 1) if total > 0 else 0] *)
Definition percentage (count total : nat) : float :=
  if (0 <? total)%nat
  then py_round1 ((float_of_nat count / float_of_nat total) * 100)%float
  else 0%float.

(* ===================================================================== *)
(** ** [magneto/backend.py] *)
(* ===================================================================== *)

Module Backend.

Definition MAINTENANCE_CATEGORIES : list pystr :=
  ["Electrical"; "Plumbing"; "IT Support"; "HVAC"; "General Inquiry"].

(** The body of the loop of [fetch_gmail_issues]. *)
Definition issue_of_message (id : pystr) (msg_data : gmail_message) : issue_record :=
  let headers := msg_headers msg_data in
  let subject := header_value "Subject" headers "(No Subject)" in
  let sender := header_value "From" headers "(Unknown)" in
  let date := header_value "Date" headers "" in
  let snippet := default "" (msg_snippet msg_data) in
  {[ "id" := id; "subject" := subject; "sender" := sender; "date" := date;
     "snippet" := snippet ]}.

Fixpoint fetch_messages (api : gmail_api) (ids : list pystr) : M (list issue_record) :=
  match ids with
  | [] => mret []
  | id :: rest =>
    msg_data ← call GmailGot (messages_get api) id;
    issue_list ← fetch_messages api rest;
    mret (issue_of_message id msg_data :: issue_list)
  end.

Definition fetch_gmail_issues (e : env) (max_results : option Z) : M (list issue_record) :=
  match gmail_service e with
  | None => raise (HTTPException 503 "Gmail service not initialized")
  | Some api =>
    try_except
      (messages ← call GmailListed (messages_list api) max_results;
       fetch_messages api (default [] messages))
      (fun ex => raise (HTTPException 500 ("Failed to fetch emails: " +++ exn_str ex)))
  end.

(** The f-string of the classification prompt. *)
Definition classify_prompt (subject sender date snippet : pystr) : pystr :=
  "You are an AI Maintenance Supervisor analyzing facility maintenance requests.

MAINTENANCE REQUEST:
Subject: " +++ subject +++ "
From: " +++ sender +++ "
Date: " +++ date +++ "
Content: " +++ snippet +++ "

TASK: Analyze this maintenance issue and provide a structured response in JSON format.

CATEGORIES (choose ONE):
- Electrical: Power outages, wiring issues, lighting problems, circuit breakers
- Plumbing: Leaks, clogs, water pressure, pipes, drains, toilets, faucets
- IT Support: Computers, network issues, software problems, printers, access cards
- HVAC: Heating, cooling, air conditioning, ventilation, temperature control
- General Inquiry: Questions, requests that don't fit above

OUTPUT FORMAT (must be valid JSON):
{
    " +++ dquote +++ "category" +++ dquote +++ ": " +++ dquote +++ "<one of the 5 categories above>" +++ dquote +++ ",
    " +++ dquote +++ "summary" +++ dquote +++ ": " +++ dquote +++ "<2-3 sentence summary>" +++ dquote +++ ",
    " +++ dquote +++ "priority" +++ dquote +++ ": " +++ dquote +++ "<High/Medium/Low>" +++ dquote +++ ",
    " +++ dquote +++ "root_cause" +++ dquote +++ ": " +++ dquote +++ "<likely root cause in 1-2 sentences>" +++ dquote +++ ",
    " +++ dquote +++ "action_items" +++ dquote +++ ": [" +++ dquote +++ "<action 1>" +++ dquote +++ ", " +++ dquote +++ "<action 2>" +++ dquote +++ "]
}

Respond ONLY with the JSON object.".

(** The prompt for an issue: the four subscripts of the f-string, in order. *)
Definition prompt_of (issue : issue_record) : res pystr :=
  match issue !! "subject", issue !! "sender", issue !! "date", issue !! "snippet" with
  | Some subject, Some sender, Some date, Some snippet =>
    Return (classify_prompt subject sender date snippet)
  | None, _, _, _ => Raise (KeyError "subject")
  | _, None, _, _ => Raise (KeyError "sender")
  | _, _, None, _ => Raise (KeyError "date")
  | _, _, _, None => Raise (KeyError "snippet")
  end.

(** The result when the model is not configured. *)
Definition unconfigured_analysis (issue : issue_record) : pydict :=
  {[ "category" := PStr "General Inquiry";
     "summary" := PStr (default "No summary available" (issue !! "snippet"));
     "priority" := PStr "Medium";
     "root_cause" := PStr "AI not configured - manual review needed";
     "action_items" := PList [PStr "Manual classification required"] ]}.

(** The result of the [except] branch. *)
Definition fallback_analysis (issue : issue_record) : pydict :=
  {[ "category" := PStr "General Inquiry";
     "summary" := PStr (default "No summary" (issue !! "snippet"));
     "priority" := PStr "Medium";
     "root_cause" := PStr "Classification failed";
     "action_items" := PList [PStr "Manual review required"] ]}.

(** Validation of the category; no other field is touched. *)
Definition validate_category (analysis : pydict) : pydict :=
  if in_names (analysis !! "category") MAINTENANCE_CATEGORIES then analysis
  else <["category" := PStr "General Inquiry"]> analysis.

Definition classify_maintenance_issue (e : env) (issue : issue_record) : M pydict :=
  match cerebras_llm e with
  | None => mret (unconfigured_analysis issue)
  | Some llm =>
    try_except
      (prompt ← lift (prompt_of issue);
       content ← call LlmInvoked llm prompt;
       let response_text := str_strip content in
       if has_json_span response_text then
         let json_str := str_slice response_text (json_start response_text)
                                   (json_end response_text) in
         parsed ← lift (json_loads e json_str);
         analysis ← lift (as_dict parsed);
         mret (validate_category analysis)
       else raise (ValueError "Invalid JSON response"))
      (fun ex =>
         print ("Classification error: " +++ exn_str ex);;
         mret (fallback_analysis issue))
  end.

(** ["\n".join([f"<bullet> {item}" for item in analysis.get("action_items", [])])] *)
Definition action_items_text (e : env) (analysis : pydict) : res pystr :=
  match py_iter (default (PList []) (analysis !! "action_items")) with
  | Return items => Return (str_join "
" (map (fun item => "‚Ä¢ " +++ py_str e item) items))
  | Raise ex => Raise ex
  end.

(** The page [add_to_notion] creates. *)
Definition notion_page_of (e : env) (issue : issue_record) (analysis : pydict)
    : M notion_page :=
  items_text ← lift (action_items_text e analysis);
  subject ← lift (dict_index issue "subject");
  category ← lift (dict_index analysis "category");
  priority ← lift (dict_index analysis "priority");
  sender ← lift (dict_index issue "sender");
  date ← (fun t => (Return (now_isoformat e t), t));
  summary ← lift (dict_index analysis "summary");
  summary ← lift (py_prefix 2000 summary);
  root_cause ← lift (dict_index analysis "root_cause");
  root_cause ← lift (py_prefix 2000 root_cause);
  mret {| page_database_id := getenv e "NOTION_DATABASE_ID";
          page_subject := str_prefix 2000 subject;
          page_category := category;
          page_priority := priority;
          page_sender := str_prefix 2000 sender;
          page_date := date;
          page_status := "Open";
          page_children :=
            [ Heading2 "üìã Summary";
              Paragraph summary;
              Heading2 "üîç Root Cause";
              Paragraph root_cause;
              Heading2 "‚úÖ Action Items";
              Paragraph (PStr (str_prefix 2000 items_text)) ] |}.

Definition add_to_notion (e : env) (issue : issue_record) (analysis : pydict) : M unit :=
  match notion_client e with
  | None => mret tt
  | Some notion =>
    try_except
      (page ← notion_page_of e issue analysis;
       call NotionCreated notion page)
      (fun ex => print ("Notion error: " +++ exn_str ex))
  end.

Definition category_emojis : list (pystr * pystr) :=
  [("Electrical", "‚ö°"); ("Plumbing", "üö∞"); ("IT Support", "üíª"); ("HVAC", "üå°Ô∏è"); ("General Inquiry", "üìã")].

Definition priority_emojis : list (pystr * pystr) :=
  [("High", "üî¥"); ("Medium", "üü°"); ("Low", "üü¢")].

(** The message [send_slack_notification] posts. *)
Definition slack_post_of (e : env) (issue : issue_record) (analysis : pydict)
    : res slack_post :=
  category ← dict_index analysis "category";
  category_emoji ← table_get category_emojis category "üìã";
  priority ← dict_index analysis "priority";
  priority_emoji ← table_get priority_emojis priority "üü°";
  action_items ← action_items_text e analysis;
  subject ← dict_index issue "subject";
  summary ← dict_index analysis "summary";
  root_cause ← dict_index analysis "root_cause";
  let blocks :=
    [ Header (category_emoji +++ " New Maintenance Request");
      SectionFields
        [ "*Category:*
" +++ category_emoji +++ " " +++ py_str e category;
          "*Priority:*
" +++ priority_emoji +++ " " +++ py_str e priority ];
      SectionText ("*Subject:*
" +++ subject);
      Divider;
      SectionText ("*üìã Summary:*
" +++ py_str e summary);
      SectionText ("*üîç Root Cause:*
" +++ py_str e root_cause);
      SectionText ("*‚úÖ Action Items:*
" +++ action_items) ] in
  Return {| post_channel := getenv e "SLACK_CHANNEL_ID";
            post_text := category_emoji +++ " " +++ py_str e category +++ " - " +++ subject;
            post_blocks := Some blocks |}.

Definition send_slack_notification (e : env) (issue : issue_record) (analysis : pydict)
    : M unit :=
  match slack_client e with
  | None => mret tt
  | Some client =>
    try_except_only is_SlackApiError
      (post ← lift (slack_post_of e issue analysis);
       call SlackPosted client post)
      (fun ex => print ("Slack error: " +++ exn_str ex))
  end.

(** The body of a request to [/api/emails/process]. *)
Record ProcessEmailsRequest := {
  max_results : option Z;
  send_notifications : option bool
}.

(** A call handed to [background_tasks.add_task], to be run after the
    response is sent. *)
Inductive background_task :=
| NotionTask (issue : issue_record) (analysis : pydict)
| SlackTask (issue : issue_record) (analysis : pydict).

(** The dictionary [process_emails] returns. *)
Record process_result := {
  status : pystr;
  message : pystr;
  processed : nat;
  issues : list processed_item
}.

(** The tasks [process_emails] schedules for one issue. *)
Definition tasks_for (e : env) (request : ProcessEmailsRequest) (issue : issue_record)
    (analysis : pydict) : list background_task :=
  (match notion_client e with
   | Some _ => [NotionTask issue analysis]
   | None => []
   end)
  ++ (match send_notifications request, slack_client e with
      | Some true, Some _ => [SlackTask issue analysis]
      | _, _ => []
      end).

(** The loop of [process_emails]: the processed issues and the scheduled
    tasks. *)
Fixpoint process_each (e : env) (request : ProcessEmailsRequest)
    (issues : list issue_record) : M (list processed_item * list background_task) :=
  match issues with
  | [] => mret ([], [])
  | issue :: rest =>
    analysis ← classify_maintenance_issue e issue;
    '(processed_issues, tasks) ← process_each e request rest;
    mret ({| item_issue := issue; item_analysis := analysis |} :: processed_issues,
          tasks_for e request issue analysis ++ tasks)
  end.

Definition process_emails (e : env) (request : ProcessEmailsRequest)
    : M (process_result * list background_task) :=
  try_except
    (issues ← fetch_gmail_issues e (max_results request);
     match issues with
     | [] =>
       mret ({| status := "success"; message := "No emails found"; processed := 0;
                issues := [] |}, [])
     | _ :: _ =>
       '(processed_issues, tasks) ← process_each e request issues;
       mret ({| status := "success";
                message := "Processed " +++ str_of_nat (length processed_issues) +++ " emails";
                processed := length processed_issues;
                issues := processed_issues |}, tasks)
     end)
    (fun ex => raise (HTTPException 500 (exn_str ex))).

(** The scheduled tasks, run one after the other once the response is out. *)
Definition run_task (e : env) (task : background_task) : M unit :=
  match task with
  | NotionTask issue analysis => add_to_notion e issue analysis
  | SlackTask issue analysis => send_slack_notification e issue analysis
  end.

Definition run_background_tasks (e : env) (tasks : list background_task) : M unit :=
  for_each tasks (run_task e).

(** The first loop of [get_dashboard_stats]. *)
Fixpoint classify_each (e : env) (issues : list issue_record) : M (list processed_item) :=
  match issues with
  | [] => mret []
  | issue :: rest =>
    analysis ← classify_maintenance_issue e issue;
    classified_issues ← classify_each e rest;
    mret ({| item_issue := issue; item_analysis := analysis |} :: classified_issues)
  end.

(** One step of the counting loop of [get_dashboard_stats]; an empty
    analysis is not counted ([if issue.get("analysis"):]). *)
Definition count_item (acc : counts * counts) (item : processed_item)
    : res (counts * counts) :=
  let '(category_counts, priority_counts) := acc in
  let analysis := item_analysis item in
  if bool_decide (analysis = ∅) then Return acc
  else
    cat ← dict_index analysis "category";
    pri ← dict_index analysis "priority";
    check_hashable cat;;
    let category_counts :=
      counts_set category_counts cat (counts_get category_counts cat + 1) in
    check_hashable pri;;
    let priority_counts :=
      counts_set priority_counts pri (counts_get priority_counts pri + 1) in
    Return (category_counts, priority_counts).

Fixpoint count_items (items : list processed_item) (acc : counts * counts)
    : res (counts * counts) :=
  match items with
  | [] => Return acc
  | item :: rest =>
    match count_item acc item with
    | Return acc' => count_items rest acc'
    | Raise ex => Raise ex
    end
  end.

(** [category_counts = {}] and [priority_counts = {"High": 0, "Medium": 0, "Low": 0}] *)
Definition initial_counts : counts * counts :=
  ([], [(PStr "High", 0%nat); (PStr "Medium", 0%nat); (PStr "Low", 0%nat)]).

(** The arguments of the [CategoryStats] built for each category, in the
    order of [category_counts.items()]. *)
Definition category_stats_of (category_counts : counts) (total : nat)
    : list category_stats :=
  map (fun cc : pyval * nat =>
         {| cs_category := cc.1; cs_count := cc.2;
            cs_percentage := percentage cc.2 total |})
      category_counts.

Definition get_dashboard_stats (e : env) : M dashboard_stats :=
  try_except
    (issues ← fetch_gmail_issues e (Some 20);
     classified_issues ← classify_each e issues;
     '(category_counts, priority_counts) ←
       lift (count_items classified_issues initial_counts);
     let total := length classified_issues in
     by_category ← lift (map_res (new_CategoryStats e)
                                 (category_stats_of category_counts total));
     recent ← lift (map_res (new_EmailIssue e) (take 5 classified_issues));
     lift (new_DashboardStats e
             {| total_issues := total; by_category := by_category;
                by_priority := priority_counts; recent_issues := recent |}))
    (fun ex => raise (HTTPException 500 (exn_str ex))).

(** [next((i for i in issues if i["id"] == email_id), None)]: the first
    issue with that id, the subscript raising on an issue without an id that
    comes before it. *)
Fixpoint find_issue (email_id : pystr) (issues : list issue_record)
    : res (option issue_record) :=
  match issues with
  | [] => Return None
  | i :: rest =>
    id ← dict_index i "id";
    if bool_decide (id = email_id) then Return (Some i) else find_issue email_id rest
  end.

(** The endpoint [/api/emails/{email_id}/classify].  An issue that was found
    has an id, so that [not issue] holds for [None] only.  The first handler
    re-raises an HTTP error as it is, the second turns any other exception
    into the HTTP error 500. *)
Definition classify_email (e : env) (email_id : pystr) : M processed_item :=
  try_except
    (issues ← fetch_gmail_issues e (Some 50);
     found ← lift (find_issue email_id issues);
     match found with
     | None => raise (HTTPException 404 "Email not found")
     | Some issue =>
       analysis ← classify_maintenance_issue e issue;
       lift (new_EmailIssue e {| item_issue := issue; item_analysis := analysis |})
     end)
    (fun ex =>
       if is_HTTPException ex then raise ex
       else raise (HTTPException 500 (exn_str ex))).

End Backend.

(* ===================================================================== *)
(** ** [add_channel_id.py] *)
(* ===================================================================== *)

Module AddChannelId.

(** What the script does that is visible outside it: the lines it prints,
    the prompt of [input], and the call to [set_key]. *)
Inductive action :=
| Print (line : pystr)
| Input (prompt : pystr)
| SetKey (path key value : pystr).

(** What the script finds around it: the line typed at the prompt (or the
    exception [input] raises), the path [find_dotenv()] returns (empty when
    there is no [.env] file), and the outcome of [set_key]. *)
Record world := {
  typed : res pystr;
  dotenv_path : pystr;
  set_key : pystr -> pystr -> pystr -> res unit
}.

(** [s.strip(c)] for a one-character argument: the leading and trailing
    occurrences of [c] are removed. *)
Fixpoint lstrip_char (c : N) (l : list N) : list N :=
  match l with
  | [] => []
  | x :: r => if (x =? c)%N then lstrip_char c r else l
  end.

Definition str_strip_char (c : N) (s : pystr) : pystr :=
  PyStr (rev (lstrip_char c (rev (lstrip_char c (codepoints s))))).

Definition DQUOTE : N := 34%N.
Definition SQUOTE : N := 39%N.

(** A string is true when it is not empty. *)
Definition str_truthy (s : pystr) : bool :=
  match codepoints s with [] => false | _ :: _ => true end.

(** The lines printed before the prompt. *)
Definition instructions : list action :=
  [Print (str_repeat 61 60);
   Print "Add Slack Channel ID";
   Print (str_repeat 61 60);
   Print "";
   Print "📋 How to get your Slack Channel ID:";
   Print "";
   Print "1. Open Slack in your browser";
   Print "2. Go to the channel: #ai_experiment_tasks";
   Print "3. Look at the URL in the address bar";
   Print "";
   Print "   The URL will look like:";
   Print "   https://app.slack.com/client/T09LRCYQDM3/C1234567890/...";
   Print "";
   Print "4. Copy the part after the last '/' (the channel ID)";
   Print "   Example: C1234567890";
   Print "";
   Print (str_repeat 61 60);
   Print ""].

(** The three strips applied to the channel id, in order: the double quotes,
    the single quotes, the white space. *)
Definition unquote (channel_id : pystr) : pystr :=
  str_strip (str_strip_char SQUOTE (str_strip_char DQUOTE channel_id)).

(** The script: its outcome and what it did, in order. *)
Definition script (w : world) : res unit * list action :=
  let t := instructions ++ [Input "Enter your Slack Channel ID: "] in
  match typed w with
  | Raise ex => (Raise ex, t)
  | Return line =>
    let channel_id := str_strip line in
    if str_truthy channel_id then
      let channel_id := unquote channel_id in
      let t := t ++ [Print ""; Print ("✓ Channel ID: " +++ channel_id); Print ""] in
      let env_path := dotenv_path w in
      if str_truthy env_path then
        let t := t ++ [SetKey env_path "SLACK_CHANNEL_ID" channel_id] in
        match set_key w env_path "SLACK_CHANNEL_ID" channel_id with
        | Raise ex => (Raise ex, t)
        | Return _ =>
          (Return tt,
           t ++ [Print ("✅ Added SLACK_CHANNEL_ID to " +++ env_path); Print "";
                 Print "Now run: python gmail.py"; Print ""; Print (str_repeat 61 60)])
        end
      else
        (Return tt, t ++ [Print "❌ Could not find .env file"; Print "";
                          Print (str_repeat 61 60)])
    else
      (Return tt, t ++ [Print ""; Print "❌ No channel ID provided"; Print "";
                        Print (str_repeat 61 60)])
  end.

End AddChannelId.

(* ===================================================================== *)
(** ** A reader of JSON texts and environments for the examples *)
(* ===================================================================== *)

(** [json.loads] is a parameter of every definition above.  The examples
    below need one that computes: [json_loads_lite] reads the JSON texts made
    of objects, arrays, strings without escapes, integers, [true], [false]
    and [null], on which it returns what [json.loads] returns; it rejects
    every other text. *)
Module Lite.

Definition is_ws (c : N) : bool := ((c =? 32) || (c =? 9) || (c =? 10) || (c =? 13))%N.

Fixpoint skip_ws (l : list N) : list N :=
  match l with
  | c :: r => if is_ws c then skip_ws r else l
  | [] => []
  end.

(** The characters of a string up to its closing quote, and what follows. *)
Fixpoint read_string (l acc : list N) : option (pystr * list N) :=
  match l with
  | [] => None
  | c :: r =>
    if (c =? 34)%N then Some (PyStr (rev acc), r)
    else if ((c =? 92) || (c <? 32))%N then None
    else read_string r (c :: acc)
  end.

Definition is_digit (c : N) : bool := ((48 <=? c) && (c <=? 57))%N.

Fixpoint read_digits (l : list N) (acc : Z) : Z * list N :=
  match l with
  | c :: r => if is_digit c then read_digits r (10 * acc + Z.of_N (c - 48)) else (acc, l)
  | [] => (acc, [])
  end.

(** A number: an optional minus sign, then [0] or digits not starting with
    [0]; a fraction or an exponent makes the text one this reader rejects. *)
Definition read_int (l : list N) : option (Z * list N) :=
  let '(neg, l) := match l with 45%N :: r => (true, r) | _ => (false, l) end in
  match l with
  | c :: r =>
    if is_digit c then
      let '(z, rest) := if (c =? 48)%N then (0, r) else read_digits l 0 in
      match rest with
      | c' :: _ =>
        if ((c' =? 46) || (c' =? 101) || (c' =? 69) || is_digit c')%N then None
        else Some (if neg then - z else z, rest)
      | [] => Some (if neg then - z else z, rest)
      end
    else None
  | [] => None
  end.

(** [d[k] = v] on the items of a dictionary *)
Fixpoint items_set (items : list (pystr * pyval)) (k : pystr) (v : pyval)
    : list (pystr * pyval) :=
  match items with
  | [] => [(k, v)]
  | (k', v') :: rest =>
    if bool_decide (k' = k) then (k', v) :: rest else (k', v') :: items_set rest k v
  end.

Fixpoint read_value (fuel : nat) (l : list N) {struct fuel} : option (pyval * list N) :=
  match fuel with
  | O => None
  | S fuel =>
    match skip_ws l with
    | 123%N :: r =>
      match skip_ws r with
      | 125%N :: r' => Some (PDict [], r')
      | r' => read_members fuel r' []
      end
    | 91%N :: r =>
      match skip_ws r with
      | 93%N :: r' => Some (PList [], r')
      | r' => read_elements fuel r' []
      end
    | 34%N :: r =>
      match read_string r [] with
      | Some (s, r') => Some (PStr s, r')
      | None => None
      end
    | 116%N :: 114%N :: 117%N :: 101%N :: r => Some (PBool true, r)
    | 102%N :: 97%N :: 108%N :: 115%N :: 101%N :: r => Some (PBool false, r)
    | 110%N :: 117%N :: 108%N :: 108%N :: r => Some (PNone, r)
    | l' =>
      match read_int l' with
      | Some (z, r) => Some (PInt z, r)
      | None => None
      end
    end
  end
with read_members (fuel : nat) (l : list N) (acc : list (pystr * pyval)) {struct fuel}
    : option (pyval * list N) :=
  match fuel with
  | O => None
  | S fuel =>
    match skip_ws l with
    | 34%N :: r =>
      match read_string r [] with
      | Some (k, r1) =>
        match skip_ws r1 with
        | 58%N :: r2 =>
          match read_value fuel r2 with
          | Some (v, r3) =>
            match skip_ws r3 with
            | 44%N :: r4 => read_members fuel r4 (items_set acc k v)
            | 125%N :: r4 => Some (PDict (items_set acc k v), r4)
            | _ => None
            end
          | None => None
          end
        | _ => None
        end
      | None => None
      end
    | _ => None
    end
  end
with read_elements (fuel : nat) (l : list N) (acc : list pyval) {struct fuel}
    : option (pyval * list N) :=
  match fuel with
  | O => None
  | S fuel =>
    match read_value fuel l with
    | Some (v, r) =>
      match skip_ws r with
      | 44%N :: r' => read_elements fuel r' (acc ++ [v])
      | 93%N :: r' => Some (PList (acc ++ [v]), r')
      | _ => None
      end
    | None => None
    end
  end.

Definition json_loads_lite (s : pystr) : res pyval :=
  match read_value (S (str_len s)) (codepoints s) with
  | Some (v, rest) =>
    match skip_ws rest with
    | [] => Return v
    | _ :: _ => Raise (JSONDecodeError "Extra data")
    end
  | None => Raise (JSONDecodeError "Expecting value")
  end.

(** [str(v)] on [None], booleans and integers; the examples format no other
    value that is not a string. *)
Definition str_lite (v : pyval) : pystr :=
  match v with
  | PNone => "None"
  | PBool true => "True"
  | PBool false => "False"
  | PInt z => (if z <? 0 then "-" else "") +++ str_of_nat (Z.abs_nat z)
  | _ => ""
  end.

(** An environment with the given service handles, a fixed clock, no
    environment variable, and model constructors that accept what they are
    given. *)
Definition env_of (gmail : option gmail_api)
    (notion : option (trace -> notion_page -> res unit))
    (slack : option (trace -> slack_post -> res unit))
    (llm : option (trace -> pystr -> res pystr)) : env :=
  {| json_loads := json_loads_lite;
     builtin_str := str_lite;
     json_dumps := fun _ => Return "{}";
     now_isoformat := fun _ => "2025-01-01T09:00:00";
     now_strftime := fun _ _ => "2025-01-01";
     getenv := fun _ => None;
     new_EmailIssue := Return;
     new_CategoryStats := Return;
     new_DashboardStats := Return;
     gmail_service := gmail;
     notion_client := notion;
     slack_client := slack;
     cerebras_llm := llm |}.

End Lite.

(** Sample data for the examples. *)
Module Demo.

(** A mailbox with two messages: one with its headers and snippet, one with
    neither. *)
Definition full_message : gmail_message :=
  {| msg_headers := [("To", "desk@example.com"); ("Subject", "AC not cooling in room 204");
                     ("From", "tenant@example.com"); ("Date", "Mon, 6 Jan 2025 09:00:00")];
     msg_snippet := Some "The air conditioning in room 204 blows warm air." |}.

Definition bare_message : gmail_message :=
  {| msg_headers := []; msg_snippet := None |}.

Definition mailbox : gmail_api :=
  {| messages_list := fun _ _ => Return (Some ["m1"; "m2"]);
     messages_get := fun _ id =>
       Return (if bool_decide (id = "m1") then full_message else bare_message) |}.

(** The records of the two messages. *)
Definition full_issue : issue_record := Gmail.issue_of_message "m1" full_message.
Definition bare_issue : issue_record := Gmail.issue_of_message "m2" bare_message.

(** An analysis a classifier can return. *)
Definition analysis_of (category priority : pystr) : pydict :=
  {[ "category" := PStr category; "summary" := PStr "Reported by a tenant.";
     "priority" := PStr priority; "root_cause" := PStr "To be determined";
     "action_items" := PList [PStr "Send a technician"] ]}.

Definition item_of (category priority : pystr) : processed_item :=
  {| item_issue := full_issue; item_analysis := analysis_of category priority |}.

(** A batch of three issues with categories Electrical, Electrical and
    Plumbing. *)
Definition batch3 : list processed_item :=
  [item_of "Electrical" "High"; item_of "Electrical" "Low"; item_of "Plumbing" "High"].

(** Completions of the model.  [json_field k v] is the text of one member,
    key and value between double quotes. *)
Definition json_field (k v : pystr) : pystr :=
  dquote +++ k +++ dquote +++ ": " +++ dquote +++ v +++ dquote.

(** An object with a category and nothing else. *)
Definition hvac_only : pystr := "{" +++ json_field "category" "HVAC" +++ "}".

(** An object with a category and a priority, with text around it. *)
Definition chatty_plumbing : pystr :=
  "Here is the analysis: {" +++ json_field "category" "Plumbing" +++ ", "
    +++ json_field "priority" "High" +++ "} Hope it helps.".

(** An object whose category is none of the five. *)
Definition made_up_category : pystr := "{" +++ json_field "category" "Carpentry" +++ "}".

(** A model that always answers [text], and one that is out of reach. *)
Definition model_saying (text : pystr) : trace -> pystr -> res pystr :=
  fun _ _ => Return text.

Definition model_down : trace -> pystr -> res pystr :=
  fun _ _ => Raise (OtherError "APIConnectionError" "Connection error.").

(** Ticket stores and chat channels: one that accepts every request, one
    that fails, a chat API that answers with an error, and a network that is
    down. *)
Definition store_ok : trace -> notion_page -> res unit := fun _ _ => Return tt.

Definition store_down : trace -> notion_page -> res unit :=
  fun _ _ => Raise (OtherError "APIResponseError" "Could not find database.").

Definition channel_ok : trace -> slack_post -> res unit := fun _ _ => Return tt.

Definition channel_refuses : trace -> slack_post -> res unit :=
  fun _ _ => Raise (SlackApiError "The request to the Slack API failed." "channel_not_found").

Definition channel_down : trace -> slack_post -> res unit :=
  fun _ _ => Raise (OtherError "URLError" "<urlopen error timed out>").

(** The sample issue with a subject of 2001 characters. *)
Definition long_issue : issue_record := <["subject" := str_repeat 65 2001]> full_issue.

End Demo.

(* ===================================================================== *)
(** ** Properties *)
(* ===================================================================== *)

(** *** Computations *)

Lemma bind_run {A B} (m : M A) (f : A -> M B) (t : trace) :
  (m ≫= f) t =
  match m t with
  | (Return a, t') => f a t'
  | (Raise ex, t') => (Raise ex, t')
  end.
Proof. reflexivity. Qed.

Lemma bind_returns {A B} (m : M A) (f : A -> M B) (t t' : trace) (a : A) :
  m t = (Return a, t') -> (m ≫= f) t = f a t'.
Proof. intros H. rewrite bind_run, H. reflexivity. Qed.

Lemma bind_raises {A B} (m : M A) (f : A -> M B) (t t' : trace) (ex : exn) :
  m t = (Raise ex, t') -> (m ≫= f) t = (Raise ex, t').
Proof. intros H. rewrite bind_run, H. reflexivity. Qed.

Lemma lift_run {A} (r : res A) (t : trace) : lift r t = (r, t).
Proof. reflexivity. Qed.

Lemma try_except_returns {A} (body : M A) (handler : exn -> M A) t t' a :
  body t = (Return a, t') -> try_except body handler t = (Return a, t').
Proof. intros H. unfold try_except. rewrite H. reflexivity. Qed.

Lemma try_except_raises {A} (body : M A) (handler : exn -> M A) t t' ex :
  body t = (Raise ex, t') -> try_except body handler t = handler ex t'.
Proof. intros H. unfold try_except. rewrite H. reflexivity. Qed.

(** Unfolds the operations of computations down to pairs of a result and a
    trace. *)
Ltac run :=
  unfold try_except, try_except_only, print, call, lift, raise, Gmail.strftime_now in *;
  unfold mbind, M_bind, mret, M_ret, res_bind, res_ret in *; simpl in *.

(** *** The mail source adapter *)

(** No header of the message has the given name. *)
Definition no_header (name : pystr) (msg : gmail_message) : Prop :=
  forall v, (name, v) ∉ msg_headers msg.

(** The record made from message [id] with content [msg]: it has the five
    fields, and a missing header or snippet leaves its default. *)
Record normalized (id : pystr) (msg : gmail_message) (issue : issue_record) : Prop := {
  norm_fields : dom issue = {[ "id"; "subject"; "sender"; "date"; "snippet" ]};
  norm_id : issue !! "id" = Some id;
  norm_no_subject : no_header "Subject" msg -> issue !! "subject" = Some "(No Subject)";
  norm_no_from : no_header "From" msg -> issue !! "sender" = Some "(Unknown)";
  norm_no_date : no_header "Date" msg -> issue !! "date" = Some "";
  norm_no_snippet : msg_snippet msg = None -> issue !! "snippet" = Some ""
}.

(** The records of a list come from messages the mail store [api] returned
    at some point. *)
Definition all_normalized (api : gmail_api) (issues : list issue_record) : Prop :=
  Forall (fun issue => exists id msg tm,
            messages_get api tm id = Return msg /\ normalized id msg issue) issues.

Lemma header_value_absent name headers dflt :
  (forall v, (name, v) ∉ headers) -> header_value name headers dflt = dflt.
Proof.
  unfold header_value. induction headers as [|[n v] rest IH]; intros Habs; [reflexivity|].
  simpl. case_bool_decide as Hn.
  - simpl in Hn. subst n. exfalso. apply (Habs v). left.
  - apply IH. intros v' Hin. apply (Habs v'). right. exact Hin.
Qed.

Lemma header_value_first name v headers dflt :
  header_value name ((name, v) :: headers) dflt = v.
Proof. unfold header_value. simpl. rewrite bool_decide_eq_true_2; reflexivity. Qed.

Lemma issue_of_message_same id msg :
  Backend.issue_of_message id msg = Gmail.issue_of_message id msg.
Proof. reflexivity. Qed.

Lemma issue_of_message_normalized id msg :
  normalized id msg (Gmail.issue_of_message id msg).
Proof.
  split.
  - unfold Gmail.issue_of_message. rewrite !dom_insert_L, dom_singleton_L. set_solver.
  - reflexivity.
  - intros H. change (Some (header_value "Subject" (msg_headers msg) "(No Subject)")
                      = Some "(No Subject)").
    f_equal. apply header_value_absent, H.
  - intros H. change (Some (header_value "From" (msg_headers msg) "(Unknown)")
                      = Some "(Unknown)").
    f_equal. apply header_value_absent, H.
  - intros H. change (Some (header_value "Date" (msg_headers msg) "") = Some "").
    f_equal. apply header_value_absent, H.
  - intros H. change (Some (default "" (msg_snippet msg)) = Some ""). rewrite H. reflexivity.
Qed.

Lemma gmail_fetch_messages_normalized api ids t issues t' :
  Gmail.fetch_messages api ids t = (Return issues, t') ->
  all_normalized api issues /\ length issues = length ids.
Proof.
  revert t issues t'. induction ids as [|id rest IH]; intros t issues t' H.
  - simpl in H. inversion H. split; [constructor | reflexivity].
  - simpl in H. run.
    destruct (messages_get api t id) as [msg|ex] eqn:Hget; [|discriminate].
    destruct (Gmail.fetch_messages api rest (t ++ [GmailGot id])) as [[tl|ex] t1] eqn:Hrest;
      [|discriminate].
    inversion H; subst. destruct (IH _ _ _ Hrest) as [Hall Hlen]. split.
    + constructor; [|exact Hall]. exists id, msg, t. split; [exact Hget|].
      apply issue_of_message_normalized.
    + simpl. rewrite Hlen. reflexivity.
Qed.

Lemma backend_fetch_messages_same api ids :
  Backend.fetch_messages api ids = Gmail.fetch_messages api ids.
Proof. induction ids as [|id rest IH]; simpl; [reflexivity|]. rewrite IH. reflexivity. Qed.

(** When no call to the mail store fails, the messages are all fetched. *)
Lemma gmail_fetch_messages_total api ids t :
  (forall tm id, exists msg, messages_get api tm id = Return msg) ->
  exists issues t', Gmail.fetch_messages api ids t = (Return issues, t')
                    /\ length issues = length ids.
Proof.
  intros Hget. revert t. induction ids as [|id rest IH]; intros t.
  - exists [], t. split; reflexivity.
  - destruct (Hget t id) as [msg Hmsg].
    destruct (IH (t ++ [GmailGot id])) as (tl & t' & Hrest & Hlen).
    exists (Gmail.issue_of_message id msg :: tl), t'. simpl. run.
    rewrite Hmsg, Hrest. split; [reflexivity | simpl; rewrite Hlen; reflexivity].
Qed.

(** C10. Every record [fetch_gmail_issues] returns, in either module, is the
    normalisation of a message the mail store returned: it has the five fields
    id, subject, sender, date and snippet; the subject is "(No Subject)" when
    the message has no Subject header, the sender "(Unknown)" when it has no
    From header, the date empty when it has no Date header, and the snippet
    empty when the message has none.  When no call to the mail store fails,
    a record is produced for every listed message. *)
Theorem fetch_gmail_issues_normalizes (e : env) (api : gmail_api)
    (max_results : option Z) (t : trace) :
  gmail_service e = Some api ->
  (forall issues t',
     Gmail.fetch_gmail_issues e t = (Return issues, t')
     \/ Backend.fetch_gmail_issues e max_results t = (Return issues, t') ->
     all_normalized api issues)
  /\ ((forall tm id, exists msg, messages_get api tm id = Return msg) ->
      forall ids,
        (messages_list api t (Some 10) = Return ids ->
         exists issues t', Gmail.fetch_gmail_issues e t = (Return issues, t')
                           /\ length issues = length (default [] ids))
        /\ (messages_list api t max_results = Return ids ->
            exists issues t', Backend.fetch_gmail_issues e max_results t = (Return issues, t')
                              /\ length issues = length (default [] ids))).
Proof.
  intros Hapi. split.
  - intros issues t' [H|H].
    + unfold Gmail.fetch_gmail_issues, Gmail.the_gmail_service in H. rewrite Hapi in H. run.
      destruct (messages_list api t (Some 10)) as [ids|ex]; [|discriminate].
      apply gmail_fetch_messages_normalized in H. apply H.
    + unfold Backend.fetch_gmail_issues in H. rewrite Hapi in H. run.
      destruct (messages_list api t max_results) as [ids|ex]; [|discriminate].
      rewrite backend_fetch_messages_same in H.
      destruct (Gmail.fetch_messages api (default [] ids) (t ++ [GmailListed max_results]))
        as [[l|ex] t1] eqn:Hfetch; [|discriminate].
      inversion H; subst. apply gmail_fetch_messages_normalized in Hfetch. apply Hfetch.
  - intros Hget ids. split; intros Hlist.
    + destruct (gmail_fetch_messages_total api (default [] ids)
                  (t ++ [GmailListed (Some 10)]) Hget) as (issues & t' & Hfetch & Hlen).
      exists issues, t'. split; [|exact Hlen].
      unfold Gmail.fetch_gmail_issues, Gmail.the_gmail_service. rewrite Hapi. run.
      rewrite Hlist. exact Hfetch.
    + destruct (gmail_fetch_messages_total api (default [] ids)
                  (t ++ [GmailListed max_results]) Hget) as (issues & t' & Hfetch & Hlen).
      exists issues, t'. split; [|exact Hlen].
      unfold Backend.fetch_gmail_issues. rewrite Hapi. run.
      rewrite Hlist, backend_fetch_messages_same, Hfetch. reflexivity.
Qed.

(** The two messages of the sample mailbox give two normalised records, the
    second one holding the four defaults. *)
Lemma fetch_gmail_issues_normalizes_witness :
  all_normalized Demo.mailbox [Demo.full_issue; Demo.bare_issue]
  /\ Demo.bare_issue !! "subject" = Some "(No Subject)"
  /\ Demo.bare_issue !! "sender" = Some "(Unknown)"
  /\ Demo.bare_issue !! "date" = Some ""
  /\ Demo.bare_issue !! "snippet" = Some "".
Proof.
  split; [|repeat split; reflexivity].
  apply (proj1 (fetch_gmail_issues_normalizes
                  (Lite.env_of (Some Demo.mailbox) None None None) Demo.mailbox (Some 10) []
                  eq_refl) [Demo.full_issue; Demo.bare_issue]
               [GmailListed (Some 10); GmailGot "m1"; GmailGot "m2"]).
  left. reflexivity.
Defined.

(** *** Dashboard percentages *)

(** C7. For a batch of three classified issues with categories Electrical,
    Electrical and Plumbing, the dashboard's percentage computation (count
    divided by total, times 100, rounded to one decimal, in binary64
    arithmetic) yields 66.7 for Electrical and 33.3 for Plumbing, in that
    order; when the total is zero the percentage is 0. *)
Theorem dashboard_percentages :
  (exists category_counts priority_counts,
     Backend.count_items Demo.batch3 Backend.initial_counts
       = Return (category_counts, priority_counts)
     /\ Backend.category_stats_of category_counts (length Demo.batch3)
        = [ {| cs_category := PStr "Electrical"; cs_count := 2; cs_percentage := 66.7 |};
            {| cs_category := PStr "Plumbing"; cs_count := 1; cs_percentage := 33.3 |} ])
  /\ percentage 2 3 = 66.7%float
  /\ percentage 1 3 = 33.3%float
  /\ forall count, percentage count 0 = 0%float.
Proof.
  split; [|repeat split].
  exists [(PStr "Electrical", 2%nat); (PStr "Plumbing", 1%nat)],
         [(PStr "High", 2%nat); (PStr "Medium", 0%nat); (PStr "Low", 1%nat)].
  split; reflexivity.
Qed.

(** *** Dictionaries of counts *)

(** The sum of the counts. *)
Definition counts_total (d : counts) : nat := foldr (fun kv n => (kv.2 + n)%nat) 0%nat d.

(** Every count is zero. *)
Definition all_zero (d : counts) : Prop := Forall (fun kv : pyval * nat => kv.2 = 0%nat) d.

(** The category and the priority of an item can be counted: both fields
    are present and hashable. *)
Definition countable_item (item : processed_item) : Prop :=
  exists category priority,
    item_analysis item !! "category" = Some category
    /\ item_analysis item !! "priority" = Some priority
    /\ check_hashable category = Return tt
    /\ check_hashable priority = Return tt.

(** The priority of the item is the string [p]. *)
Definition priority_is (p : pystr) (item : processed_item) : bool :=
  match item_analysis item !! "priority" with
  | Some (PStr s) => bool_decide (s = p)
  | _ => false
  end.

Lemma py_key_eqb_str_r k s : py_key_eqb k (PStr s) = true <-> k = PStr s.
Proof.
  destruct k; simpl; try (split; [discriminate | intros H; discriminate H]).
  rewrite bool_decide_eq_true. split; congruence.
Qed.

Lemma py_key_eqb_str_l k s : py_key_eqb (PStr s) k = true <-> k = PStr s.
Proof.
  destruct k; simpl; try (split; [discriminate | intros H; discriminate H]).
  rewrite bool_decide_eq_true. split; congruence.
Qed.

Lemma counts_total_incr d k :
  counts_total (counts_set d k (counts_get d k + 1)) = S (counts_total d).
Proof.
  induction d as [|[k0 m] rest IH]; simpl; [reflexivity|].
  destruct (py_key_eqb k0 k); simpl; [lia|]. rewrite IH. lia.
Qed.

Lemma counts_get_set_str d k n s :
  counts_get (counts_set d k n) (PStr s)
  = if py_key_eqb k (PStr s) then n else counts_get d (PStr s).
Proof.
  induction d as [|[k0 m] rest IH]; simpl.
  - destruct (py_key_eqb k (PStr s)); reflexivity.
  - destruct (py_key_eqb k0 k) eqn:Hk0k; simpl.
    + destruct (py_key_eqb k0 (PStr s)) eqn:Hk0; destruct (py_key_eqb k (PStr s)) eqn:Hk;
        try reflexivity; exfalso.
      * apply py_key_eqb_str_r in Hk0. subst k0. apply py_key_eqb_str_l in Hk0k. subst k.
        simpl in Hk. rewrite bool_decide_eq_true_2 in Hk by reflexivity. discriminate.
      * apply py_key_eqb_str_r in Hk. subst k. rewrite Hk0k in Hk0. discriminate.
    + rewrite IH. destruct (py_key_eqb k0 (PStr s)) eqn:Hk0; [|reflexivity].
      destruct (py_key_eqb k (PStr s)) eqn:Hk; [|reflexivity]. exfalso.
      apply py_key_eqb_str_r in Hk0, Hk. subst k0 k.
      simpl in Hk0k. rewrite bool_decide_eq_true_2 in Hk0k by reflexivity. discriminate.
Qed.

Lemma all_zero_get d k : all_zero d -> counts_get d k = 0%nat.
Proof.
  induction 1 as [|[k0 m] rest Hm _ IH]; simpl; [reflexivity|].
  simpl in Hm. subst m. destruct (py_key_eqb k0 k); [reflexivity | exact IH].
Qed.

Lemma all_zero_set d k : all_zero d -> all_zero (counts_set d k 0).
Proof.
  induction 1 as [|[k0 m] rest Hm Hrest IH]; simpl.
  - repeat constructor.
  - destruct (py_key_eqb k0 k); constructor; try assumption; reflexivity.
Qed.

Lemma counts_index_set d k n s m :
  counts_index d s = Return m ->
  exists m', counts_index (counts_set d k n) s = Return m'.
Proof.
  induction d as [|[k0 m0] rest IH]; simpl; [discriminate|]. intros H.
  destruct (py_key_eqb k0 k) eqn:Hk0k; simpl.
  - destruct (py_key_eqb k0 (PStr s)); [eexists; reflexivity | eauto].
  - destruct (py_key_eqb k0 (PStr s)); [eauto | apply IH, H].
Qed.



(** The counting step of [generate_daily_summary_with_ai] on an item that
    can be counted. *)
Lemma gmail_count_item_countable cc pc item :
  countable_item item ->
  exists category priority,
    item_analysis item !! "priority" = Some priority
    /\ Gmail.count_item (cc, pc) item
       = Return (counts_set cc category (counts_get cc category + 1),
                 counts_set pc priority (counts_get pc priority)).
Proof.
  intros (c & p & Hc & Hp & Hhc & Hhp). exists c, p. split; [exact Hp|].
  unfold Gmail.count_item, dict_index. rewrite Hc, Hp. run. rewrite Hhc, Hhp. reflexivity.
Qed.

(** The counting step of [get_dashboard_stats] on an item that can be
    counted. *)
Lemma backend_count_item_countable cc pc item :
  countable_item item ->
  exists category priority,
    item_analysis item !! "priority" = Some priority
    /\ Backend.count_item (cc, pc) item
       = Return (counts_set cc category (counts_get cc category + 1),
                 counts_set pc priority (counts_get pc priority + 1)).
Proof.
  intros (c & p & Hc & Hp & Hhc & Hhp). exists c, p. split; [exact Hp|].
  unfold Backend.count_item, dict_index.
  rewrite bool_decide_eq_false_2.
  - rewrite Hc, Hp. run. rewrite Hhc, Hhp. reflexivity.
  - intros Hempty. rewrite Hempty, lookup_empty in Hc. discriminate.
Qed.

(** The counting loop of the narrative summary: it completes, the category
    counts grow by the number of items, and priority counts that are all zero
    stay all zero, the keys they have staying. *)
Lemma gmail_count_items_spec items cc pc :
  Forall countable_item items ->
  exists cc' pc',
    Gmail.count_items items (cc, pc) = Return (cc', pc')
    /\ counts_total cc' = (counts_total cc + length items)%nat
    /\ (all_zero pc -> all_zero pc')
    /\ (forall s m, counts_index pc s = Return m -> exists m', counts_index pc' s = Return m').
Proof.
  intros Hall. revert cc pc. induction Hall as [|item rest Hitem _ IH]; intros cc pc.
  - exists cc, pc. simpl. repeat split; [lia | auto | eauto].
  - destruct (gmail_count_item_countable cc pc item Hitem) as (c & p & _ & Hstep).
    destruct (IH (counts_set cc c (counts_get cc c + 1)) (counts_set pc p (counts_get pc p)))
      as (cc' & pc' & Hrun & Htot & Hzero & Hkeys).
    exists cc', pc'. cbn [Gmail.count_items length]. rewrite Hstep, Hrun. repeat split.
    + rewrite Htot, counts_total_incr. lia.
    + intros Hz. apply Hzero. rewrite (all_zero_get pc p Hz). apply all_zero_set, Hz.
    + intros s m Hm. destruct (counts_index_set pc p (counts_get pc p) s m Hm) as [m1 Hm1].
      eapply Hkeys, Hm1.
Qed.

(** The counting loop of the dashboard: it completes, the category counts
    grow by the number of items, and the count of every priority string grows
    by the number of items of that priority. *)
Lemma backend_count_items_spec items cc pc :
  Forall countable_item items ->
  exists cc' pc',
    Backend.count_items items (cc, pc) = Return (cc', pc')
    /\ counts_total cc' = (counts_total cc + length items)%nat
    /\ (forall p, counts_get pc' (PStr p)
                  = (counts_get pc (PStr p) + length (List.filter (priority_is p) items))%nat)
    /\ (forall s m, counts_index pc s = Return m -> exists m', counts_index pc' s = Return m').
Proof.
  intros Hall. revert cc pc. induction Hall as [|item rest Hitem _ IH]; intros cc pc.
  - exists cc, pc. simpl. repeat split; [lia | intros; lia | eauto].
  - destruct (backend_count_item_countable cc pc item Hitem) as (c & p & Hp & Hstep).
    destruct (IH (counts_set cc c (counts_get cc c + 1))
                 (counts_set pc p (counts_get pc p + 1)))
      as (cc' & pc' & Hrun & Htot & Hpri & Hkeys).
    exists cc', pc'. cbn [Backend.count_items length List.filter]. rewrite Hstep, Hrun.
    repeat split.
    + rewrite Htot, counts_total_incr. lia.
    + intros s. rewrite Hpri, counts_get_set_str. unfold priority_is at 2. rewrite Hp.
      destruct (py_key_eqb p (PStr s)) eqn:Hps.
      * apply py_key_eqb_str_r in Hps. subst p.
        rewrite bool_decide_eq_true_2 by reflexivity. simpl. lia.
      * destruct p as [| | | |s'| |]; try (simpl; lia).
        simpl in Hps. rewrite Hps. simpl. lia.
    + intros s m Hm. destruct (counts_index_set pc p (counts_get pc p + 1) s m Hm) as [m1 Hm1].
      eapply Hkeys, Hm1.
Qed.

(** A counting step that completes counted an item that can be counted. *)
Lemma gmail_count_item_returns acc item acc' :
  Gmail.count_item acc item = Return acc' -> countable_item item.
Proof.
  destruct acc as [cc pc]. unfold Gmail.count_item, dict_index, countable_item. run.
  destruct (item_analysis item !! "category") as [c|]; [|discriminate].
  destruct (item_analysis item !! "priority") as [p|]; [|discriminate].
  destruct (check_hashable c) as [[]|] eqn:Hc; [|discriminate].
  destruct (check_hashable p) as [[]|] eqn:Hp; [|discriminate].
  intros _. exists c, p. auto.
Qed.

Lemma gmail_count_items_returns items acc acc' :
  Gmail.count_items items acc = Return acc' -> Forall countable_item items.
Proof.
  revert acc. induction items as [|item rest IH]; intros acc H; [constructor|].
  cbn [Gmail.count_items] in H.
  destruct (Gmail.count_item acc item) as [acc1|] eqn:Hstep; [|discriminate].
  constructor; [eapply gmail_count_item_returns, Hstep | eapply IH, H].
Qed.

Lemma backend_count_item_returns acc item acc' :
  item_analysis item <> ∅ ->
  Backend.count_item acc item = Return acc' -> countable_item item.
Proof.
  destruct acc as [cc pc]. intros Hne.
  unfold Backend.count_item, dict_index, countable_item. run.
  rewrite bool_decide_eq_false_2 by exact Hne.
  destruct (item_analysis item !! "category") as [c|]; [|discriminate].
  destruct (item_analysis item !! "priority") as [p|]; [|discriminate].
  destruct (check_hashable c) as [[]|] eqn:Hc; [|discriminate].
  destruct (check_hashable p) as [[]|] eqn:Hp; [|discriminate].
  intros _. exists c, p. auto.
Qed.

(** The keys of a dictionary of counts are hashable. *)
Definition hashable_keys (d : counts) : Prop :=
  Forall (fun kv : pyval * nat => check_hashable kv.1 = Return tt) d.

Lemma hashable_keys_set d k n :
  check_hashable k = Return tt -> hashable_keys d -> hashable_keys (counts_set d k n).
Proof.
  intros Hk. induction 1 as [|[k0 m] rest Hk0 Hrest IH]; simpl.
  - repeat constructor. exact Hk.
  - destruct (py_key_eqb k0 k); constructor; assumption.
Qed.

Lemma gmail_count_items_hashable items cc pc cc' pc' :
  Gmail.count_items items (cc, pc) = Return (cc', pc') ->
  hashable_keys cc -> hashable_keys cc'.
Proof.
  revert cc pc. induction items as [|item rest IH]; intros cc pc H Hcc.
  - simpl in H. congruence.
  - cbn [Gmail.count_items] in H.
    destruct (Gmail.count_item (cc, pc) item) as [[cc1 pc1]|] eqn:Hstep; [|discriminate].
    apply (IH _ _ H).
    destruct (gmail_count_item_returns _ _ _ Hstep) as (c & p & Hc & Hp & Hhc & Hhp).
    unfold Gmail.count_item, dict_index in Hstep. rewrite Hc, Hp in Hstep. run.
    rewrite Hhc, Hhp in Hstep. inversion Hstep; subst.
    apply hashable_keys_set; assumption.
Qed.

(** *** The aggregator *)

Lemma str_cat_assoc a b c : (a +++ b) +++ c = a +++ (b +++ c).
Proof. unfold str_cat. simpl. rewrite <- app_assoc. reflexivity. Qed.

Lemma table_get_hashable table k dflt :
  check_hashable k = Return tt -> exists s, table_get table k dflt = Return s.
Proof.
  intros H. unfold table_get. rewrite H. destruct k; eexists; reflexivity.
Qed.

Lemma map_res_returns {A B} (f : A -> res B) (xs : list A) :
  Forall (fun x => exists y, f x = Return y) xs -> exists ys, map_res f xs = Return ys.
Proof.
  induction 1 as [|x rest [y Hy] _ [ys Hys]]; simpl; [eexists; reflexivity|].
  rewrite Hy, Hys. eexists; reflexivity.
Qed.

Lemma hashable_keys_insert x l :
  check_hashable x.1 = Return tt -> hashable_keys l -> hashable_keys (insert_by_count x l).
Proof.
  intros Hx. induction 1 as [|y rest Hy Hrest IH]; simpl.
  - repeat constructor. exact Hx.
  - destruct (x.2 <? y.2)%nat; constructor; try assumption. constructor; assumption.
Qed.

Lemma hashable_keys_sorted d : hashable_keys d -> hashable_keys (sorted_by_count d).
Proof.
  induction 1 as [|x rest Hx _ IH]; simpl; [constructor|].
  apply hashable_keys_insert; assumption.
Qed.

Lemma category_lines_returns e d :
  hashable_keys d -> exists s, Gmail.category_lines e d = Return s.
Proof.
  intros H. unfold Gmail.category_lines. run.
  edestruct (map_res_returns
               (fun cc : pyval * nat =>
                  match table_get Gmail.category_emojis cc.1 "📋" with
                  | Return emoji =>
                    Return ("• " +++ emoji +++ " " +++ py_str e cc.1 +++ ": "
                              +++ str_of_nat cc.2 +++ "
")
                  | Raise ex => Raise ex
                  end) (sorted_by_count d)) as [ys Hys].
  - pose proof (hashable_keys_sorted d H) as Hsorted. unfold hashable_keys in Hsorted.
    eapply Forall_impl; [|exact Hsorted]. intros [k n] Hk. simpl in *.
    destruct (table_get_hashable Gmail.category_emojis k "📋" Hk) as [s Hs].
    rewrite Hs. eexists; reflexivity.
  - rewrite Hys. eexists; reflexivity.
Qed.

(** The item has a category, a priority and a subject. *)
Definition listable_item (item : processed_item) : Prop :=
  is_Some (item_analysis item !! "category")
  /\ is_Some (item_analysis item !! "priority")
  /\ is_Some (item_issue item !! "subject").

Lemma top_issue_lines_returns e idx items :
  Forall listable_item items -> exists s, Gmail.top_issue_lines e idx items = Return s.
Proof.
  intros H. revert idx. induction H as [|item rest ([c Hc] & [p Hp] & [s Hs]) _ IH]; intros idx.
  - eexists; reflexivity.
  - destruct (IH (S idx)) as [lines Hlines]. simpl. unfold dict_index. run.
    rewrite Hc, Hp, Hs, Hlines. eexists; reflexivity.
Qed.






(** The issue of the item has a subject. *)
Definition has_subject (item : processed_item) : Prop := is_Some (item_issue item !! "subject").

Lemma generate_returns e items t :
  Forall countable_item items -> Forall has_subject items ->
  exists report t', Gmail.generate_daily_summary_with_ai e items t = (Return report, t').
Proof.
  intros Hc Hs. destruct items as [|item rest]; [do 2 eexists; reflexivity|].
  unfold Gmail.generate_daily_summary_with_ai.
  remember (item :: rest) as items eqn:Hitems.
  destruct (gmail_count_items_spec items [] (snd Gmail.initial_counts) Hc)
    as (cc & pc & Hrun & _ & Hzero & Hkeys).
  change ([], Gmail.initial_counts.2) with Gmail.initial_counts in Hrun.
  rewrite bind_run, lift_run, Hrun.
  assert (Hfb : forall t1, exists report t', Gmail.fallback_summary e items cc pc t1 = (Return report, t')).
  { intros t1. unfold Gmail.fallback_summary. run.
    destruct (category_lines_returns e cc) as [bc Hbc].
    { eapply gmail_count_items_hashable; [exact Hrun | constructor]. }
    rewrite Hbc.
    destruct (Hkeys "High" 0%nat eq_refl) as [h Hh].
    destruct (Hkeys "Medium" 0%nat eq_refl) as [m Hm].
    destruct (Hkeys "Low" 0%nat eq_refl) as [l Hl]. rewrite Hh, Hm, Hl.
    destruct (top_issue_lines_returns e 1 (take 5 items)) as [top Htop].
    { apply Forall_take, Forall_forall. intros x Hx.
      rewrite Forall_forall in Hc, Hs. destruct (Hc x Hx) as (c & p & Hcx & Hpx & _).
      split; [|split]; [rewrite Hcx | rewrite Hpx | apply Hs, Hx]; eauto. }
    rewrite Htop. do 2 eexists; reflexivity. }
  rewrite bind_run.
  destruct (cerebras_llm e) as [llm|].
  - unfold try_except. rewrite bind_run.
    destruct (Gmail.narrated_summary e llm items cc pc t) as [[r|ex] t1] eqn:Hn.
    + simpl. do 2 eexists; reflexivity.
    + simpl. apply Hfb.
  - simpl. apply Hfb.
Qed.

(** A report for [n] issues that shows the category lines [by_category]:
    after the statistics header of the narrated report, or after the head of
    the report built without the model. *)
Definition shows_categories (n : nat) (by_category report : pystr) : Prop :=
  exists today rest,
    (exists high medium low,
       report = Gmail.stats_header today n high medium low +++ by_category +++ rest)
    \/ report = Gmail.fallback_head today n +++ by_category +++ rest.

Lemma narrated_shows_categories e llm items cc pc t report t' :
  Gmail.narrated_summary e llm items cc pc t = (Return report, t') ->
  exists by_category,
    Gmail.category_lines e cc = Return by_category
    /\ shows_categories (length items) by_category report.
Proof.
  intros H. unfold Gmail.narrated_summary in H. run.
  destruct (Gmail.issue_lines e 1 items) as [lines|]; [|discriminate].
  destruct (json_dumps e cc) as [cj|]; [|discriminate].
  destruct (json_dumps e pc) as [pj|]; [|discriminate].
  match type of H with context [llm ?a ?b] => destruct (llm a b) as [content|]; [|discriminate] end.
  destruct (counts_index pc "High") as [high|]; [|discriminate].
  destruct (counts_index pc "Medium") as [medium|]; [|discriminate].
  destruct (counts_index pc "Low") as [low|]; [|discriminate].
  destruct (Gmail.category_lines e cc) as [by_category|]; [|discriminate].
  inversion H; subst. exists by_category. split; [reflexivity|].
  do 2 eexists. left. do 3 eexists. rewrite str_cat_assoc. reflexivity.
Qed.

Lemma fallback_shows_categories e items cc pc t report t' :
  Gmail.fallback_summary e items cc pc t = (Return report, t') ->
  exists by_category,
    Gmail.category_lines e cc = Return by_category
    /\ shows_categories (length items) by_category report.
Proof.
  intros H. unfold Gmail.fallback_summary in H. run.
  destruct (Gmail.category_lines e cc) as [by_category|]; [|discriminate].
  destruct (counts_index pc "High") as [high|]; [|discriminate].
  destruct (counts_index pc "Medium") as [medium|]; [|discriminate].
  destruct (counts_index pc "Low") as [low|]; [|discriminate].
  destruct (Gmail.top_issue_lines e 1 (take 5 items)) as [top|]; [|discriminate].
  inversion H; subst. exists by_category. split; [reflexivity|].
  do 2 eexists. right. reflexivity.
Qed.

(** The report of a batch that is not empty shows the category lines of the
    counts its loop has computed, which add up to the size of the batch. *)
Lemma generate_shows_categories e items t report t' :
  items <> [] ->
  Gmail.generate_daily_summary_with_ai e items t = (Return report, t') ->
  exists category_counts priority_counts by_category,
    Gmail.count_items items Gmail.initial_counts = Return (category_counts, priority_counts)
    /\ counts_total category_counts = length items
    /\ Gmail.category_lines e category_counts = Return by_category
    /\ shows_categories (length items) by_category report.
Proof.
  intros Hne H. destruct items as [|item rest]; [congruence|].
  unfold Gmail.generate_daily_summary_with_ai in H.
  remember (item :: rest) as items eqn:Hitems. clear Hitems Hne.
  rewrite bind_run, lift_run in H.
  destruct (Gmail.count_items items Gmail.initial_counts) as [[cc pc]|ex] eqn:Hcount;
    [|discriminate].
  assert (Htotal : counts_total cc = length items).
  { destruct (gmail_count_items_spec items [] (snd Gmail.initial_counts)
                (gmail_count_items_returns _ _ _ Hcount)) as (cc' & pc' & Hrun & Htot & _).
    change ([], Gmail.initial_counts.2) with Gmail.initial_counts in Hrun.
    rewrite Hcount in Hrun. inversion Hrun; subst. exact Htot. }
  exists cc, pc.
  assert (Hshape : exists by_category,
             Gmail.category_lines e cc = Return by_category
             /\ shows_categories (length items) by_category report).
  { rewrite bind_run in H.
    destruct (cerebras_llm e) as [llm|].
    - unfold try_except in H. rewrite bind_run in H.
      destruct (Gmail.narrated_summary e llm items cc pc t) as [[r|ex] t1] eqn:Hn.
      + simpl in H. inversion H; subst. eapply narrated_shows_categories; eassumption.
      + simpl in H. eapply fallback_shows_categories; eassumption.
    - simpl in H. eapply fallback_shows_categories; eassumption. }
  destruct Hshape as (by_category & Hlines & Hshows).
  exists by_category. repeat split; assumption.
Qed.

(** C6. On an empty sequence of processed items,
    [generate_daily_summary_with_ai] returns the fixed "no issues" message
    (and does nothing else).  On a sequence that is not empty, the report it
    returns shows the lines of the per-category counts its counting loop has
    computed, and these counts add up to the length of the sequence; it
    returns a report whenever every item has a hashable category and
    priority, and a subject.  The counting loop itself, whenever it
    completes, has counts that add up to the length of the sequence, and it
    completes whenever every item has a hashable category and priority. *)
Theorem daily_summary_category_total (e : env) (t : trace) (items : list processed_item) :
  Gmail.generate_daily_summary_with_ai e [] t = (Return Gmail.no_issues_message, t)
  /\ (forall category_counts priority_counts,
        Gmail.count_items items Gmail.initial_counts
          = Return (category_counts, priority_counts) ->
        counts_total category_counts = length items)
  /\ (Forall countable_item items ->
      exists category_counts priority_counts,
        Gmail.count_items items Gmail.initial_counts
          = Return (category_counts, priority_counts))
  /\ (items <> [] ->
      forall report t',
        Gmail.generate_daily_summary_with_ai e items t = (Return report, t') ->
        exists category_counts priority_counts by_category,
          Gmail.count_items items Gmail.initial_counts
            = Return (category_counts, priority_counts)
          /\ counts_total category_counts = length items
          /\ Gmail.category_lines e category_counts = Return by_category
          /\ shows_categories (length items) by_category report)
  /\ (Forall countable_item items -> Forall has_subject items ->
      exists report t',
        Gmail.generate_daily_summary_with_ai e items t = (Return report, t')).
Proof.
  split; [reflexivity|]. split; [|split; [|split]].
  - intros cc pc H.
    destruct (gmail_count_items_spec items [] (snd Gmail.initial_counts)
                (gmail_count_items_returns _ _ _ H)) as (cc' & pc' & Hrun & Htot & _).
    change ([], Gmail.initial_counts.2) with Gmail.initial_counts in Hrun.
    rewrite H in Hrun. inversion Hrun; subst. exact Htot.
  - intros Hall.
    destruct (gmail_count_items_spec items [] (snd Gmail.initial_counts) Hall)
      as (cc' & pc' & Hrun & _). eauto.
  - intros Hne report t' H. exact (generate_shows_categories e items t report t' Hne H).
  - intros Hc Hs. exact (generate_returns e items t Hc Hs).
Qed.

(** On the sample batch of three issues the report shows the lines of the
    category counts 2 and 1. *)
Lemma daily_summary_category_total_witness :
  exists report t' by_category,
    Gmail.generate_daily_summary_with_ai (Lite.env_of None None None None) Demo.batch3 []
    = (Return report, t')
    /\ Gmail.count_items Demo.batch3 Gmail.initial_counts
       = Return ([(PStr "Electrical", 2%nat); (PStr "Plumbing", 1%nat)],
                 [(PStr "High", 0%nat); (PStr "Medium", 0%nat); (PStr "Low", 0%nat)])
    /\ counts_total [(PStr "Electrical", 2%nat); (PStr "Plumbing", 1%nat)] = 3%nat
    /\ Gmail.category_lines (Lite.env_of None None None None)
         [(PStr "Electrical", 2%nat); (PStr "Plumbing", 1%nat)] = Return by_category
    /\ shows_categories 3 by_category report.
Proof.
  destruct (proj2 (proj2 (proj2 (proj2 (daily_summary_category_total
                                          (Lite.env_of None None None None) [] Demo.batch3))))
              ltac:(repeat constructor; do 2 eexists; repeat split; reflexivity)
              ltac:(repeat constructor; eexists; reflexivity))
    as (report & t' & Hgen).
  destruct (proj1 (proj2 (proj2 (proj2 (daily_summary_category_total
                                          (Lite.env_of None None None None) [] Demo.batch3))))
              ltac:(discriminate) report t' Hgen)
    as (cc & pc & by_category & Hcount & Htotal & Hlines & Hshows).
  assert (Hcc : Return (cc, pc)
                = Return ([(PStr "Electrical", 2%nat); (PStr "Plumbing", 1%nat)],
                          [(PStr "High", 0%nat); (PStr "Medium", 0%nat); (PStr "Low", 0%nat)]))
    by (rewrite <- Hcount; reflexivity).
  injection Hcc as -> ->.
  exists report, t', by_category. repeat split; assumption.
Defined.

(** *** The classifier *)

(** The analysis read from the model's completion for [prompt] after history
    [t]: the dictionary that [json.loads] makes of the text between the first
    ['{'] and the last ['}'] of the stripped completion.  There is none when
    the model raises, when the completion has no such text, or when the text
    is not the JSON of an object. *)
Definition parsed_completion (e : env) (llm : trace -> pystr -> res pystr)
    (prompt : pystr) (t : trace) : option pydict :=
  match llm t prompt with
  | Return content =>
    let response_text := str_strip content in
    if has_json_span response_text then
      match json_loads e (str_slice response_text (json_start response_text)
                                    (json_end response_text)) with
      | Return (PDict items) => Some (dict_of_items items)
      | _ => None
      end
    else None
  | Raise _ => None
  end.

(** The degraded cases of a classification, for the prompt of the issue (or
    the exception that building it raised) and the history [t]: the model is
    not configured; the issue lacks a field of the prompt; the model raises;
    its completion has no ['{'] before a last ['}']; the text between them is
    not JSON; or it is JSON but not an object. *)
Inductive degraded (e : env) (prompt : res pystr) (t : trace) : Prop :=
| model_unreachable :
    cerebras_llm e = None -> degraded e prompt t
| prompt_fails ex :
    prompt = Raise ex -> degraded e prompt t
| model_raises llm p ex :
    cerebras_llm e = Some llm -> prompt = Return p -> llm t p = Raise ex ->
    degraded e prompt t
| no_json_object llm p content :
    cerebras_llm e = Some llm -> prompt = Return p -> llm t p = Return content ->
    has_json_span (str_strip content) = false ->
    degraded e prompt t
| unparsable_json llm p content ex :
    cerebras_llm e = Some llm -> prompt = Return p -> llm t p = Return content ->
    has_json_span (str_strip content) = true ->
    json_loads e (str_slice (str_strip content) (json_start (str_strip content))
                            (json_end (str_strip content))) = Raise ex ->
    degraded e prompt t
| not_an_object llm p content v ex :
    cerebras_llm e = Some llm -> prompt = Return p -> llm t p = Return content ->
    has_json_span (str_strip content) = true ->
    json_loads e (str_slice (str_strip content) (json_start (str_strip content))
                            (json_end (str_strip content))) = Return v ->
    as_dict v = Raise ex ->
    degraded e prompt t.

(** The fallback classification: General Inquiry, Medium, and a list of
    action items that is not empty. *)
Definition is_fallback (analysis : pydict) : Prop :=
  analysis !! "category" = Some (PStr "General Inquiry")
  /\ analysis !! "priority" = Some (PStr "Medium")
  /\ exists item items, analysis !! "action_items" = Some (PList (item :: items)).

Lemma degraded_no_completion e prompt t llm p :
  degraded e prompt t -> cerebras_llm e = Some llm -> prompt = Return p ->
  parsed_completion e llm p t = None.
Proof.
  intros Hd Hllm Hp. unfold parsed_completion.
  destruct Hd as [H|ex H|llm' p' ex H1 H2 H3|llm' p' c H1 H2 H3 H4
                  |llm' p' c ex H1 H2 H3 H4 H5|llm' p' c v ex H1 H2 H3 H4 H5 H6];
    try congruence;
    assert (llm' = llm) by congruence; assert (p' = p) by congruence; subst.
  - rewrite H3. reflexivity.
  - rewrite H3. simpl. rewrite H4. reflexivity.
  - rewrite H3. simpl. rewrite H4, H5. reflexivity.
  - rewrite H3. simpl. rewrite H4, H5. destruct v; try reflexivity. discriminate.
Qed.

Lemma gmail_classify_parsed e llm issue p t d :
  cerebras_llm e = Some llm -> Gmail.prompt_of issue = Return p ->
  parsed_completion e llm p t = Some d ->
  Gmail.classify_maintenance_issue e issue t
  = (Return (Gmail.repair issue d), t ++ [LlmInvoked p]).
Proof.
  intros Hllm Hp Hd. unfold Gmail.classify_maintenance_issue, parsed_completion in *.
  rewrite Hllm, Hp. run.
  destruct (llm t p) as [content|]; [|discriminate].
  destruct (has_json_span (str_strip content)); [|discriminate].
  destruct (json_loads e _) as [[| | | | | |items]|]; try discriminate.
  inversion Hd; subst. reflexivity.
Qed.

Lemma gmail_classify_fallback e llm issue t :
  cerebras_llm e = Some llm ->
  (forall p, Gmail.prompt_of issue = Return p -> parsed_completion e llm p t = None) ->
  exists t', Gmail.classify_maintenance_issue e issue t
             = (Return (Gmail.fallback_analysis issue), t').
Proof.
  intros Hllm Hnone. unfold Gmail.classify_maintenance_issue. rewrite Hllm. run.
  destruct (Gmail.prompt_of issue) as [p|ex]; [|eexists; reflexivity].
  specialize (Hnone p eq_refl). unfold parsed_completion in Hnone.
  destruct (llm t p) as [content|]; [|eexists; reflexivity].
  destruct (has_json_span (str_strip content)); [|eexists; reflexivity].
  destruct (json_loads e _) as [[| | | | | |items]|]; try discriminate; eexists; reflexivity.
Qed.

Lemma backend_classify_parsed e llm issue p t d :
  cerebras_llm e = Some llm -> Backend.prompt_of issue = Return p ->
  parsed_completion e llm p t = Some d ->
  Backend.classify_maintenance_issue e issue t
  = (Return (Backend.validate_category d), t ++ [LlmInvoked p]).
Proof.
  intros Hllm Hp Hd. unfold Backend.classify_maintenance_issue, parsed_completion in *.
  rewrite Hllm, Hp. run.
  destruct (llm t p) as [content|]; [|discriminate].
  destruct (has_json_span (str_strip content)); [|discriminate].
  destruct (json_loads e _) as [[| | | | | |items]|]; try discriminate.
  inversion Hd; subst. reflexivity.
Qed.

Lemma backend_classify_fallback e llm issue t :
  cerebras_llm e = Some llm ->
  (forall p, Backend.prompt_of issue = Return p -> parsed_completion e llm p t = None) ->
  exists t', Backend.classify_maintenance_issue e issue t
             = (Return (Backend.fallback_analysis issue), t').
Proof.
  intros Hllm Hnone. unfold Backend.classify_maintenance_issue. rewrite Hllm. run.
  destruct (Backend.prompt_of issue) as [p|ex]; [|eexists; reflexivity].
  specialize (Hnone p eq_refl). unfold parsed_completion in Hnone.
  destruct (llm t p) as [content|]; [|eexists; reflexivity].
  destruct (has_json_span (str_strip content)); [|eexists; reflexivity].
  destruct (json_loads e _) as [[| | | | | |items]|]; try discriminate; eexists; reflexivity.
Qed.

(** Classification never raises. *)
Lemma gmail_classify_returns e issue t :
  exists analysis t', Gmail.classify_maintenance_issue e issue t = (Return analysis, t').
Proof.
  destruct (cerebras_llm e) as [llm|] eqn:Hllm.
  - destruct (Gmail.prompt_of issue) as [p|ex] eqn:Hp.
    + destruct (parsed_completion e llm p t) as [d|] eqn:Hd.
      * do 2 eexists. eapply gmail_classify_parsed; eassumption.
      * destruct (gmail_classify_fallback e llm issue t Hllm) as [t' H]; [|eauto].
        intros p' Hp'. congruence.
    + destruct (gmail_classify_fallback e llm issue t Hllm) as [t' H]; [|eauto].
      intros p' Hp'. congruence.
  - unfold Gmail.classify_maintenance_issue. rewrite Hllm. do 2 eexists; reflexivity.
Qed.

Lemma backend_classify_returns e issue t :
  exists analysis t', Backend.classify_maintenance_issue e issue t = (Return analysis, t').
Proof.
  destruct (cerebras_llm e) as [llm|] eqn:Hllm.
  - destruct (Backend.prompt_of issue) as [p|ex] eqn:Hp.
    + destruct (parsed_completion e llm p t) as [d|] eqn:Hd.
      * do 2 eexists. eapply backend_classify_parsed; eassumption.
      * destruct (backend_classify_fallback e llm issue t Hllm) as [t' H]; [|eauto].
        intros p' Hp'. congruence.
    + destruct (backend_classify_fallback e llm issue t Hllm) as [t' H]; [|eauto].
      intros p' Hp'. congruence.
  - unfold Backend.classify_maintenance_issue. rewrite Hllm. do 2 eexists; reflexivity.
Qed.

(** C1. For every issue record and every behaviour of the model,
    [classify_maintenance_issue] (of either module) returns an analysis and
    raises nothing; in every degraded case (model not configured, model
    raising, completion without a ['{'] ... ['}'] pair, text between them that
    does not parse, or an issue without a field of the prompt) the analysis is
    a fallback: category General Inquiry, priority Medium, and action items
    that are not empty. *)
Theorem classify_never_raises (e : env) (issue : issue_record) (t : trace) :
  (exists analysis t',
     Gmail.classify_maintenance_issue e issue t = (Return analysis, t')
     /\ (degraded e (Gmail.prompt_of issue) t -> is_fallback analysis))
  /\ (exists analysis t',
        Backend.classify_maintenance_issue e issue t = (Return analysis, t')
        /\ (degraded e (Backend.prompt_of issue) t -> is_fallback analysis)).
Proof.
  split.
  - destruct (cerebras_llm e) as [llm|] eqn:Hllm.
    + destruct (gmail_classify_returns e issue t) as (a & t' & Hrun).
      exists a, t'. split; [exact Hrun|]. intros Hd.
      destruct (gmail_classify_fallback e llm issue t Hllm) as [t1 H1].
      { intros p Hp. eapply degraded_no_completion; eassumption. }
      rewrite Hrun in H1. inversion H1; subst.
      repeat split; try reflexivity. do 2 eexists; reflexivity.
    + unfold Gmail.classify_maintenance_issue. rewrite Hllm. do 2 eexists.
      split; [reflexivity|]. intros _.
      repeat split; try reflexivity. do 2 eexists; reflexivity.
  - destruct (cerebras_llm e) as [llm|] eqn:Hllm.
    + destruct (backend_classify_returns e issue t) as (a & t' & Hrun).
      exists a, t'. split; [exact Hrun|]. intros Hd.
      destruct (backend_classify_fallback e llm issue t Hllm) as [t1 H1].
      { intros p Hp. eapply degraded_no_completion; eassumption. }
      rewrite Hrun in H1. inversion H1; subst.
      repeat split; try reflexivity. do 2 eexists; reflexivity.
    + unfold Backend.classify_maintenance_issue. rewrite Hllm. do 2 eexists.
      split; [reflexivity|]. intros _.
      repeat split; try reflexivity. do 2 eexists; reflexivity.
Qed.

(** With the model out of reach, the sample issue gets the fallback of
    [gmail.py]: the degraded case is real. *)
Lemma classify_never_raises_witness :
  exists analysis t',
    Gmail.classify_maintenance_issue
      (Lite.env_of None None None (Some Demo.model_down)) Demo.full_issue []
      = (Return analysis, t')
    /\ is_fallback analysis.
Proof.
  destruct (proj1 (classify_never_raises
                     (Lite.env_of None None None (Some Demo.model_down)) Demo.full_issue []))
    as (a & t' & Hrun & Hfb).
  exists a, t'. split; [exact Hrun|]. apply Hfb.
  eapply (model_raises _ _ _ Demo.model_down); reflexivity.
Defined.

(** The other degraded cases on the sample issue, evaluated: no model, a
    completion without braces, and braces around text that is not JSON. *)
Example classify_degraded_examples :
  let run llm := (Gmail.classify_maintenance_issue
                    (Lite.env_of None None None llm) Demo.full_issue []).1 in
  run None = Return (Gmail.unconfigured_analysis Demo.full_issue)
  /\ run (Some (Demo.model_saying "I cannot classify this request."))
     = Return (Gmail.fallback_analysis Demo.full_issue)
  /\ run (Some (Demo.model_saying "} nothing here {"))
     = Return (Gmail.fallback_analysis Demo.full_issue)
  /\ run (Some (Demo.model_saying "{category: HVAC}"))
     = Return (Gmail.fallback_analysis Demo.full_issue).
Proof. repeat split; reflexivity. Qed.

Lemma in_names_true v names :
  in_names v names = true <-> exists s, v = Some (PStr s) /\ s ∈ names.
Proof.
  unfold in_names. split.
  - destruct v as [[| | | |s| |]|]; try discriminate.
    intros H. apply bool_decide_eq_true in H. eauto.
  - intros (s & -> & Hs). apply bool_decide_eq_true. exact Hs.
Qed.

Lemma lookup_setdefault {V} (k k' : pystr) (v : V) (d : gmap pystr V) :
  dict_setdefault k v d !! k'
  = if decide (k' = k) then Some (default v (d !! k)) else d !! k'.
Proof.
  unfold dict_setdefault. destruct (d !! k) as [x|] eqn:Hk.
  - destruct (decide (k' = k)) as [->|]; [exact Hk | reflexivity].
  - rewrite lookup_insert. destruct (decide (k' = k)) as [->|Hne].
    + rewrite decide_True by reflexivity. reflexivity.
    + rewrite decide_False by congruence. reflexivity.
Qed.

(** What [validate_category] leaves under ["category"], and that it touches
    nothing else. *)
Lemma validate_category_category d :
  Backend.validate_category d !! "category"
  = if in_names (d !! "category") Backend.MAINTENANCE_CATEGORIES
    then d !! "category" else Some (PStr "General Inquiry").
Proof.
  unfold Backend.validate_category.
  destruct (in_names (d !! "category") Backend.MAINTENANCE_CATEGORIES); [reflexivity|].
  apply lookup_insert_eq.
Qed.

Lemma validate_category_other d k :
  k <> "category" -> Backend.validate_category d !! k = d !! k.
Proof.
  intros Hk. unfold Backend.validate_category.
  destruct (in_names (d !! "category") Backend.MAINTENANCE_CATEGORIES); [reflexivity|].
  apply lookup_insert_ne. congruence.
Qed.

(** [repair] is [validate_category] followed by the four defaults. *)
Lemma repair_lookup issue d k :
  Gmail.repair issue d !! k
  = if decide (k = "action_items") then
      Some (default (PList [PStr "Review and assess"]) (d !! "action_items"))
    else if decide (k = "root_cause") then
      Some (default (PStr "To be determined") (d !! "root_cause"))
    else if decide (k = "priority") then
      Some (default (PStr "Medium") (d !! "priority"))
    else if decide (k = "summary") then
      Some (default (PStr (default "No summary" (issue !! "snippet"))) (d !! "summary"))
    else Backend.validate_category d !! k.
Proof.
  unfold Gmail.repair.
  change (if in_names (d !! "category") Gmail.MAINTENANCE_CATEGORIES then d
          else <["category" := PStr "General Inquiry"]> d)
    with (Backend.validate_category d).
  rewrite lookup_setdefault. destruct (decide (k = "action_items")) as [->|_].
  { rewrite !lookup_setdefault, !decide_False by discriminate.
    rewrite validate_category_other by discriminate. reflexivity. }
  rewrite lookup_setdefault. destruct (decide (k = "root_cause")) as [->|_].
  { rewrite !lookup_setdefault, !decide_False by discriminate.
    rewrite validate_category_other by discriminate. reflexivity. }
  rewrite lookup_setdefault. destruct (decide (k = "priority")) as [->|_].
  { rewrite !lookup_setdefault, !decide_False by discriminate.
    rewrite validate_category_other by discriminate. reflexivity. }
  rewrite lookup_setdefault. destruct (decide (k = "summary")) as [->|_]; [|reflexivity].
  rewrite validate_category_other by discriminate. reflexivity.
Qed.

Lemma repair_category issue d :
  Gmail.repair issue d !! "category" = Backend.validate_category d !! "category".
Proof. rewrite repair_lookup. reflexivity. Qed.

(** The category rule: one of the five categories is kept, anything else
    (a missing category too) becomes General Inquiry. *)
Definition category_rule (parsed analysis : pydict) : Prop :=
  (forall c, c ∈ Backend.MAINTENANCE_CATEGORIES ->
             parsed !! "category" = Some (PStr c) -> analysis !! "category" = Some (PStr c))
  /\ ((forall c, c ∈ Backend.MAINTENANCE_CATEGORIES -> parsed !! "category" <> Some (PStr c)) ->
      analysis !! "category" = Some (PStr "General Inquiry")).

Lemma validate_category_rule d analysis :
  analysis !! "category" = Backend.validate_category d !! "category" ->
  category_rule d analysis.
Proof.
  unfold category_rule. intros ->. rewrite validate_category_category. split.
  - intros c Hc Hd. rewrite Hd.
    replace (in_names (Some (PStr c)) Backend.MAINTENANCE_CATEGORIES) with true; [reflexivity|].
    symmetry. apply in_names_true. eauto.
  - intros Hno.
    destruct (in_names (d !! "category") Backend.MAINTENANCE_CATEGORIES) eqn:Hin; [|reflexivity].
    apply in_names_true in Hin. destruct Hin as (s & Hs & Hmem). exfalso. eapply Hno; eassumption.
Qed.

(** C2. When the model's completion parses to a JSON object, the category
    [classify_maintenance_issue] returns (in either module) is the object's
    category when that is one of Electrical, Plumbing, IT Support, HVAC and
    General Inquiry, unchanged; for any other category, and for a missing
    one, it is General Inquiry. *)
Theorem classify_category_rule (e : env) (issue : issue_record) (t : trace)
    (llm : trace -> pystr -> res pystr) (pg pb : pystr) (dg db : pydict) :
  cerebras_llm e = Some llm ->
  Gmail.prompt_of issue = Return pg -> parsed_completion e llm pg t = Some dg ->
  Backend.prompt_of issue = Return pb -> parsed_completion e llm pb t = Some db ->
  (exists analysis t',
     Gmail.classify_maintenance_issue e issue t = (Return analysis, t')
     /\ category_rule dg analysis)
  /\ (exists analysis t',
        Backend.classify_maintenance_issue e issue t = (Return analysis, t')
        /\ category_rule db analysis).
Proof.
  intros Hllm Hpg Hdg Hpb Hdb. split.
  - do 2 eexists. split; [eapply gmail_classify_parsed; eassumption|].
    apply validate_category_rule, repair_category.
  - do 2 eexists. split; [eapply backend_classify_parsed; eassumption|].
    apply validate_category_rule. reflexivity.
Qed.

(** A completion with text around an object of category Plumbing: both
    modules return Plumbing. *)
Lemma classify_category_rule_witness :
  (exists analysis t',
     Gmail.classify_maintenance_issue
       (Lite.env_of None None None (Some (Demo.model_saying Demo.chatty_plumbing)))
       Demo.full_issue [] = (Return analysis, t')
     /\ analysis !! "category" = Some (PStr "Plumbing"))
  /\ (exists analysis t',
        Backend.classify_maintenance_issue
          (Lite.env_of None None None (Some (Demo.model_saying Demo.chatty_plumbing)))
          Demo.full_issue [] = (Return analysis, t')
        /\ analysis !! "category" = Some (PStr "Plumbing")).
Proof.
  destruct (classify_category_rule
              (Lite.env_of None None None (Some (Demo.model_saying Demo.chatty_plumbing)))
              Demo.full_issue [] (Demo.model_saying Demo.chatty_plumbing)
              _ _ _ _ eq_refl eq_refl eq_refl eq_refl eq_refl)
    as [(ag & tg & Hg & Hrg & _) (ab & tb & Hb & Hrb & _)].
  split; [exists ag, tg | exists ab, tb]; (split; [assumption|]).
  - apply Hrg; [do 1 constructor; constructor | vm_compute; reflexivity].
  - apply Hrb; [do 1 constructor; constructor | vm_compute; reflexivity].
Defined.

(** A category outside the five is replaced, in both modules. *)
Example classify_made_up_category :
  let e := Lite.env_of None None None (Some (Demo.model_saying Demo.made_up_category)) in
  (exists analysis t',
     Gmail.classify_maintenance_issue e Demo.full_issue [] = (Return analysis, t')
     /\ analysis !! "category" = Some (PStr "General Inquiry"))
  /\ (exists analysis t',
        Backend.classify_maintenance_issue e Demo.full_issue [] = (Return analysis, t')
        /\ analysis !! "category" = Some (PStr "General Inquiry")).
Proof. split; do 2 eexists; split; reflexivity. Qed.

(** The defaults of [gmail.py]: whatever object the completion parses to, the
    analysis has the five fields, each field the object lacks holding its
    default (the snippet of the issue for the summary). *)
Lemma gmail_classify_fills_defaults (e : env) (issue : issue_record) (t : trace)
    (llm : trace -> pystr -> res pystr) (p : pystr) (d : pydict) :
  cerebras_llm e = Some llm ->
  Gmail.prompt_of issue = Return p -> parsed_completion e llm p t = Some d ->
  exists analysis t' snippet,
    Gmail.classify_maintenance_issue e issue t = (Return analysis, t')
    /\ issue !! "snippet" = Some snippet
    /\ is_Some (analysis !! "category")
    /\ analysis !! "summary" = Some (default (PStr snippet) (d !! "summary"))
    /\ analysis !! "priority" = Some (default (PStr "Medium") (d !! "priority"))
    /\ analysis !! "root_cause" = Some (default (PStr "To be determined") (d !! "root_cause"))
    /\ analysis !! "action_items"
       = Some (default (PList [PStr "Review and assess"]) (d !! "action_items")).
Proof.
  intros Hllm Hp Hd.
  assert (exists snippet, issue !! "snippet" = Some snippet) as [snippet Hs].
  { unfold Gmail.prompt_of in Hp.
    destruct (issue !! "subject"), (issue !! "sender"), (issue !! "date"),
      (issue !! "snippet"); try discriminate. eauto. }
  exists (Gmail.repair issue d), (t ++ [LlmInvoked p]), snippet.
  split; [eapply gmail_classify_parsed; eassumption|]. split; [exact Hs|].
  rewrite !repair_lookup, Hs. simpl. repeat split.
  rewrite validate_category_category. destruct (in_names _ _) eqn:Hin; [|eauto].
  apply in_names_true in Hin. destruct Hin as (s & -> & _). eauto.
Qed.

(** C3, on [backend.py]: for the completion [{"category": "HVAC"}], which is
    the JSON of an object without summary, priority, root cause and action
    items, [classify_maintenance_issue] of [backend.py] returns the object as
    it is, the four fields missing, where [gmail.py] returns them with their
    defaults; [get_dashboard_stats] then fails on the missing priority. *)
Theorem backend_classify_keeps_fields_missing :
  let e := Lite.env_of (Some Demo.mailbox) None None
                       (Some (Demo.model_saying Demo.hvac_only)) in
  (exists analysis t',
     Backend.classify_maintenance_issue e Demo.full_issue [] = (Return analysis, t')
     /\ analysis !! "category" = Some (PStr "HVAC")
     /\ analysis !! "summary" = None
     /\ analysis !! "priority" = None
     /\ analysis !! "root_cause" = None
     /\ analysis !! "action_items" = None)
  /\ (exists analysis t',
        Gmail.classify_maintenance_issue e Demo.full_issue [] = (Return analysis, t')
        /\ analysis !! "category" = Some (PStr "HVAC")
        /\ analysis !! "summary"
           = Some (PStr "The air conditioning in room 204 blows warm air.")
        /\ analysis !! "priority" = Some (PStr "Medium")
        /\ analysis !! "root_cause" = Some (PStr "To be determined")
        /\ analysis !! "action_items" = Some (PList [PStr "Review and assess"]))
  /\ (Backend.get_dashboard_stats e []).1 = Raise (HTTPException 500 "'priority'").
Proof.
  split; [|split].
  - do 2 eexists. repeat split; reflexivity.
  - do 2 eexists. repeat split; reflexivity.
  - reflexivity.
Qed.

(** *** The ticket sink *)

(** The content of a paragraph is at most 2000 long. *)
Definition block_bounded (b : notion_block) : Prop :=
  match b with
  | Heading2 _ => True
  | Paragraph content => (py_len content <= 2000)%nat
  end.

(** Subject, sender and every paragraph of the page are at most 2000 long. *)
Definition page_bounded (page : notion_page) : Prop :=
  (str_len (page_subject page) <= 2000)%nat
  /\ (str_len (page_sender page) <= 2000)%nat
  /\ Forall block_bounded (page_children page).

Lemma str_prefix_len n s : (str_len (str_prefix n s) <= n)%nat.
Proof. unfold str_len, str_prefix. simpl. rewrite length_take. lia. Qed.

Lemma py_prefix_len n v w : py_prefix n v = Return w -> (py_len w <= n)%nat.
Proof.
  destruct v; simpl; try discriminate; intros H; inversion H; subst; simpl.
  - apply str_prefix_len.
  - rewrite length_take. lia.
Qed.


(** The subject and the sender of the page are the first 2000 characters of
    those of the issue. *)
Definition page_cut (issue : issue_record) (page : notion_page) : Prop :=
  exists subject sender,
    issue !! "subject" = Some subject /\ issue !! "sender" = Some sender
    /\ page_subject page = str_prefix 2000 subject
    /\ page_sender page = str_prefix 2000 sender.

Lemma gmail_notion_page_of_inv e issue analysis t r t' :
  Gmail.notion_page_of e issue analysis t = (r, t') ->
  t' = t
  /\ forall page, r = Return page ->
       (page_bounded page /\ page_cut issue page)
       /\ is_Some (issue !! "subject") /\ is_Some (analysis !! "category").
Proof.
  unfold Gmail.notion_page_of, dict_index, page_bounded, page_cut, block_bounded. run.
  generalize 2000%nat. intros limit H.
  destruct (Gmail.action_items_text e analysis) as [items|]; [|inversion H; split; [easy|discriminate]].
  destruct (issue !! "subject") as [subject|] eqn:Hsubject;
    [|inversion H; split; [easy|discriminate]].
  destruct (analysis !! "category") as [category|]; [|inversion H; split; [easy|discriminate]].
  destruct (analysis !! "priority") as [priority|]; [|inversion H; split; [easy|discriminate]].
  destruct (issue !! "sender") as [sender|] eqn:Hsender;
    [|inversion H; split; [easy|discriminate]].
  destruct (analysis !! "summary") as [summary|]; [|inversion H; split; [easy|discriminate]].
  destruct (py_prefix limit summary) as [summary'|] eqn:Hs; [|inversion H; split; [easy|discriminate]].
  destruct (analysis !! "root_cause") as [root|]; [|inversion H; split; [easy|discriminate]].
  destruct (py_prefix limit root) as [root'|] eqn:Hr; [|inversion H; split; [easy|discriminate]].
  destruct (issue !! "snippet") as [snippet|]; [|inversion H; split; [easy|discriminate]].
  inversion H; subst. split; [reflexivity|]. intros page Hp. inversion Hp; subst.
  split; [|eauto]. split; [|exists subject, sender; repeat split; solve [assumption | reflexivity]].
  split; [|split]; simpl; try apply str_prefix_len.
  repeat (apply List.Forall_cons); try apply List.Forall_nil; simpl;
    first [ exact I | apply str_prefix_len | eapply py_prefix_len; eassumption ].
Qed.

Lemma backend_notion_page_of_inv e issue analysis t r t' :
  Backend.notion_page_of e issue analysis t = (r, t') ->
  t' = t /\ forall page, r = Return page -> page_bounded page /\ page_cut issue page.
Proof.
  unfold Backend.notion_page_of, dict_index, page_bounded, page_cut, block_bounded. run.
  generalize 2000%nat. intros limit H.
  destruct (Backend.action_items_text e analysis) as [items|]; [|inversion H; split; [easy|discriminate]].
  destruct (issue !! "subject") as [subject|] eqn:Hsubject;
    [|inversion H; split; [easy|discriminate]].
  destruct (analysis !! "category") as [category|]; [|inversion H; split; [easy|discriminate]].
  destruct (analysis !! "priority") as [priority|]; [|inversion H; split; [easy|discriminate]].
  destruct (issue !! "sender") as [sender|] eqn:Hsender;
    [|inversion H; split; [easy|discriminate]].
  destruct (analysis !! "summary") as [summary|]; [|inversion H; split; [easy|discriminate]].
  destruct (py_prefix limit summary) as [summary'|] eqn:Hs; [|inversion H; split; [easy|discriminate]].
  destruct (analysis !! "root_cause") as [root|]; [|inversion H; split; [easy|discriminate]].
  destruct (py_prefix limit root) as [root'|] eqn:Hr; [|inversion H; split; [easy|discriminate]].
  inversion H; subst. split; [reflexivity|]. intros page Hp. inversion Hp; subst.
  split; [|exists subject, sender; repeat split; solve [assumption | reflexivity]].
  split; [|split]; simpl; try apply str_prefix_len.
  repeat (apply List.Forall_cons); try apply List.Forall_nil; simpl;
    first [ exact I | apply str_prefix_len | eapply py_prefix_len; eassumption ].
Qed.



(** What [add_to_notion] of [gmail.py] does with a configured store, by the
    outcome of building the page and of the call to the store. *)
Lemma gmail_add_to_notion_configured e notion issue analysis t :
  notion_client e = Some notion ->
  Gmail.add_to_notion e issue analysis t
  = match Gmail.notion_page_of e issue analysis t with
    | (Raise ex, _) => (Return tt, t ++ [Printed ("❌ Failed to add to Notion: " +++ exn_str ex)])
    | (Return page, _) =>
      match notion t page with
      | Raise ex =>
        (Return tt, t ++ [NotionCreated page;
                          Printed ("❌ Failed to add to Notion: " +++ exn_str ex)])
      | Return _ =>
        (Return tt,
         t ++ [NotionCreated page;
               Printed ("✅ Added to Notion: " +++ default "" (issue !! "subject") +++ " ["
                          +++ py_str e (default PNone (analysis !! "category")) +++ "]")])
      end
    end.
Proof.
  intros Hn. unfold Gmail.add_to_notion. rewrite Hn.
  destruct (Gmail.notion_page_of e issue analysis t) as [[page|ex] t1] eqn:Hpage.
  - destruct (gmail_notion_page_of_inv _ _ _ _ _ _ Hpage) as [-> Hinv].
    destruct (Hinv page eq_refl) as (_ & [subject Hsub] & [category Hcat]).
    unfold try_except. rewrite (bind_returns _ _ _ _ _ Hpage). clear Hpage Hinv.
    unfold mbind, M_bind, call, lift, print, dict_index. rewrite Hsub, Hcat.
    destruct (notion t page) as [[]|ex]; simpl; rewrite <- app_assoc; reflexivity.
  - destruct (gmail_notion_page_of_inv _ _ _ _ _ _ Hpage) as [-> _].
    unfold try_except. rewrite (bind_raises _ _ _ _ _ Hpage). reflexivity.
Qed.

(** The same for [backend.py], which prints nothing on success. *)
Lemma backend_add_to_notion_configured e notion issue analysis t :
  notion_client e = Some notion ->
  Backend.add_to_notion e issue analysis t
  = match Backend.notion_page_of e issue analysis t with
    | (Raise ex, _) => (Return tt, t ++ [Printed ("Notion error: " +++ exn_str ex)])
    | (Return page, _) =>
      match notion t page with
      | Raise ex =>
        (Return tt, t ++ [NotionCreated page; Printed ("Notion error: " +++ exn_str ex)])
      | Return _ => (Return tt, t ++ [NotionCreated page])
      end
    end.
Proof.
  intros Hn. unfold Backend.add_to_notion. rewrite Hn.
  destruct (Backend.notion_page_of e issue analysis t) as [[page|ex] t1] eqn:Hpage.
  - destruct (backend_notion_page_of_inv _ _ _ _ _ _ Hpage) as [-> Hinv].
    unfold try_except. rewrite (bind_returns _ _ _ _ _ Hpage). clear Hpage Hinv.
    unfold mbind, M_bind, call, lift, print.
    destruct (notion t page) as [[]|ex]; simpl; rewrite <- ?app_assoc; reflexivity.
  - destruct (backend_notion_page_of_inv _ _ _ _ _ _ Hpage) as [-> _].
    unfold try_except. rewrite (bind_raises _ _ _ _ _ Hpage). reflexivity.
Qed.

(** Without a store, [add_to_notion] of [gmail.py] prints the subject of the
    issue it skips, which it must find. *)
Lemma gmail_add_to_notion_unconfigured e issue analysis t :
  notion_client e = None ->
  Gmail.add_to_notion e issue analysis t
  = match issue !! "subject" with
    | Some subject => (Return tt, t ++ [Printed ("⏭️  Skipping Notion: " +++ subject)])
    | None => (Raise (KeyError "subject"), t)
    end.
Proof.
  intros Hn. unfold Gmail.add_to_notion. rewrite Hn.
  unfold mbind, M_bind, lift, dict_index. destruct (issue !! "subject"); reflexivity.
Qed.

(** X1. With a ticket store configured, [add_to_notion] (of either module)
    returns normally for every issue, every analysis and every behaviour of
    the store: an exception of [pages.create] is caught, and the run goes on
    with the submitted page and one line of log in its trace. *)
Theorem add_to_notion_absorbs_failures (e : env) (notion : trace -> notion_page -> res unit)
    (issue : issue_record) (analysis : pydict) (t : trace) :
  notion_client e = Some notion ->
  (exists t', Gmail.add_to_notion e issue analysis t = (Return tt, t')
     /\ (forall page ex,
           Gmail.notion_page_of e issue analysis t = (Return page, t) ->
           notion t page = Raise ex ->
           t' = t ++ [NotionCreated page;
                      Printed ("❌ Failed to add to Notion: " +++ exn_str ex)]))
  /\ (exists t', Backend.add_to_notion e issue analysis t = (Return tt, t')
        /\ (forall page ex,
              Backend.notion_page_of e issue analysis t = (Return page, t) ->
              notion t page = Raise ex ->
              t' = t ++ [NotionCreated page; Printed ("Notion error: " +++ exn_str ex)])).
Proof.
  intros Hn. split.
  - rewrite (gmail_add_to_notion_configured e notion issue analysis t Hn).
    destruct (Gmail.notion_page_of e issue analysis t) as [[page|ex] t1].
    + destruct (notion t page) as [[]|ex] eqn:Hcall; eexists; (split; [reflexivity|]);
        intros page' ex' Hp Hc; inversion Hp; subst; congruence.
    + eexists. split; [reflexivity|]. intros page' ex' Hp. discriminate.
  - rewrite (backend_add_to_notion_configured e notion issue analysis t Hn).
    destruct (Backend.notion_page_of e issue analysis t) as [[page|ex] t1].
    + destruct (notion t page) as [[]|ex] eqn:Hcall; eexists; (split; [reflexivity|]);
        intros page' ex' Hp Hc; inversion Hp; subst; congruence.
    + eexists. split; [reflexivity|]. intros page' ex' Hp. discriminate.
Qed.

(** X2. Every page that [add_to_notion] (of either module) submits to the
    ticket store holds the first 2000 characters of the subject and of the
    sender of the issue, and paragraphs of at most 2000 characters (or list
    items). *)
Theorem add_to_notion_truncates (e : env) (issue : issue_record) (analysis : pydict)
    (t : trace) (page : notion_page) :
  NotionCreated page ∈ (Gmail.add_to_notion e issue analysis t).2
  \/ NotionCreated page ∈ (Backend.add_to_notion e issue analysis t).2 ->
  NotionCreated page ∈ t \/ (page_bounded page /\ page_cut issue page).
Proof.
  intros [H|H].
  - destruct (notion_client e) as [notion|] eqn:Hn.
    + rewrite (gmail_add_to_notion_configured e notion issue analysis t Hn) in H.
      destruct (Gmail.notion_page_of e issue analysis t) as [[page'|ex] t1] eqn:Hpage.
      * destruct (gmail_notion_page_of_inv _ _ _ _ _ _ Hpage) as [_ Hinv].
        destruct (Hinv page' eq_refl) as [Hb _].
        destruct (notion t page') as [[]|ex]; simpl in H;
          rewrite elem_of_app, !elem_of_cons, elem_of_nil in H;
          destruct H as [H|[H|[H|[]]]]; auto; try discriminate; inversion H; subst; auto.
      * simpl in H. rewrite elem_of_app, !elem_of_cons, elem_of_nil in H.
        destruct H as [H|[H|[]]]; auto; discriminate.
    + rewrite (gmail_add_to_notion_unconfigured e issue analysis t Hn) in H.
      destruct (issue !! "subject"); simpl in H; auto.
      rewrite elem_of_app, !elem_of_cons, elem_of_nil in H.
      destruct H as [H|[H|[]]]; auto; discriminate.
  - unfold Backend.add_to_notion in H. destruct (notion_client e) as [notion|] eqn:Hn.
    + fold (Backend.add_to_notion e issue analysis t) in H.
      assert (Heq := backend_add_to_notion_configured e notion issue analysis t Hn).
      unfold Backend.add_to_notion in Heq. rewrite Hn in Heq. rewrite Heq in H. clear Heq.
      destruct (Backend.notion_page_of e issue analysis t) as [[page'|ex] t1] eqn:Hpage.
      * destruct (backend_notion_page_of_inv _ _ _ _ _ _ Hpage) as [_ Hinv].
        specialize (Hinv page' eq_refl).
        destruct (notion t page') as [[]|ex]; simpl in H;
          rewrite elem_of_app, !elem_of_cons, elem_of_nil in H.
        -- destruct H as [H|[H|[]]]; auto. inversion H; subst; auto.
        -- destruct H as [H|[H|[H|[]]]]; auto; try discriminate. inversion H; subst; auto.
      * simpl in H. rewrite elem_of_app, !elem_of_cons, elem_of_nil in H.
        destruct H as [H|[H|[]]]; auto; discriminate.
    + simpl in H. auto.
Qed.

(** A store that fails on every request: the page of the sample issue is
    submitted, the failure is logged, and [add_to_notion] returns. *)
Lemma add_to_notion_absorbs_failures_witness :
  exists page t',
    Gmail.notion_page_of (Lite.env_of None (Some Demo.store_down) None None)
      Demo.full_issue (Demo.analysis_of "HVAC" "High") [] = (Return page, [])
    /\ Gmail.add_to_notion (Lite.env_of None (Some Demo.store_down) None None)
         Demo.full_issue (Demo.analysis_of "HVAC" "High") [] = (Return tt, t')
    /\ t' = [NotionCreated page;
             Printed "❌ Failed to add to Notion: Could not find database."].
Proof.
  destruct (add_to_notion_absorbs_failures
              (Lite.env_of None (Some Demo.store_down) None None) Demo.store_down
              Demo.full_issue (Demo.analysis_of "HVAC" "High") [] eq_refl)
    as [(t' & Hrun & Hlog) _].
  eexists _, t'. split; [reflexivity|]. split; [exact Hrun|].
  exact (Hlog _ _ eq_refl eq_refl).
Defined.

(** The issue with a subject of 2001 characters: the page submitted for it
    has a subject of 2000. *)
Lemma add_to_notion_truncates_witness :
  exists page,
    NotionCreated page
      ∈ (Gmail.add_to_notion (Lite.env_of None (Some Demo.store_ok) None None)
           Demo.long_issue (Demo.analysis_of "HVAC" "High") []).2
    /\ str_len (page_subject page) = 2000%nat
    /\ page_bounded page.
Proof.
  eexists. split; [apply list_elem_of_here|]. split; [vm_compute; reflexivity|].
  destruct (add_to_notion_truncates
              (Lite.env_of None (Some Demo.store_ok) None None)
              Demo.long_issue (Demo.analysis_of "HVAC" "High") [] _
              (or_introl (list_elem_of_here _ _))) as [Hin|[Hb _]]; [|exact Hb].
  apply elem_of_nil in Hin. destruct Hin.
Defined.
Open Scope py_scope.

(** *** The notification sink *)

(** The message [send_slack_message] posts: without blocks when the list of
    blocks is empty or absent. *)
Definition gmail_post (e : env) (text : pystr) (blocks : option (list slack_block))
    : slack_post :=
  {| post_channel := getenv e "SLACK_CHANNEL_ID"; post_text := text;
     post_blocks := if Gmail.truthy_blocks blocks then blocks else None |}.

(** What [send_slack_message] does with a configured client, by the outcome
    of the post. *)
Lemma gmail_send_slack_message_configured e client text blocks t :
  slack_client e = Some client ->
  Gmail.send_slack_message e text blocks t
  = match client t (gmail_post e text blocks) with
    | Return _ =>
      (Return tt, t ++ [SlackPosted (gmail_post e text blocks); Printed "✅ Sent to Slack"])
    | Raise ex =>
      if is_SlackApiError ex then
        (Return tt, t ++ [SlackPosted (gmail_post e text blocks);
                          Printed ("❌ Slack Error: " +++ Gmail.response_error ex)])
      else (Raise ex, t ++ [SlackPosted (gmail_post e text blocks)])
    end.
Proof.
  intros Hc. unfold Gmail.send_slack_message, gmail_post. rewrite Hc.
  unfold try_except_only, mbind, M_bind, call, print.
  destruct (Gmail.truthy_blocks blocks);
    match goal with |- context [client t ?q] => destruct (client t q) as [[]|ex] end;
    simpl; rewrite <- ?app_assoc; try reflexivity;
    destruct (is_SlackApiError ex); simpl; rewrite <- ?app_assoc; reflexivity.
Qed.

(** Building the message of [send_slack_notification] raises no chat API
    error. *)
Lemma backend_slack_post_of_raises e issue analysis ex :
  Backend.slack_post_of e issue analysis = Raise ex -> is_SlackApiError ex = false.
Proof.
  unfold Backend.slack_post_of, Backend.action_items_text, dict_index, table_get,
    check_hashable, py_iter.
  unfold mbind, res_bind. intros H.
  repeat match type of H with
         | context [match ?x with _ => _ end] =>
           match x with
           | context [match _ with _ => _ end] => fail 1
           | _ => destruct x eqn:?
           end
         end; inversion H; reflexivity.
Qed.

(** What [send_slack_notification] does with a configured client. *)
Lemma backend_send_slack_notification_configured e client issue analysis t :
  slack_client e = Some client ->
  Backend.send_slack_notification e issue analysis t
  = match Backend.slack_post_of e issue analysis with
    | Raise ex => (Raise ex, t)
    | Return post =>
      match client t post with
      | Return _ => (Return tt, t ++ [SlackPosted post])
      | Raise ex =>
        if is_SlackApiError ex then
          (Return tt, t ++ [SlackPosted post; Printed ("Slack error: " +++ exn_str ex)])
        else (Raise ex, t ++ [SlackPosted post])
      end
    end.
Proof.
  intros Hc. unfold Backend.send_slack_notification. rewrite Hc.
  unfold try_except_only, mbind, M_bind, call, print, lift.
  destruct (Backend.slack_post_of e issue analysis) as [post|ex] eqn:Hpost.
  - destruct (client t post) as [[]|ex]; [reflexivity|].
    destruct (is_SlackApiError ex); simpl; rewrite <- ?app_assoc; reflexivity.
  - rewrite (backend_slack_post_of_raises _ _ _ _ Hpost). reflexivity.
Qed.

(** X3. [send_slack_message] with a configured client posts once.  When the
    post succeeds it logs the success; when the post raises a [SlackApiError]
    it logs the error of the response and returns normally; any other
    exception of the post (a network failure, say) leaves
    [send_slack_message] uncaught, nothing being logged. *)
Theorem send_slack_message_catches_api_errors_only (e : env)
    (client : trace -> slack_post -> res unit) (text : pystr)
    (blocks : option (list slack_block)) (t : trace) :
  slack_client e = Some client ->
  (client t (gmail_post e text blocks) = Return tt ->
   Gmail.send_slack_message e text blocks t
   = (Return tt, t ++ [SlackPosted (gmail_post e text blocks); Printed "✅ Sent to Slack"]))
  /\ (forall msg err,
        client t (gmail_post e text blocks) = Raise (SlackApiError msg err) ->
        Gmail.send_slack_message e text blocks t
        = (Return tt, t ++ [SlackPosted (gmail_post e text blocks);
                            Printed ("❌ Slack Error: " +++ err)]))
  /\ (forall ex,
        client t (gmail_post e text blocks) = Raise ex -> is_SlackApiError ex = false ->
        Gmail.send_slack_message e text blocks t
        = (Raise ex, t ++ [SlackPosted (gmail_post e text blocks)])).
Proof.
  intros Hc. rewrite (gmail_send_slack_message_configured e client text blocks t Hc).
  split; [|split].
  - intros ->. reflexivity.
  - intros msg err ->. reflexivity.
  - intros ex -> ->. reflexivity.
Qed.

(** X4. [send_slack_notification] of [backend.py] catches a [SlackApiError]
    of the post and nothing else: an exception raised while the message is
    built (a field the analysis lacks, such as the priority) propagates before
    anything is posted, and so does any other exception of the post. *)
Theorem send_slack_notification_catches_api_errors_only (e : env)
    (client : trace -> slack_post -> res unit) (issue : issue_record)
    (analysis : pydict) (t : trace) :
  slack_client e = Some client ->
  (forall ex, Backend.slack_post_of e issue analysis = Raise ex ->
              Backend.send_slack_notification e issue analysis t = (Raise ex, t))
  /\ (forall c, analysis !! "category" = Some (PStr c) -> analysis !! "priority" = None ->
                Backend.send_slack_notification e issue analysis t
                = (Raise (KeyError "priority"), t))
  /\ (forall post, Backend.slack_post_of e issue analysis = Return post ->
        (forall msg err,
           client t post = Raise (SlackApiError msg err) ->
           Backend.send_slack_notification e issue analysis t
           = (Return tt, t ++ [SlackPosted post; Printed ("Slack error: " +++ msg)]))
        /\ (forall ex,
              client t post = Raise ex -> is_SlackApiError ex = false ->
              Backend.send_slack_notification e issue analysis t
              = (Raise ex, t ++ [SlackPosted post]))).
Proof.
  intros Hc. rewrite (backend_send_slack_notification_configured e client issue analysis t Hc).
  split; [|split].
  - intros ex ->. reflexivity.
  - intros c Hcat Hpri. unfold Backend.slack_post_of, dict_index. rewrite Hcat, Hpri.
    unfold mbind, res_bind, table_get. simpl. reflexivity.
  - intros post ->. split.
    + intros msg err ->. reflexivity.
    + intros ex -> ->. reflexivity.
Qed.

(** With the network down, the failure of the post leaves
    [send_slack_message]. *)
Lemma send_slack_message_catches_api_errors_only_witness :
  Gmail.send_slack_message (Lite.env_of None None (Some Demo.channel_down) None)
    "Boiler is leaking" None []
  = (Raise (OtherError "URLError" "<urlopen error timed out>"),
     [SlackPosted {| post_channel := None; post_text := "Boiler is leaking";
                     post_blocks := None |}]).
Proof.
  exact (proj2 (proj2 (send_slack_message_catches_api_errors_only
                         (Lite.env_of None None (Some Demo.channel_down) None)
                         Demo.channel_down "Boiler is leaking" None [] eq_refl))
               _ eq_refl eq_refl).
Defined.

(** An analysis with a category only, as [classify_maintenance_issue] of
    [backend.py] returns for the completion [{"category": "HVAC"}]: the
    notification raises on the missing priority. *)
Lemma send_slack_notification_catches_api_errors_only_witness :
  Backend.send_slack_notification (Lite.env_of None None (Some Demo.channel_ok) None)
    Demo.full_issue {[ "category" := PStr "HVAC" ]} []
  = (Raise (KeyError "priority"), []).
Proof.
  exact (proj1 (proj2 (send_slack_notification_catches_api_errors_only
                         (Lite.env_of None None (Some Demo.channel_ok) None)
                         Demo.channel_ok Demo.full_issue {[ "category" := PStr "HVAC" ]} []
                         eq_refl))
               "HVAC" eq_refl eq_refl).
Defined.

(** *** The text of the notification *)

(** The display glyph of a name in a table, [dflt] for a name it lacks. *)
Definition glyph (table : list (pystr * pystr)) (dflt name : pystr) : pystr :=
  default dflt (snd <$> List.find (fun kv => bool_decide (kv.1 = name)) table).

(** A table looked up at a string answers with the glyph. *)
Lemma table_get_str table s dflt : table_get table (PStr s) dflt = Return (glyph table dflt s).
Proof. reflexivity. Qed.

(** A name the table lacks gets the default glyph. *)
Lemma glyph_unknown table dflt name :
  name ∉ map fst table -> glyph table dflt name = dflt.
Proof.
  unfold glyph. induction table as [|[k v] rest IH]; intros Hn; [reflexivity|].
  simpl. case_bool_decide as Hk.
  - simpl in Hk. subst. exfalso. apply Hn. simpl. left.
  - apply IH. intros Hin. apply Hn. simpl. right. exact Hin.
Qed.

(** The blocks and the text [format_maintenance_slack_message] builds from
    the fields it reads. *)
Lemma gmail_format_inv e issue analysis t text blocks t' :
  Gmail.format_maintenance_slack_message e issue analysis t = (Return (text, blocks), t') ->
  t' = t
  /\ exists category priority subject sender summary root_cause items cg pg,
       analysis !! "category" = Some category
       /\ analysis !! "priority" = Some priority
       /\ issue !! "subject" = Some subject
       /\ issue !! "sender" = Some sender
       /\ analysis !! "summary" = Some summary
       /\ analysis !! "root_cause" = Some root_cause
       /\ Gmail.action_items_text e analysis = Return items
       /\ table_get Gmail.category_emojis category "📋" = Return cg
       /\ table_get Gmail.priority_emojis priority "🟡" = Return pg
       /\ text = cg +++ " " +++ py_str e category +++ " - " +++ py_str e priority
                    +++ " Priority: " +++ subject
       /\ blocks =
          [ Header (cg +++ " New Maintenance Request");
            SectionFields
              [ "*Category:*
" +++ cg +++ " " +++ py_str e category;
                "*Priority:*
" +++ pg +++ " " +++ py_str e priority ];
            SectionFields
              [ "*From:*
" +++ sender;
                "*Date:*
" +++ now_strftime e t "%Y-%m-%d %H:%M" ];
            SectionText ("*Subject:*
" +++ subject);
            Divider;
            SectionText ("*📋 Summary:*
" +++ py_str e summary);
            SectionText ("*🔍 Root Cause:*
" +++ py_str e root_cause);
            SectionText ("*✅ Action Items:*
" +++ items) ].
Proof.
  unfold Gmail.format_maintenance_slack_message, dict_index.
  unfold mbind, M_bind, mret, M_ret, lift. intros H.
  destruct (analysis !! "category") as [category|] eqn:Hcat; [|discriminate].
  destruct (table_get Gmail.category_emojis category "📋") as [cg|] eqn:Hcg; [|discriminate].
  destruct (analysis !! "priority") as [priority|] eqn:Hpri; [|discriminate].
  destruct (table_get Gmail.priority_emojis priority "🟡") as [pg|] eqn:Hpg; [|discriminate].
  destruct (Gmail.action_items_text e analysis) as [items|] eqn:Hitems; [|discriminate].
  destruct (issue !! "sender") as [sender|] eqn:Hsender; [|discriminate].
  destruct (issue !! "subject") as [subject|] eqn:Hsubject; [|discriminate].
  destruct (analysis !! "summary") as [summary|] eqn:Hsummary; [|discriminate].
  destruct (analysis !! "root_cause") as [root_cause|] eqn:Hroot; [|discriminate].
  inversion H; subst. split; [reflexivity|].
  exists category, priority, subject, sender, summary, root_cause, items, cg, pg.
  repeat split; assumption || reflexivity.
Qed.

(** The length of a concatenation. *)
Lemma str_len_cat a b : str_len (a +++ b) = (str_len a + str_len b)%nat.
Proof. unfold str_len, str_cat. simpl. apply length_app. Qed.

(** The message [send_slack_notification] builds, when it builds one. *)
Lemma backend_slack_post_of_inv e issue analysis post :
  Backend.slack_post_of e issue analysis = Return post ->
  exists category subject cg rest,
    analysis !! "category" = Some category
    /\ issue !! "subject" = Some subject
    /\ post_text post = cg +++ " " +++ py_str e category +++ " - " +++ subject
    /\ post_blocks post
       = Some (Header (cg +++ " New Maintenance Request") :: rest)
    /\ SectionText ("*Subject:*
" +++ subject) ∈ rest.
Proof.
  unfold Backend.slack_post_of, dict_index. unfold mbind, res_bind. intros H.
  destruct (analysis !! "category") as [category|] eqn:Hcat; [|discriminate].
  destruct (table_get Backend.category_emojis category _) as [cg|] eqn:Hcg; [|discriminate].
  destruct (analysis !! "priority") as [priority|] eqn:Hpri; [|discriminate].
  destruct (table_get Backend.priority_emojis priority _) as [pg|] eqn:Hpg; [|discriminate].
  destruct (Backend.action_items_text e analysis) as [items|] eqn:Hitems; [|discriminate].
  destruct (issue !! "subject") as [subject|] eqn:Hsubject; [|discriminate].
  destruct (analysis !! "summary") as [summary|] eqn:Hsummary; [|discriminate].
  destruct (analysis !! "root_cause") as [root_cause|] eqn:Hroot; [|discriminate].
  inversion H; subst. simpl. exists category, subject, cg. eexists.
  repeat split; try reflexivity. do 1 apply list_elem_of_further. apply list_elem_of_here.
Qed.

(** X5. The chat messages carry the subject of the issue whole: the text of
    the message [format_maintenance_slack_message] of [gmail.py] builds, and
    of the one [send_slack_notification] of [backend.py] posts, ends with the
    subject, one of the blocks is the subject under its title, and neither is
    cut at any length (the ticket sink cuts at 2000). *)
Theorem slack_messages_carry_the_whole_subject (e : env) (issue : issue_record)
    (analysis : pydict) (t : trace) :
  (forall text blocks t',
     Gmail.format_maintenance_slack_message e issue analysis t = (Return (text, blocks), t') ->
     exists subject head,
       issue !! "subject" = Some subject
       /\ text = head +++ subject
       /\ SectionText ("*Subject:*
" +++ subject) ∈ blocks
       /\ (str_len subject <= str_len text)%nat)
  /\ (forall post,
        Backend.slack_post_of e issue analysis = Return post ->
        exists subject head blocks,
          issue !! "subject" = Some subject
          /\ post_text post = head +++ subject
          /\ post_blocks post = Some blocks
          /\ SectionText ("*Subject:*
" +++ subject) ∈ blocks
          /\ (str_len subject <= str_len (post_text post))%nat).
Proof.
  split.
  - intros text blocks t' H.
    destruct (gmail_format_inv _ _ _ _ _ _ _ H)
      as (_ & category & priority & subject & sender & summary & root & items & cg & pg
          & _ & _ & Hsub & _ & _ & _ & _ & _ & _ & -> & ->).
    exists subject. eexists. split; [exact Hsub|]. split.
    { rewrite <- !str_cat_assoc. reflexivity. }
    split.
    { do 3 apply list_elem_of_further. apply list_elem_of_here. }
    rewrite !str_len_cat. lia.
  - intros post H.
    destruct (backend_slack_post_of_inv _ _ _ _ H)
      as (category & subject & cg & rest & _ & Hsub & Htext & Hblocks & Hin).
    exists subject. eexists. eexists. split; [exact Hsub|]. split.
    { rewrite Htext, <- !str_cat_assoc. reflexivity. }
    split; [exact Hblocks|]. split.
    { apply list_elem_of_further. exact Hin. }
    rewrite Htext, !str_len_cat. lia.
Qed.

(** A subject of 2001 characters reaches the text of the message. *)
Lemma slack_messages_carry_the_whole_subject_witness :
  match Gmail.format_maintenance_slack_message (Lite.env_of None None None None)
          Demo.long_issue (Demo.analysis_of "HVAC" "High") [] with
  | (Return (text, _), _) => (2001 <= str_len text)%nat
  | _ => False
  end.
Proof.
  destruct (Gmail.format_maintenance_slack_message (Lite.env_of None None None None)
              Demo.long_issue (Demo.analysis_of "HVAC" "High") [])
    as [[[text blocks]|ex] t'] eqn:H; [|vm_compute in H; discriminate H].
  destruct (proj1 (slack_messages_carry_the_whole_subject _ _ _ _) text blocks t' H)
    as (subject & head & Hsub & _ & _ & Hlen).
  assert (Hs : Some subject = Some (str_repeat 65 2001))
    by (rewrite <- Hsub; vm_compute; reflexivity).
  injection Hs as Hs.
  assert (Hl : str_len (str_repeat 65 2001) = 2001%nat) by (vm_compute; reflexivity).
  rewrite Hs, Hl in Hlen. exact Hlen.
Defined.

(** *** What a classification leaves in the trace *)

(** The results of [classify_maintenance_issue] of [gmail.py], with what the
    run adds to the trace: nothing when the model is not configured; a line
    of log when the prompt cannot be built; the call to the model, followed
    by a line of log unless the completion parses to an object. *)
Lemma gmail_classify_cases e issue t :
  (cerebras_llm e = None
   /\ Gmail.classify_maintenance_issue e issue t
      = (Return (Gmail.unconfigured_analysis issue), t))
  \/ (exists llm, cerebras_llm e = Some llm
      /\ ((exists ex,
             Gmail.prompt_of issue = Raise ex
             /\ Gmail.classify_maintenance_issue e issue t
                = (Return (Gmail.fallback_analysis issue),
                   t ++ [Printed ("⚠️  AI classification failed: " +++ exn_str ex)]))
          \/ (exists p, Gmail.prompt_of issue = Return p
                /\ ((exists d, parsed_completion e llm p t = Some d
                       /\ Gmail.classify_maintenance_issue e issue t
                          = (Return (Gmail.repair issue d), t ++ [LlmInvoked p]))
                    \/ (exists ex, Gmail.classify_maintenance_issue e issue t
                                   = (Return (Gmail.fallback_analysis issue),
                                      t ++ [LlmInvoked p;
                                            Printed ("⚠️  AI classification failed: "
                                                     +++ exn_str ex)])))))).
Proof.
  unfold Gmail.classify_maintenance_issue, parsed_completion.
  destruct (cerebras_llm e) as [llm|]; [|left; split; reflexivity].
  right. exists llm. split; [reflexivity|].
  destruct (Gmail.prompt_of issue) as [p|ex]; [right|left; exists ex; split; reflexivity].
  exists p. split; [reflexivity|].
  unfold try_except, mbind, M_bind, lift, call, raise, print, mret, M_ret.
  destruct (llm t p) as [content|ex]; [|right; exists ex; rewrite <- app_assoc; reflexivity].
  destruct (has_json_span (str_strip content));
    [|right; eexists; rewrite <- app_assoc; reflexivity].
  destruct (json_loads e _) as [v|ex]; [|right; exists ex; rewrite <- app_assoc; reflexivity].
  destruct (as_dict v) as [d|ex] eqn:Hv;
    [|right; exists ex; rewrite <- app_assoc; reflexivity].
  left. exists d. destruct v; try discriminate. inversion Hv. split; reflexivity.
Qed.

(** The same for [backend.py]. *)
Lemma backend_classify_cases e issue t :
  (cerebras_llm e = None
   /\ Backend.classify_maintenance_issue e issue t
      = (Return (Backend.unconfigured_analysis issue), t))
  \/ (exists llm, cerebras_llm e = Some llm
      /\ ((exists ex,
             Backend.prompt_of issue = Raise ex
             /\ Backend.classify_maintenance_issue e issue t
                = (Return (Backend.fallback_analysis issue),
                   t ++ [Printed ("Classification error: " +++ exn_str ex)]))
          \/ (exists p, Backend.prompt_of issue = Return p
                /\ ((exists d, parsed_completion e llm p t = Some d
                       /\ Backend.classify_maintenance_issue e issue t
                          = (Return (Backend.validate_category d), t ++ [LlmInvoked p]))
                    \/ (exists ex, Backend.classify_maintenance_issue e issue t
                                   = (Return (Backend.fallback_analysis issue),
                                      t ++ [LlmInvoked p;
                                            Printed ("Classification error: "
                                                     +++ exn_str ex)])))))).
Proof.
  unfold Backend.classify_maintenance_issue, parsed_completion.
  destruct (cerebras_llm e) as [llm|]; [|left; split; reflexivity].
  right. exists llm. split; [reflexivity|].
  destruct (Backend.prompt_of issue) as [p|ex]; [right|left; exists ex; split; reflexivity].
  exists p. split; [reflexivity|].
  unfold try_except, mbind, M_bind, lift, call, raise, print, mret, M_ret.
  destruct (llm t p) as [content|ex]; [|right; exists ex; rewrite <- app_assoc; reflexivity].
  destruct (has_json_span (str_strip content));
    [|right; eexists; rewrite <- app_assoc; reflexivity].
  destruct (json_loads e _) as [v|ex]; [|right; exists ex; rewrite <- app_assoc; reflexivity].
  destruct (as_dict v) as [d|ex] eqn:Hv;
    [|right; exists ex; rewrite <- app_assoc; reflexivity].
  left. exists d. destruct v; try discriminate. inversion Hv. split; reflexivity.
Qed.

(** The prompts sent to the model in a trace, and the events of a trace
    that reach the mail store, the ticket store or the chat channel. *)
Definition model_calls (t : trace) : list pystr :=
  omap (fun ev => match ev with LlmInvoked p => Some p | _ => None end) t.

Definition is_outside_call (ev : event) : bool :=
  match ev with
  | GmailListed _ | GmailGot _ | NotionCreated _ | SlackPosted _ => true
  | Printed _ | LlmInvoked _ => false
  end.

Definition outside_calls (t : trace) : trace := filter (fun ev => is_outside_call ev = true) t.

Lemma model_calls_app t1 t2 : model_calls (t1 ++ t2) = model_calls t1 ++ model_calls t2.
Proof. apply omap_app. Qed.

Lemma outside_calls_app t1 t2 : outside_calls (t1 ++ t2) = outside_calls t1 ++ outside_calls t2.
Proof. apply list.filter_app. Qed.

(** What a classification adds to the trace: no call to the mail store, the
    ticket store or the channel; nothing at all when no model is configured;
    at most one call to the model, with the prompt of the issue. *)
Definition classification_run (configured : bool) (prompt : res pystr) (extra : trace)
    : Prop :=
  outside_calls extra = []
  /\ (configured = false -> extra = [])
  /\ (model_calls extra = []
      \/ exists p, prompt = Return p /\ model_calls extra = [p]).

(** X6. [classify_maintenance_issue] (of either module) returns having added
    to the trace no call to the mail store, the ticket store or the chat
    channel, and at most one call to the model, whose prompt is the one built
    from the issue; without a model it adds nothing. *)
Theorem classify_calls_the_model_at_most_once (e : env) (issue : issue_record) (t : trace) :
  (exists analysis extra,
     Gmail.classify_maintenance_issue e issue t = (Return analysis, t ++ extra)
     /\ classification_run (bool_decide (is_Some (cerebras_llm e))) (Gmail.prompt_of issue) extra)
  /\ (exists analysis extra,
        Backend.classify_maintenance_issue e issue t = (Return analysis, t ++ extra)
        /\ classification_run (bool_decide (is_Some (cerebras_llm e)))
                              (Backend.prompt_of issue) extra).
Proof.
  split.
  - destruct (gmail_classify_cases e issue t)
      as [[Hn H]|(llm & Hllm & [(ex & Hp & H)|(p & Hp & [(d & _ & H)|[ex H]])])];
      rewrite H; eexists; eexists; (split; [try reflexivity; rewrite app_nil_r; reflexivity|]);
      (split; [reflexivity|split]); rewrite ?Hllm, ?Hn; try discriminate;
      try (intros _; reflexivity); try (left; reflexivity);
      right; exists p; split; [exact Hp|reflexivity|exact Hp|reflexivity].
  - destruct (backend_classify_cases e issue t)
      as [[Hn H]|(llm & Hllm & [(ex & Hp & H)|(p & Hp & [(d & _ & H)|[ex H]])])];
      rewrite H; eexists; eexists; (split; [try reflexivity; rewrite app_nil_r; reflexivity|]);
      (split; [reflexivity|split]); rewrite ?Hllm, ?Hn; try discriminate;
      try (intros _; reflexivity); try (left; reflexivity);
      right; exists p; split; [exact Hp|reflexivity|exact Hp|reflexivity].
Qed.

(** *** The analyses of [gmail.py] *)

Lemma general_inquiry_listed : "General Inquiry" ∈ Gmail.MAINTENANCE_CATEGORIES.
Proof. do 4 apply list_elem_of_further. apply list_elem_of_here. Qed.

(** The category [repair] leaves is one of the five. *)
Lemma repair_has_category issue d :
  exists c, Gmail.repair issue d !! "category" = Some (PStr c)
            /\ c ∈ Gmail.MAINTENANCE_CATEGORIES.
Proof.
  rewrite repair_category, validate_category_category.
  destruct (in_names _ _) eqn:Hin.
  - apply in_names_true in Hin. destruct Hin as (s & -> & Hs). eauto.
  - exists "General Inquiry". split; [reflexivity|exact general_inquiry_listed].
Qed.

(** The five fields, the category being one of the five names. *)
Definition complete (analysis : pydict) : Prop :=
  (exists c, analysis !! "category" = Some (PStr c) /\ c ∈ Gmail.MAINTENANCE_CATEGORIES)
  /\ is_Some (analysis !! "summary")
  /\ is_Some (analysis !! "priority")
  /\ is_Some (analysis !! "root_cause")
  /\ is_Some (analysis !! "action_items").

Lemma unconfigured_complete issue : complete (Gmail.unconfigured_analysis issue).
Proof.
  split; [exists "General Inquiry"; split; [reflexivity|exact general_inquiry_listed]|].
  repeat split; eexists; reflexivity.
Qed.

Lemma fallback_complete issue : complete (Gmail.fallback_analysis issue).
Proof.
  split; [exists "General Inquiry"; split; [reflexivity|exact general_inquiry_listed]|].
  repeat split; eexists; reflexivity.
Qed.

Lemma repair_complete issue d : complete (Gmail.repair issue d).
Proof.
  split; [apply repair_has_category|].
  rewrite !repair_lookup. simpl. repeat split; eexists; reflexivity.
Qed.

(** X7. Whatever the model does, the analysis [classify_maintenance_issue] of
    [gmail.py] returns has the five fields, and its category is one of the
    five names of [MAINTENANCE_CATEGORIES]. *)
Theorem gmail_classify_returns_a_complete_analysis (e : env) (issue : issue_record)
    (t : trace) :
  exists analysis t',
    Gmail.classify_maintenance_issue e issue t = (Return analysis, t')
    /\ (exists c, analysis !! "category" = Some (PStr c)
                  /\ c ∈ Gmail.MAINTENANCE_CATEGORIES)
    /\ is_Some (analysis !! "summary")
    /\ is_Some (analysis !! "priority")
    /\ is_Some (analysis !! "root_cause")
    /\ is_Some (analysis !! "action_items").
Proof.
  destruct (gmail_classify_cases e issue t)
    as [[_ H]|(llm & _ & [(ex & _ & H)|(p & _ & [(d & _ & H)|[ex H]])])];
    do 2 eexists; (split; [exact H|]).
  - apply unconfigured_complete.
  - apply fallback_complete.
  - apply repair_complete.
  - apply fallback_complete.
Qed.

(** *** The loop of [main] *)

(** An analysis [format_maintenance_slack_message] and the daily summary can
    work with: the five fields, the category one of the five names, a
    priority that can be a dictionary key, action items that can be
    iterated. *)
Definition well_typed (d : pydict) : Prop :=
  (forall v, d !! "priority" = Some v -> check_hashable v = Return tt)
  /\ (forall v, d !! "action_items" = Some v -> exists l, py_iter v = Return l).

Definition presentable (analysis : pydict) : Prop :=
  (exists c, analysis !! "category" = Some (PStr c) /\ c ∈ Gmail.MAINTENANCE_CATEGORIES)
  /\ is_Some (analysis !! "summary")
  /\ (exists v, analysis !! "priority" = Some v /\ check_hashable v = Return tt)
  /\ is_Some (analysis !! "root_cause")
  /\ (exists v l, analysis !! "action_items" = Some v /\ py_iter v = Return l).

(** The model answers with priorities and action items of the right kind. *)
Definition well_typed_model (e : env) : Prop :=
  forall llm p tm d,
    cerebras_llm e = Some llm -> parsed_completion e llm p tm = Some d -> well_typed d.

(** The chat channel fails with API errors only. *)
Definition api_errors_only (e : env) : Prop :=
  forall client tm post ex,
    slack_client e = Some client -> client tm post = Raise ex -> is_SlackApiError ex = true.

(** No event of a short list of events is a post. *)
Ltac no_post :=
  let Hin := fresh "Hin" in
  intros ? Hin;
  repeat (apply elem_of_cons in Hin; destruct Hin as [Hin|Hin]; [discriminate Hin|]);
  apply elem_of_nil in Hin; exact Hin.

Lemma unconfigured_presentable issue : presentable (Gmail.unconfigured_analysis issue).
Proof.
  split; [exists "General Inquiry"; split; [reflexivity|exact general_inquiry_listed]|].
  split; [eexists; reflexivity|]. split; [eexists; split; reflexivity|].
  split; [eexists; reflexivity|]. do 2 eexists; split; reflexivity.
Qed.

Lemma fallback_presentable issue : presentable (Gmail.fallback_analysis issue).
Proof.
  split; [exists "General Inquiry"; split; [reflexivity|exact general_inquiry_listed]|].
  split; [eexists; reflexivity|]. split; [eexists; split; reflexivity|].
  split; [eexists; reflexivity|]. do 2 eexists; split; reflexivity.
Qed.

Lemma repair_presentable issue d : well_typed d -> presentable (Gmail.repair issue d).
Proof.
  intros [Hpri Hitems]. split.
  - apply repair_has_category.
  - rewrite !repair_lookup. simpl. split; [eexists; reflexivity|].
    split.
    { eexists. split; [reflexivity|]. destruct (d !! "priority") as [v|] eqn:Hv; simpl.
      - apply Hpri. reflexivity.
      - reflexivity. }
    split; [eexists; reflexivity|].
    destruct (d !! "action_items") as [v|] eqn:Hv; simpl.
    + destruct (Hitems v eq_refl) as [l Hl]. exists v, l. split; [reflexivity|exact Hl].
    + do 2 eexists. split; reflexivity.
Qed.

(** With such a model, every analysis of [gmail.py] is presentable. *)
Lemma gmail_classify_presentable e issue t :
  well_typed_model e ->
  exists analysis extra,
    Gmail.classify_maintenance_issue e issue t = (Return analysis, t ++ extra)
    /\ presentable analysis
    /\ outside_calls extra = []
    /\ (length (model_calls extra) <= 1)%nat.
Proof.
  intros Hmodel.
  destruct (gmail_classify_cases e issue t)
    as [[Hn H]|(llm & Hllm & [(ex & Hp & H)|(p & Hp & [(d & Hd & H)|[ex H]])])];
    rewrite H; eexists; eexists; (split; [try reflexivity; rewrite app_nil_r; reflexivity|]).
  - split; [apply unconfigured_presentable|]. split; [reflexivity|simpl; lia].
  - split; [apply fallback_presentable|]. split; [reflexivity|simpl; lia].
  - split; [apply repair_presentable; eapply Hmodel; eassumption|].
    split; [reflexivity|simpl; lia].
  - split; [apply fallback_presentable|]. split; [reflexivity|simpl; lia].
Qed.

(** The issue has the two fields the loop prints. *)
Definition addressed (issue : issue_record) : Prop :=
  is_Some (issue !! "subject") /\ is_Some (issue !! "sender").

Lemma gmail_action_items_returns e analysis :
  (exists v l, analysis !! "action_items" = Some v /\ py_iter v = Return l) ->
  exists items, Gmail.action_items_text e analysis = Return items.
Proof.
  intros (v & l & Hv & Hl). unfold Gmail.action_items_text. rewrite Hv. simpl. rewrite Hl.
  eexists; reflexivity.
Qed.

(** The message of a presentable analysis is built, with its eight blocks. *)
Lemma gmail_format_returns e issue analysis t :
  addressed issue -> presentable analysis ->
  exists text block blocks,
    Gmail.format_maintenance_slack_message e issue analysis t
    = (Return (text, block :: blocks), t).
Proof.
  intros [[subject Hsub] [sender Hsender]]
         ((c & Hc & _) & [summary Hsum] & (pri & Hpri & Hhash) & [root Hroot] & Hitems).
  destruct (gmail_action_items_returns e analysis Hitems) as [items Hit].
  unfold Gmail.format_maintenance_slack_message, dict_index.
  unfold mbind, M_bind, mret, M_ret, lift.
  rewrite Hc, Hpri, Hit, Hsender, Hsub, Hsum, Hroot. rewrite table_get_str.
  unfold table_get. rewrite Hhash.
  destruct pri; do 3 eexists; reflexivity.
Qed.

(** [add_to_notion] of [gmail.py] returns for an issue with a subject,
    touching nothing but the ticket store. *)
Lemma gmail_add_to_notion_returns e issue analysis t :
  is_Some (issue !! "subject") ->
  exists extra, Gmail.add_to_notion e issue analysis t = (Return tt, t ++ extra)
                /\ model_calls extra = []
                /\ (forall post, SlackPosted post ∉ extra).
Proof.
  intros [subject Hsub]. destruct (notion_client e) as [notion|] eqn:Hn.
  - rewrite (gmail_add_to_notion_configured e notion issue analysis t Hn).
    destruct (Gmail.notion_page_of e issue analysis t) as [[page|ex] t1].
    + destruct (notion t page) as [[]|ex]; eexists; (split; [reflexivity|]);
        (split; [reflexivity|]); no_post.
    + eexists; (split; [reflexivity|]); (split; [reflexivity|]); no_post.
  - rewrite (gmail_add_to_notion_unconfigured e issue analysis t Hn), Hsub.
    eexists; (split; [reflexivity|]); (split; [reflexivity|]); no_post.
Qed.

(** With a channel that fails with API errors only, [send_slack_message]
    returns. *)
Lemma gmail_send_slack_message_returns e text blocks t :
  api_errors_only e ->
  exists extra, Gmail.send_slack_message e text blocks t = (Return tt, t ++ extra)
                /\ model_calls extra = [].
Proof.
  intros Hch. destruct (slack_client e) as [client|] eqn:Hc.
  - rewrite (gmail_send_slack_message_configured e client text blocks t Hc).
    destruct (client t (gmail_post e text blocks)) as [[]|ex] eqn:Hpost.
    + eexists; split; reflexivity.
    + rewrite (Hch client t _ ex Hc Hpost). eexists; split; reflexivity.
  - unfold Gmail.send_slack_message. rewrite Hc. eexists; split; reflexivity.
Qed.

(** The loop of [main] on issues with a subject and a sender, with a model
    and a channel as above: every issue is classified and kept, in order. *)
Lemma gmail_process_issues_returns e n idx issues t :
  well_typed_model e -> api_errors_only e -> Forall addressed issues ->
  exists items extra,
    Gmail.process_issues e n idx issues t = (Return items, t ++ extra)
    /\ map item_issue items = issues
    /\ Forall (fun item => presentable (item_analysis item)) items
    /\ Forall (fun item => exists tm tm',
                  Gmail.classify_maintenance_issue e (item_issue item) tm
                  = (Return (item_analysis item), tm')) items
    /\ (length (model_calls extra) <= length issues)%nat.
Proof.
  intros Hmodel Hch Hall. revert idx t.
  induction Hall as [|issue rest Haddr _ IH]; intros idx t.
  - exists [], []. simpl. rewrite app_nil_r. repeat split; constructor.
  - pose proof Haddr as [[subject Hsub] [sender Hsender]].
    cbn [Gmail.process_issues]. unfold dict_index. rewrite Hsub, Hsender.
    unfold mbind, M_bind, mret, M_ret, lift, print. cbv beta iota.
    match goal with
    | |- context [Gmail.classify_maintenance_issue e issue ?T] =>
      destruct (gmail_classify_presentable e issue T Hmodel)
        as (analysis & ex1 & Hcl & Hpres & Hout1 & Hcalls1)
    end.
    rewrite Hcl. cbv beta iota.
    pose proof Hpres as ((c & Hc & _) & _ & (pri & Hpri & _) & _).
    rewrite Hc, Hpri. cbv beta iota.
    match goal with
    | |- context [Gmail.add_to_notion e issue analysis ?T] =>
      destruct (gmail_add_to_notion_returns e issue analysis T (ex_intro _ subject Hsub))
        as (ex2 & Hadd & Hcalls2 & _)
    end.
    rewrite Hadd. cbv beta iota.
    match goal with
    | |- context [Gmail.format_maintenance_slack_message e issue analysis ?T] =>
      destruct (gmail_format_returns e issue analysis T Haddr Hpres)
        as (text & block & blocks & Hfmt)
    end.
    rewrite Hfmt. cbv beta iota.
    match goal with
    | |- context [Gmail.send_slack_message e text ?B ?T] =>
      destruct (gmail_send_slack_message_returns e text B T Hch) as (ex3 & Hsend & Hcalls3)
    end.
    rewrite Hsend. cbv beta iota.
    match goal with
    | |- context [Gmail.process_issues e n (S idx) rest ?T] =>
      destruct (IH (S idx) T) as (items & ex4 & Hrest & Hmap & Hpresent & Hclass & Hcalls4)
    end.
    rewrite Hrest. cbv beta iota.
    eexists. eexists. split; [rewrite <- !app_assoc; reflexivity|].
    split; [simpl; rewrite Hmap; reflexivity|].
    split; [constructor; [exact Hpres|exact Hpresent]|].
    split; [constructor; [simpl; eauto|exact Hclass]|].
    rewrite !model_calls_app, !length_app, Hcalls2, Hcalls3. simpl. lia.
Qed.

(** *** The run of [main] *)

(** The lines [main] prints before it fetches and after it has processed
    [n] issues. *)
Definition main_banner : trace :=
  [Printed ("
" +++ str_repeat 61 70);
   Printed "🔧 AI MAINTENANCE SUPERVISOR - Starting Analysis...";
   Printed (str_repeat 61 70 +++ "
")].

Definition main_footer (n : nat) : trace :=
  [Printed ("
" +++ str_repeat 61 70);
   Printed "✅ Maintenance analysis complete!";
   Printed ("   Processed: " +++ str_of_nat n +++ " issues");
   Printed (str_repeat 61 70)].

(** [main] up to the fetch. *)
Lemma gmail_main_fetch e t :
  Gmail.main e t
  = match Gmail.fetch_gmail_issues e (t ++ main_banner) with
    | (Raise ex, t1) => (Raise ex, t1)
    | (Return [], t1) => (Return tt, t1 ++ [Printed "📭 No emails found."])
    | (Return issues, t1) =>
      match Gmail.process_issues e (length issues) 1 issues
              (t1 ++ [Printed ("📬 Found " +++ str_of_nat (length issues)
                                 +++ " maintenance request(s)
")]) with
      | (Raise ex, t2) => (Raise ex, t2)
      | (Return items, t2) =>
        match
          match slack_client e, items with
          | Some _, _ :: _ =>
            match Gmail.generate_daily_summary_with_ai e items
                    (t2 ++ [Printed "
📊 Generating daily maintenance summary..."]) with
            | (Return daily_summary, t3) =>
              Gmail.send_slack_message e daily_summary None
                (t3 ++ [Printed "   ✓ Daily summary generated"])
            | (Raise ex, t3) => (Raise ex, t3)
            end
          | _, _ => (Return tt, t2)
          end
        with
        | (Return _, t4) => (Return tt, t4 ++ main_footer (length items))
        | (Raise ex, t4) => (Raise ex, t4)
        end
      end
    end.
Proof.
  unfold Gmail.main, main_banner, main_footer.
  unfold mbind, M_bind, mret, M_ret, print. cbv beta iota.
  replace (((t ++ [Printed ("
" +++ str_repeat 61 70)]) ++
           [Printed "🔧 AI MAINTENANCE SUPERVISOR - Starting Analysis..."]) ++
          [Printed (str_repeat 61 70 +++ "
")])
    with (t ++ [Printed ("
" +++ str_repeat 61 70);
                Printed "🔧 AI MAINTENANCE SUPERVISOR - Starting Analysis...";
                Printed (str_repeat 61 70 +++ "
")])
    by (rewrite <- !app_assoc; reflexivity).
  destruct (Gmail.fetch_gmail_issues e _) as [[[|issue rest]|ex] t1]; [reflexivity| |reflexivity].
  destruct (Gmail.process_issues e _ _ _ _) as [[items|ex] t2]; [|reflexivity].
  destruct (slack_client e) as [client|]; destruct items as [|item items];
    cbv beta iota; rewrite <- ?app_assoc; try reflexivity.
  destruct (Gmail.generate_daily_summary_with_ai e _ _) as [[report|ex] t3]; [|reflexivity].
  destruct (Gmail.send_slack_message e report None _) as [[[]|ex] t4]; [|reflexivity].
  rewrite <- !app_assoc. reflexivity.
Qed.

(** Every fetched record has a subject and a sender. *)
Lemma gmail_fetch_addressed e t issues t1 :
  Gmail.fetch_gmail_issues e t = (Return issues, t1) -> Forall addressed issues.
Proof.
  unfold Gmail.fetch_gmail_issues, Gmail.the_gmail_service.
  destruct (gmail_service e) as [api|]; [|discriminate].
  unfold mbind, M_bind, mret, M_ret, call. cbv beta iota.
  destruct (messages_list api t (Some 10)) as [ids|ex]; [|discriminate].
  intros H. apply gmail_fetch_messages_normalized in H. destruct H as [H _].
  eapply list.Forall_impl; [exact H|]. intros issue (id & msg & tm & _ & Hn).
  destruct Hn as [Hdom _ _ _ _ _].
  split; apply elem_of_dom; rewrite Hdom; set_solver.
Qed.

Lemma presentable_countable item : presentable (item_analysis item) -> countable_item item.
Proof.
  intros ((c & Hc & _) & _ & (pri & Hpri & Hhash) & _).
  exists (PStr c), pri. repeat split; assumption.
Qed.

(** Destructs the outcomes a computation goes through, innermost first. *)
Ltac outcomes H :=
  repeat match type of H with
         | context [match ?x with _ => _ end] =>
           match x with
           | context [match _ with _ => _ end] => fail 1
           | _ => destruct x eqn:?
           end
         end.

(** The report built without the model leaves the trace as it is. *)
Lemma gmail_fallback_summary_trace e items cc pc t r t' :
  Gmail.fallback_summary e items cc pc t = (r, t') -> t' = t.
Proof.
  unfold Gmail.fallback_summary, Gmail.strftime_now.
  unfold mbind, M_bind, mret, M_ret, lift. intros H.
  outcomes H; inversion H; reflexivity.
Qed.

(** The narrated report adds at most the call to the model. *)
Lemma gmail_narrated_summary_trace e llm items cc pc t r t' :
  Gmail.narrated_summary e llm items cc pc t = (r, t') ->
  t' = t \/ exists p, t' = t ++ [LlmInvoked p].
Proof.
  unfold Gmail.narrated_summary, Gmail.strftime_now.
  unfold mbind, M_bind, mret, M_ret, lift, call. intros H.
  outcomes H; inversion H; eauto.
Qed.

(** The daily summary reaches no store and no channel, and calls the model
    at most once. *)
Lemma gmail_generate_trace e items t r t' :
  Gmail.generate_daily_summary_with_ai e items t = (r, t') ->
  exists extra, t' = t ++ extra /\ outside_calls extra = []
                /\ (length (model_calls extra) <= 1)%nat.
Proof.
  unfold Gmail.generate_daily_summary_with_ai.
  destruct items as [|item rest].
  { intros H. inversion H. exists []. rewrite app_nil_r. repeat split. simpl. lia. }
  remember (item :: rest) as items eqn:Hitems. clear Hitems.
  rewrite bind_run, lift_run.
  destruct (Gmail.count_items items Gmail.initial_counts) as [[cc pc]|ex].
  2:{ intros H. inversion H. exists []. rewrite app_nil_r. repeat split. simpl. lia. }
  rewrite bind_run.
  destruct (cerebras_llm e) as [llm|].
  - unfold try_except. rewrite bind_run.
    destruct (Gmail.narrated_summary e llm items cc pc t) as [[report|ex] t1] eqn:Hn;
      apply gmail_narrated_summary_trace in Hn.
    + intros H. inversion H; subst. destruct Hn as [->|[p ->]].
      * exists []. rewrite app_nil_r. repeat split. simpl. lia.
      * exists [LlmInvoked p]. repeat split. simpl. lia.
    + unfold print, mbind, M_bind, mret, M_ret. cbv beta iota. intros H.
      apply gmail_fallback_summary_trace in H. subst t'. destruct Hn as [->|[p ->]].
      * eexists. split; [reflexivity|]. split; [reflexivity|]. simpl. lia.
      * eexists. split; [rewrite <- app_assoc; reflexivity|]. split; [reflexivity|].
        simpl. lia.
  - unfold mret, M_ret. intros H. apply gmail_fallback_summary_trace in H. subst t'.
    exists []. rewrite app_nil_r. repeat split. simpl. lia.
Qed.

(** X8. The run of [main] when the fetch succeeds, the model answers with
    priorities and action items of the right kind and the channel fails with
    API errors only: it ends normally, having reported as many issues as were
    fetched, with at most one call to the model for each issue and one for
    the daily summary. *)
Theorem main_processes_every_fetched_issue (e : env) (t : trace)
    (issues : list issue_record) (t1 : trace) :
  well_typed_model e -> api_errors_only e ->
  Gmail.fetch_gmail_issues e (t ++ main_banner) = (Return issues, t1) ->
  exists t',
    Gmail.main e t = (Return tt, t')
    /\ (issues = [] -> t' = t1 ++ [Printed "📭 No emails found."])
    /\ (issues <> [] ->
        exists mid, t' = t1 ++ mid ++ main_footer (length issues)
                    /\ (length (model_calls mid) <= length issues + 1)%nat).
Proof.
  intros Hmodel Hch Hfetch. rewrite gmail_main_fetch, Hfetch.
  destruct issues as [|issue rest].
  { eexists. split; [reflexivity|]. split; [reflexivity|]. intros H. destruct (H eq_refl). }
  pose proof (gmail_fetch_addressed _ _ _ _ Hfetch) as Haddr.
  remember (issue :: rest) as issues eqn:Hissues.
  match goal with
  | |- context [Gmail.process_issues e ?n 1 issues ?T] =>
    destruct (gmail_process_issues_returns e n 1 issues T Hmodel Hch Haddr)
      as (items & ex1 & Hloop & Hmap & Hpres & _ & Hcalls1)
  end.
  assert (Hlen : length items = length issues) by (rewrite <- Hmap, length_map; reflexivity).
  assert (Hgen : forall tm, exists report tm',
             Gmail.generate_daily_summary_with_ai e items tm = (Return report, tm')).
  { intros tm. apply generate_returns.
    - eapply list.Forall_impl; [exact Hpres|]. intros item. apply presentable_countable.
    - apply list.Forall_forall. intros item Hin. unfold has_subject.
      assert (Hi : item_issue item ∈ issues)
        by (rewrite <- Hmap; apply list_elem_of_fmap_2; exact Hin).
      rewrite list.Forall_forall in Haddr. apply (Haddr _ Hi). }
  subst issues. rewrite Hloop.
  destruct items as [|item items]; [discriminate Hlen|].
  destruct (slack_client e) as [client|] eqn:Hc.
  - match goal with
    | |- context [Gmail.generate_daily_summary_with_ai e ?I ?T] =>
      destruct (Hgen T) as (report & t3 & Hreport)
    end.
    rewrite Hreport.
    destruct (gmail_generate_trace _ _ _ _ _ Hreport) as (ex2 & -> & _ & Hcalls2).
    match goal with
    | |- context [Gmail.send_slack_message e report None ?T] =>
      destruct (gmail_send_slack_message_returns e report None T Hch)
        as (ex3 & Hsend & Hcalls3)
    end.
    rewrite Hsend, Hlen.
    eexists. split; [reflexivity|]. split; [discriminate|]. intros _.
    match goal with
    | |- context [((((((t1 ++ ?a) ++ ex1) ++ ?b) ++ ex2) ++ ?c) ++ ex3) ++ ?f] =>
      exists (a ++ ex1 ++ b ++ ex2 ++ c ++ ex3)
    end.
    split; [rewrite <- !app_assoc; reflexivity|].
    rewrite !model_calls_app, !length_app, Hcalls3. simpl. simpl in Hcalls1. lia.
  - rewrite Hlen. eexists. split; [reflexivity|]. split; [discriminate|]. intros _.
    match goal with
    | |- context [((t1 ++ ?a) ++ ex1) ++ ?f] => exists (a ++ ex1)
    end.
    split; [rewrite <- !app_assoc; reflexivity|].
    rewrite !model_calls_app, !length_app. simpl. simpl in Hcalls1. lia.
Qed.

Lemma outside_calls_no_post extra post : outside_calls extra = [] -> SlackPosted post ∉ extra.
Proof.
  intros Hnone Hin.
  assert (H : SlackPosted post ∈ outside_calls extra)
    by (apply list_elem_of_filter; split; [reflexivity|exact Hin]).
  rewrite Hnone in H. apply elem_of_nil in H. exact H.
Qed.

(** The first turn of the loop with a channel whose posts all fail with an
    exception that is no API error. *)
Lemma gmail_process_issues_stops e client ex n idx issue rest t :
  well_typed_model e -> addressed issue ->
  slack_client e = Some client -> (forall tm post, client tm post = Raise ex) ->
  is_SlackApiError ex = false ->
  exists extra post,
    Gmail.process_issues e n idx (issue :: rest) t
    = (Raise ex, t ++ extra ++ [SlackPosted post])
    /\ (forall q, SlackPosted q ∉ extra)
    /\ (length (model_calls extra) <= 1)%nat.
Proof.
  intros Hmodel Haddr Hc Hdown Hex.
  pose proof Haddr as [[subject Hsub] [sender Hsender]].
  cbn [Gmail.process_issues]. unfold dict_index. rewrite Hsub, Hsender.
  unfold mbind, M_bind, mret, M_ret, lift, print. cbv beta iota.
  match goal with
  | |- context [Gmail.classify_maintenance_issue e issue ?T] =>
    destruct (gmail_classify_presentable e issue T Hmodel)
      as (analysis & ex1 & Hcl & Hpres & Hout1 & Hcalls1)
  end.
  rewrite Hcl. cbv beta iota.
  pose proof Hpres as ((c & Hcat & _) & _ & (pri & Hpri & _) & _).
  rewrite Hcat, Hpri. cbv beta iota.
  match goal with
  | |- context [Gmail.add_to_notion e issue analysis ?T] =>
    destruct (gmail_add_to_notion_returns e issue analysis T (ex_intro _ subject Hsub))
      as (ex2 & Hadd & Hcalls2 & Hposts2)
  end.
  rewrite Hadd. cbv beta iota.
  match goal with
  | |- context [Gmail.format_maintenance_slack_message e issue analysis ?T] =>
    destruct (gmail_format_returns e issue analysis T Haddr Hpres)
      as (text & block & blocks & Hfmt)
  end.
  rewrite Hfmt. cbv beta iota.
  rewrite (gmail_send_slack_message_configured e client _ _ _ Hc), Hdown, Hex.
  match goal with
  | |- context [((((((t ++ ?a) ++ ?b) ++ ?c) ++ ex1) ++ ?d) ++ ex2) ++ [SlackPosted ?q]] =>
    exists (a ++ b ++ c ++ ex1 ++ d ++ ex2), q
  end.
  split; [rewrite <- !app_assoc; reflexivity|]. split.
  - intros q Hin. rewrite !elem_of_app in Hin.
    destruct Hin as [Hin|[Hin|[Hin|[Hin|[Hin|Hin]]]]];
      try (apply elem_of_cons in Hin; destruct Hin as [Hin|Hin];
           [discriminate Hin|apply elem_of_nil in Hin; exact Hin]).
    + exact (outside_calls_no_post _ _ Hout1 Hin).
    + exact (Hposts2 _ Hin).
  - rewrite !model_calls_app, !length_app, Hcalls2. simpl. lia.
Qed.

(** X9. When the fetch succeeds with at least one issue, the model answers
    with priorities and action items of the right kind (so that the message
    of the first issue is built), and every post fails with an exception that
    is no API error, [main] ends with that exception at the first issue: the
    failed post is the last event of the run and the only post, and the model
    was called at most once, whatever the number of fetched issues. *)
Theorem main_stops_at_the_first_failed_post (e : env)
    (client : trace -> slack_post -> res unit) (ex : exn) (issue : issue_record)
    (rest : list issue_record) (t t1 : trace) :
  well_typed_model e ->
  slack_client e = Some client -> (forall tm post, client tm post = Raise ex) ->
  is_SlackApiError ex = false ->
  Gmail.fetch_gmail_issues e (t ++ main_banner) = (Return (issue :: rest), t1) ->
  exists extra post,
    Gmail.main e t = (Raise ex, t1 ++ extra ++ [SlackPosted post])
    /\ (forall q, SlackPosted q ∉ extra)
    /\ (length (model_calls extra) <= 1)%nat.
Proof.
  intros Hmodel Hc Hdown Hex Hfetch. rewrite gmail_main_fetch, Hfetch.
  pose proof (gmail_fetch_addressed _ _ _ _ Hfetch) as Haddr.
  apply list.Forall_cons in Haddr. destruct Haddr as [Haddr _].
  match goal with
  | |- context [Gmail.process_issues e ?n 1 (issue :: rest) ?T] =>
    destruct (gmail_process_issues_stops e client ex n 1 issue rest T Hmodel Haddr Hc Hdown Hex)
      as (extra & post & Hloop & Hposts & Hcalls)
  end.
  rewrite Hloop.
  match goal with
  | |- context [(t1 ++ ?a) ++ extra ++ _] => exists (a ++ extra), post
  end.
  split; [rewrite <- !app_assoc; reflexivity|]. split.
  - intros q Hin. rewrite elem_of_app in Hin. destruct Hin as [Hin|Hin].
    + apply elem_of_cons in Hin. destruct Hin as [Hin|Hin];
        [discriminate Hin|apply elem_of_nil in Hin; exact Hin].
    + exact (Hposts _ Hin).
  - rewrite model_calls_app, length_app. simpl. lia.
Qed.

(** X10. A completion whose priority is a list stops the loop of [main] at
    [format_maintenance_slack_message]: the priority cannot be looked up in the
    table of glyphs, the [TypeError] leaves the loop and nothing is posted. *)
Theorem list_priority_stops_the_run (e : env) (llm : trace -> pystr -> res pystr)
    (issue : issue_record) (rest : list issue_record) (n idx : nat) (t : trace)
    (p : pystr) (d : pydict) (l : list pyval) :
  cerebras_llm e = Some llm ->
  Gmail.prompt_of issue = Return p ->
  (forall tm, parsed_completion e llm p tm = Some d) ->
  d !! "priority" = Some (PList l) ->
  exists extra,
    Gmail.process_issues e n idx (issue :: rest) t
    = (Raise (TypeError "unhashable type: 'list'"), t ++ extra)
    /\ forall post, SlackPosted post ∉ extra.
Proof.
  intros Hllm Hp Hd Hpri.
  assert (Haddr : addressed issue).
  { unfold Gmail.prompt_of in Hp. unfold addressed.
    destruct (issue !! "subject"), (issue !! "sender"), (issue !! "date"),
      (issue !! "snippet"); try discriminate; split; eexists; reflexivity. }
  pose proof Haddr as [[subject Hsub] [sender Hsender]].
  cbn [Gmail.process_issues]. unfold dict_index. rewrite Hsub, Hsender.
  unfold mbind, M_bind, mret, M_ret, lift, print. cbv beta iota.
  match goal with
  | |- context [Gmail.classify_maintenance_issue e issue ?T] =>
    rewrite (gmail_classify_parsed e llm issue p T d Hllm Hp (Hd T))
  end.
  cbv beta iota.
  destruct (repair_has_category issue d) as (c & Hcat & _).
  assert (Hrp : Gmail.repair issue d !! "priority" = Some (PList l))
    by (rewrite repair_lookup, Hpri; reflexivity).
  rewrite Hcat, Hrp. cbv beta iota.
  match goal with
  | |- context [Gmail.add_to_notion e issue ?A ?T] =>
    destruct (gmail_add_to_notion_returns e issue A T (ex_intro _ subject Hsub))
      as (ex2 & Hadd & _ & Hposts2)
  end.
  rewrite Hadd. cbv beta iota.
  unfold Gmail.format_maintenance_slack_message, dict_index.
  unfold mbind, M_bind, mret, M_ret, lift. rewrite Hcat, Hrp, table_get_str.
  cbv beta iota.
  match goal with
  | |- context [(((((t ++ ?a) ++ ?b) ++ ?c) ++ ?m) ++ ?d) ++ ex2] =>
    exists (a ++ b ++ c ++ m ++ d ++ ex2)
  end.
  split; [rewrite <- !app_assoc; reflexivity|].
  intros q Hin. rewrite !elem_of_app in Hin.
  destruct Hin as [Hin|[Hin|[Hin|[Hin|[Hin|Hin]]]]];
    try (apply elem_of_cons in Hin; destruct Hin as [Hin|Hin];
         [discriminate Hin|apply elem_of_nil in Hin; exact Hin]).
  exact (Hposts2 _ Hin).
Qed.

(** The sample mailbox with a model that wraps its answer in prose, a ticket
    store that is down and a channel that refuses the posts: [main] still
    reports its two issues. *)
Lemma main_processes_every_fetched_issue_witness :
  exists t',
    Gmail.main (Lite.env_of (Some Demo.mailbox) (Some Demo.store_down)
                  (Some Demo.channel_refuses) (Some (Demo.model_saying Demo.chatty_plumbing)))
               [] = (Return tt, t')
    /\ Printed "   Processed: 2 issues" ∈ t'.
Proof.
  destruct (main_processes_every_fetched_issue
              (Lite.env_of (Some Demo.mailbox) (Some Demo.store_down)
                 (Some Demo.channel_refuses) (Some (Demo.model_saying Demo.chatty_plumbing)))
              [] [Demo.full_issue; Demo.bare_issue]
              (main_banner ++ [GmailListed (Some 10); GmailGot "m1"; GmailGot "m2"]))
    as (t' & Hmain & _ & Hmid).
  - intros llm p tm d Hllm Hd. injection Hllm as <-.
    change (Some (dict_of_items [("category", PStr "Plumbing"); ("priority", PStr "High")])
            = Some d) in Hd.
    injection Hd as <-.
    split; intros v Hv; vm_compute in Hv; discriminate Hv || (injection Hv as <-).
    reflexivity.
  - intros client tm post ex Hc Hpost. injection Hc as <-. injection Hpost as <-. reflexivity.
  - reflexivity.
  - exists t'. split; [exact Hmain|].
    destruct (Hmid ltac:(discriminate)) as (mid & -> & _).
    apply elem_of_app. right. apply elem_of_app. right.
    do 2 apply list_elem_of_further. apply list_elem_of_here.
Defined.

(** With the network down, [main] ends with the failure of the first post,
    the model having answered for the first issue. *)
Lemma main_stops_at_the_first_failed_post_witness :
  (Gmail.main (Lite.env_of (Some Demo.mailbox) None (Some Demo.channel_down)
                 (Some (Demo.model_saying Demo.chatty_plumbing))) []).1
  = Raise (OtherError "URLError" "<urlopen error timed out>").
Proof.
  destruct (main_stops_at_the_first_failed_post
              (Lite.env_of (Some Demo.mailbox) None (Some Demo.channel_down)
                 (Some (Demo.model_saying Demo.chatty_plumbing)))
              Demo.channel_down (OtherError "URLError" "<urlopen error timed out>")
              Demo.full_issue [Demo.bare_issue] []
              (main_banner ++ [GmailListed (Some 10); GmailGot "m1"; GmailGot "m2"]))
    as (extra & post & Hmain & _).
  - intros llm p tm d Hllm Hd. injection Hllm as <-.
    change (Some (dict_of_items [("category", PStr "Plumbing"); ("priority", PStr "High")])
            = Some d) in Hd.
    injection Hd as <-.
    split; intros v Hv; vm_compute in Hv; discriminate Hv || (injection Hv as <-).
    reflexivity.
  - reflexivity.
  - intros tm post. reflexivity.
  - reflexivity.
  - reflexivity.
  - rewrite Hmain. reflexivity.
Defined.

(** A completion whose priority is a list of one name. *)
Definition list_priority : pystr :=
  "{" +++ Demo.json_field "category" "HVAC" +++ ", " +++ dquote +++ "priority" +++ dquote
    +++ ": [" +++ dquote +++ "High" +++ dquote +++ "]}".

(** With that completion the loop stops at the first issue. *)
Lemma list_priority_stops_the_run_witness :
  (Gmail.process_issues
     (Lite.env_of (Some Demo.mailbox) None (Some Demo.channel_ok)
        (Some (Demo.model_saying list_priority)))
     2 1 [Demo.full_issue; Demo.bare_issue] []).1
  = Raise (TypeError "unhashable type: 'list'").
Proof.
  destruct (list_priority_stops_the_run
              (Lite.env_of (Some Demo.mailbox) None (Some Demo.channel_ok)
                 (Some (Demo.model_saying list_priority)))
              (Demo.model_saying list_priority) Demo.full_issue [Demo.bare_issue] 2 1 []
              (Gmail.classify_prompt "AC not cooling in room 204" "tenant@example.com"
                 "Mon, 6 Jan 2025 09:00:00" "The air conditioning in room 204 blows warm air.")
              (dict_of_items [("category", PStr "HVAC"); ("priority", PList [PStr "High"])])
              [PStr "High"])
    as (extra & Hloop & _).
  - reflexivity.
  - reflexivity.
  - intros tm. reflexivity.
  - vm_compute. reflexivity.
  - rewrite Hloop. reflexivity.
Defined.

(** *** Glyphs and unconfigured sinks *)

(** X11. A priority that is none of High, Medium and Low (in another case, say)
    is shown with the glyph of Medium, beside its own name. *)
Theorem unknown_priority_gets_the_medium_glyph (e : env) (issue : issue_record)
    (analysis : pydict) (t : trace) (c p : pystr) (text : pystr)
    (blocks : list slack_block) (t' : trace) :
  analysis !! "category" = Some (PStr c) -> analysis !! "priority" = Some (PStr p) ->
  p ∉ ["High"; "Medium"; "Low"] ->
  Gmail.format_maintenance_slack_message e issue analysis t = (Return (text, blocks), t') ->
  SectionFields ["*Category:*
" +++ glyph Gmail.category_emojis "📋" c +++ " " +++ c;
                 "*Priority:*
🟡 " +++ p] ∈ blocks.
Proof.
  intros Hc Hp Hunknown H.
  destruct (gmail_format_inv _ _ _ _ _ _ _ H)
    as (_ & category & priority & subject & sender & summary & root & items & cg & pg
        & Hc' & Hp' & _ & _ & _ & _ & _ & Hcg & Hpg & _ & ->).
  rewrite Hc in Hc'. rewrite Hp in Hp'. injection Hc' as <-. injection Hp' as <-.
  rewrite table_get_str in Hcg, Hpg. injection Hcg as <-. injection Hpg as <-.
  rewrite (glyph_unknown Gmail.priority_emojis "🟡" p Hunknown).
  apply list_elem_of_further. simpl py_str. rewrite <- str_cat_assoc.
  apply list_elem_of_here.
Qed.

(** The priority [high], in lower case. *)
Lemma unknown_priority_gets_the_medium_glyph_witness :
  SectionFields ["*Category:*
🌡️ HVAC"; "*Priority:*
🟡 high"]
  ∈ match Gmail.format_maintenance_slack_message (Lite.env_of None None None None)
            Demo.full_issue (Demo.analysis_of "HVAC" "high") [] with
    | (Return (_, blocks), _) => blocks
    | _ => []
    end.
Proof.
  destruct (Gmail.format_maintenance_slack_message (Lite.env_of None None None None)
              Demo.full_issue (Demo.analysis_of "HVAC" "high") [])
    as [[[text blocks]|ex] t'] eqn:H; [|vm_compute in H; discriminate H].
  apply (unknown_priority_gets_the_medium_glyph
           (Lite.env_of None None None None) Demo.full_issue
           (Demo.analysis_of "HVAC" "high") [] "HVAC" "high" text blocks t');
    [reflexivity|reflexivity| |exact H].
  intros Hin.
  repeat (apply elem_of_cons in Hin; destruct Hin as [Hin|Hin]; [discriminate Hin|]).
  apply elem_of_nil in Hin. exact Hin.
Defined.

(** X12. Without a ticket store or a chat channel the sinks reach nothing:
    those of [backend.py] return at once, those of [gmail.py] print that
    they skip; [add_to_notion] of [gmail.py] prints the subject of the issue
    it skips and raises [KeyError] when the issue has none. *)
Theorem unconfigured_sinks_reach_nothing (e : env) (issue : issue_record)
    (analysis : pydict) (text : pystr) (blocks : option (list slack_block)) (t : trace) :
  (notion_client e = None ->
   Backend.add_to_notion e issue analysis t = (Return tt, t)
   /\ (forall subject, issue !! "subject" = Some subject ->
         Gmail.add_to_notion e issue analysis t
         = (Return tt, t ++ [Printed ("⏭️  Skipping Notion: " +++ subject)]))
   /\ (issue !! "subject" = None ->
       Gmail.add_to_notion e issue analysis t = (Raise (KeyError "subject"), t)))
  /\ (slack_client e = None ->
      Backend.send_slack_notification e issue analysis t = (Return tt, t)
      /\ Gmail.send_slack_message e text blocks t
         = (Return tt, t ++ [Printed "⏭️  Skipping Slack notification"])).
Proof.
  split.
  - intros Hn. rewrite (gmail_add_to_notion_unconfigured e issue analysis t Hn).
    unfold Backend.add_to_notion. rewrite Hn. split; [reflexivity|]. split.
    + intros subject ->. reflexivity.
    + intros ->. reflexivity.
  - intros Hc. unfold Backend.send_slack_notification, Gmail.send_slack_message.
    rewrite Hc. split; reflexivity.
Qed.

(** An issue without a subject, as no fetch produces. *)
Lemma unconfigured_sinks_reach_nothing_witness :
  Gmail.add_to_notion (Lite.env_of None None None None) (delete "subject" Demo.full_issue)
    (Demo.analysis_of "HVAC" "High") []
  = (Raise (KeyError "subject"), []).
Proof.
  exact (proj2 (proj2 (proj1 (unconfigured_sinks_reach_nothing
                                (Lite.env_of None None None None)
                                (delete "subject" Demo.full_issue)
                                (Demo.analysis_of "HVAC" "High") "" None [])
                             eq_refl))
               eq_refl).
Defined.

(** *** The records of a fetch *)

(** The value of the first header of the given name. *)
Lemma header_value_found name v pre rest dflt :
  (forall w, (name, w) ∉ pre) -> header_value name (pre ++ (name, v) :: rest) dflt = v.
Proof.
  unfold header_value. induction pre as [|[n w] pre IH]; intros Habs; simpl.
  - rewrite bool_decide_eq_true_2; reflexivity.
  - case_bool_decide as Hn.
    + simpl in Hn. subst n. exfalso. apply (Habs w). left.
    + apply IH. intros w' Hin. apply (Habs w'). right. exact Hin.
Qed.

(** X13. The record built from a message (in either module) holds the id of
    the message, its snippet when it has one, and for the subject, the sender
    and the date the value of the first header named exactly [Subject],
    [From] and [Date]: later headers of the same name, and headers whose name
    differs (in case, say), are not looked at. *)
Theorem issue_of_message_takes_the_first_headers (id : pystr) (msg : gmail_message) :
  Backend.issue_of_message id msg = Gmail.issue_of_message id msg
  /\ Gmail.issue_of_message id msg !! "id" = Some id
  /\ (forall s, msg_snippet msg = Some s -> Gmail.issue_of_message id msg !! "snippet" = Some s)
  /\ (forall pre v rest,
        msg_headers msg = pre ++ ("Subject", v) :: rest -> (forall w, ("Subject", w) ∉ pre) ->
        Gmail.issue_of_message id msg !! "subject" = Some v)
  /\ (forall pre v rest,
        msg_headers msg = pre ++ ("From", v) :: rest -> (forall w, ("From", w) ∉ pre) ->
        Gmail.issue_of_message id msg !! "sender" = Some v)
  /\ (forall pre v rest,
        msg_headers msg = pre ++ ("Date", v) :: rest -> (forall w, ("Date", w) ∉ pre) ->
        Gmail.issue_of_message id msg !! "date" = Some v).
Proof.
  split; [reflexivity|]. unfold Gmail.issue_of_message.
  split; [reflexivity|]. split.
  { intros s ->. reflexivity. }
  split; [|split]; intros pre v rest -> Habs;
    rewrite (header_value_found _ v pre rest _ Habs); reflexivity.
Qed.

(** A message with two subjects and a header named in lower case. *)
Lemma issue_of_message_takes_the_first_headers_witness :
  Gmail.issue_of_message "m3"
    {| msg_headers := [("subject", "not a header of that name"); ("Subject", "Lift is stuck");
                       ("Subject", "Re: Lift is stuck")];
       msg_snippet := None |} !! "subject"
  = Some "Lift is stuck".
Proof.
  apply (proj1 (proj2 (proj2 (proj2 (issue_of_message_takes_the_first_headers "m3"
           {| msg_headers := [("subject", "not a header of that name");
                              ("Subject", "Lift is stuck"); ("Subject", "Re: Lift is stuck")];
              msg_snippet := None |}))))
           [("subject", "not a header of that name")] "Lift is stuck"
           [("Subject", "Re: Lift is stuck")] eq_refl).
  intros w Hin. apply elem_of_cons in Hin. destruct Hin as [Hin|Hin]; [discriminate Hin|].
  apply elem_of_nil in Hin. exact Hin.
Defined.

(** The run of [fetch_messages]: the messages are requested in the order of
    the listing; the first request that fails ends the loop with its
    exception, the records built so far being dropped. *)
Lemma gmail_fetch_messages_run api ids t :
  (exists issues,
     Gmail.fetch_messages api ids t = (Return issues, t ++ map GmailGot ids)
     /\ Forall2 (fun id issue => exists msg tm, messages_get api tm id = Return msg
                                  /\ issue = Gmail.issue_of_message id msg) ids issues)
  \/ (exists done id rest ex,
        ids = done ++ id :: rest
        /\ messages_get api (t ++ map GmailGot done) id = Raise ex
        /\ Gmail.fetch_messages api ids t = (Raise ex, t ++ map GmailGot (done ++ [id]))).
Proof.
  revert t. induction ids as [|id ids IH]; intros t.
  - left. exists []. simpl. rewrite app_nil_r. split; [reflexivity|constructor].
  - cbn [Gmail.fetch_messages]. unfold mbind, M_bind, mret, M_ret, call. cbv beta iota.
    destruct (messages_get api t id) as [msg|ex] eqn:Hget.
    + destruct (IH (t ++ [GmailGot id])) as [(issues & Hrun & Hall)|(done & id' & rest & ex & -> & Hfail & Hrun)];
        rewrite Hrun.
      * left. exists (Gmail.issue_of_message id msg :: issues). split.
        { simpl. rewrite <- app_assoc. reflexivity. }
        constructor; [eauto|exact Hall].
      * right. exists (id :: done), id', rest, ex. split; [reflexivity|]. split.
        { simpl. rewrite <- app_assoc in Hfail. exact Hfail. }
        simpl. rewrite <- app_assoc. reflexivity.
    + right. exists [], id, ids, ex. split; [reflexivity|]. split.
      { simpl. rewrite app_nil_r. exact Hget. }
      reflexivity.
Qed.

(** X14. A fetch that returns (in either module) has listed the mailbox once
    and then requested every listed message once, in the order of the listing,
    and nothing else; its records are those of the messages, in that order. *)
Theorem fetch_gmail_issues_follows_the_listing (e : env) (api : gmail_api)
    (max_results : option Z) (t : trace) :
  gmail_service e = Some api ->
  (forall issues t',
     Backend.fetch_gmail_issues e max_results t = (Return issues, t') ->
     exists ids,
       messages_list api t max_results = Return ids
       /\ t' = t ++ GmailListed max_results :: map GmailGot (default [] ids)
       /\ Forall2 (fun id issue => exists msg tm, messages_get api tm id = Return msg
                                    /\ issue = Backend.issue_of_message id msg)
                  (default [] ids) issues)
  /\ (forall issues t',
        Gmail.fetch_gmail_issues e t = (Return issues, t') ->
        exists ids,
          messages_list api t (Some 10) = Return ids
          /\ t' = t ++ GmailListed (Some 10) :: map GmailGot (default [] ids)
          /\ Forall2 (fun id issue => exists msg tm, messages_get api tm id = Return msg
                                       /\ issue = Gmail.issue_of_message id msg)
                     (default [] ids) issues).
Proof.
  intros Hapi. split; intros issues t'.
  - unfold Backend.fetch_gmail_issues. rewrite Hapi.
    unfold try_except, mbind, M_bind, call, raise. cbv beta iota.
    destruct (messages_list api t max_results) as [ids|ex]; [|discriminate].
    rewrite backend_fetch_messages_same.
    destruct (gmail_fetch_messages_run api (default [] ids) (t ++ [GmailListed max_results]))
      as [(issues' & Hrun & Hall)|(done & id & rest & ex & _ & _ & Hrun)];
      rewrite Hrun; [|discriminate].
    intros H. inversion H; subst. exists ids. split; [reflexivity|]. split.
    + rewrite <- app_assoc. reflexivity.
    + exact Hall.
  - unfold Gmail.fetch_gmail_issues, Gmail.the_gmail_service. rewrite Hapi.
    unfold mbind, M_bind, mret, M_ret, call. cbv beta iota.
    destruct (messages_list api t (Some 10)) as [ids|ex]; [|discriminate].
    destruct (gmail_fetch_messages_run api (default [] ids) (t ++ [GmailListed (Some 10)]))
      as [(issues' & Hrun & Hall)|(done & id & rest & ex & _ & _ & Hrun)];
      rewrite Hrun; [|discriminate].
    intros H. inversion H; subst. exists ids. split; [reflexivity|]. split.
    + rewrite <- app_assoc. reflexivity.
    + exact Hall.
Qed.

(** The sample mailbox. *)
Lemma fetch_gmail_issues_follows_the_listing_witness :
  exists ids,
    messages_list Demo.mailbox [] (Some 5) = Return ids
    /\ [GmailListed (Some 5); GmailGot "m1"; GmailGot "m2"]
       = [] ++ GmailListed (Some 5) :: map GmailGot (default [] ids)
    /\ Forall2 (fun id issue => exists msg tm, messages_get Demo.mailbox tm id = Return msg
                                 /\ issue = Backend.issue_of_message id msg)
               (default [] ids) [Demo.full_issue; Demo.bare_issue].
Proof.
  exact (proj1 (fetch_gmail_issues_follows_the_listing
                  (Lite.env_of (Some Demo.mailbox) None None None) Demo.mailbox (Some 5) []
                  eq_refl)
               [Demo.full_issue; Demo.bare_issue]
               [GmailListed (Some 5); GmailGot "m1"; GmailGot "m2"] eq_refl).
Defined.

(** A request that fails after the requests before it were answered ends
    the loop. *)
Lemma gmail_fetch_messages_fails api done id rest ex t :
  (forall k id', done !! k = Some id' ->
     exists msg, messages_get api (t ++ map GmailGot (take k done)) id' = Return msg) ->
  messages_get api (t ++ map GmailGot done) id = Raise ex ->
  Gmail.fetch_messages api (done ++ id :: rest) t
  = (Raise ex, t ++ map GmailGot (done ++ [id])).
Proof.
  revert t. induction done as [|d done IH]; intros t Hdone Hfail.
  - simpl in *. rewrite app_nil_r in Hfail.
    unfold mbind, M_bind, call. cbv beta iota. rewrite Hfail. reflexivity.
  - destruct (Hdone 0%nat d eq_refl) as [msg Hmsg]. simpl in Hmsg. rewrite app_nil_r in Hmsg.
    cbn [app Gmail.fetch_messages]. unfold mbind, M_bind, call. cbv beta iota. rewrite Hmsg.
    rewrite (IH (t ++ [GmailGot d])).
    + simpl. rewrite <- app_assoc. reflexivity.
    + intros k id' Hk. destruct (Hdone (S k) id' Hk) as [m Hm]. exists m.
      rewrite <- app_assoc. exact Hm.
    + rewrite <- app_assoc. exact Hfail.
Qed.

(** X15. The failures of [fetch_gmail_issues] of [backend.py]: without a mail
    service it raises the HTTP error 503 and calls nothing; an exception of
    the listing, or of the request of a message, becomes the HTTP error 500
    whose detail is [Failed to fetch emails: ] followed by the text of the
    exception, and a failed request ends the fetch: no later message is
    requested and the records already built are dropped. *)
Theorem backend_fetch_gmail_issues_failures (e : env) (max_results : option Z) (t : trace) :
  (gmail_service e = None ->
   Backend.fetch_gmail_issues e max_results t
   = (Raise (HTTPException 503 "Gmail service not initialized"), t))
  /\ (forall api ex,
        gmail_service e = Some api -> messages_list api t max_results = Raise ex ->
        Backend.fetch_gmail_issues e max_results t
        = (Raise (HTTPException 500 ("Failed to fetch emails: " +++ exn_str ex)),
           t ++ [GmailListed max_results]))
  /\ (forall api done id rest ex,
        gmail_service e = Some api ->
        messages_list api t max_results = Return (Some (done ++ id :: rest)) ->
        (forall k id', done !! k = Some id' ->
           exists msg, messages_get api ((t ++ [GmailListed max_results])
                                           ++ map GmailGot (take k done)) id' = Return msg) ->
        messages_get api ((t ++ [GmailListed max_results]) ++ map GmailGot done) id
        = Raise ex ->
        Backend.fetch_gmail_issues e max_results t
        = (Raise (HTTPException 500 ("Failed to fetch emails: " +++ exn_str ex)),
           (t ++ [GmailListed max_results]) ++ map GmailGot (done ++ [id]))).
Proof.
  split; [|split].
  - intros Hapi. unfold Backend.fetch_gmail_issues. rewrite Hapi. reflexivity.
  - intros api ex Hapi Hlist. unfold Backend.fetch_gmail_issues. rewrite Hapi.
    unfold try_except, mbind, M_bind, call, raise. cbv beta iota. rewrite Hlist. reflexivity.
  - intros api done id rest ex Hapi Hlist Hdone Hfail.
    unfold Backend.fetch_gmail_issues. rewrite Hapi.
    unfold try_except, mbind, M_bind, call, raise. cbv beta iota. rewrite Hlist.
    rewrite backend_fetch_messages_same.
    change (default [] (Some (done ++ id :: rest))) with (done ++ id :: rest).
    rewrite (gmail_fetch_messages_fails api done id rest ex _ Hdone Hfail). reflexivity.
Qed.

(** A mail store that lists two messages and fails on the second. *)
Definition flaky_mailbox : gmail_api :=
  {| messages_list := fun _ _ => Return (Some ["m1"; "m2"; "m3"]);
     messages_get := fun _ id =>
       if bool_decide (id = "m1") then Return Demo.full_message
       else Raise (OtherError "HttpError" "backend error") |}.

Lemma backend_fetch_gmail_issues_failures_witness :
  Backend.fetch_gmail_issues (Lite.env_of (Some flaky_mailbox) None None None) (Some 10) []
  = (Raise (HTTPException 500 "Failed to fetch emails: backend error"),
     [GmailListed (Some 10); GmailGot "m1"; GmailGot "m2"]).
Proof.
  apply (proj2 (proj2 (backend_fetch_gmail_issues_failures
                         (Lite.env_of (Some flaky_mailbox) None None None) (Some 10) []))
           flaky_mailbox ["m1"] "m2" ["m3"] (OtherError "HttpError" "backend error")
           eq_refl eq_refl).
  - intros k id' Hk. destruct k as [|k]; [|discriminate Hk].
    injection Hk as <-. eexists. reflexivity.
  - reflexivity.
Defined.

(** *** The JSON object of a completion *)

Lemma lstrip_app x a b :
  py_isspace x = false -> lstrip (a ++ x :: b) = lstrip a ++ x :: b.
Proof.
  intros Hx. induction a as [|y a IH]; simpl.
  - rewrite Hx. reflexivity.
  - destruct (py_isspace y); [exact IH|reflexivity].
Qed.

Lemma lstrip_suffix a : exists ws, a = ws ++ lstrip a.
Proof.
  induction a as [|y a [ws IH]]; simpl.
  - exists []. reflexivity.
  - destruct (py_isspace y).
    + exists (y :: ws). simpl. rewrite <- IH. reflexivity.
    + exists []. reflexivity.
Qed.

Lemma find_from_app c a r i :
  c ∉ a -> find_from c (a ++ c :: r) i = i + Z.of_nat (length a).
Proof.
  revert i. induction a as [|y a IH]; intros i Hc; simpl.
  - rewrite N.eqb_refl. lia.
  - destruct (N.eqb_spec y c) as [->|_].
    + exfalso. apply Hc. left.
    + rewrite IH; [lia|]. intros Hin. apply Hc. right. exact Hin.
Qed.

Lemma rfind_from_absent c l i last : c ∉ l -> rfind_from c l i last = last.
Proof.
  revert i last. induction l as [|y l IH]; intros i last Hc; simpl; [reflexivity|].
  destruct (N.eqb_spec y c) as [->|_].
  - exfalso. apply Hc. left.
  - apply IH. intros Hin. apply Hc. right. exact Hin.
Qed.

Lemma rfind_from_app c a b i last :
  rfind_from c (a ++ b) i last
  = rfind_from c b (i + Z.of_nat (length a)) (rfind_from c a i last).
Proof.
  revert i last. induction a as [|y a IH]; intros i last; simpl.
  - f_equal. lia.
  - rewrite IH. f_equal. lia.
Qed.

Lemma elem_of_rev {A} (x : A) (l : list A) : x ∈ rev l <-> x ∈ l.
Proof. rewrite !list_elem_of_In. symmetry. apply in_rev. Qed.

Lemma rfind_from_last c a b i last :
  c ∉ b -> rfind_from c (a ++ c :: b) i last = i + Z.of_nat (length a).
Proof.
  intros Hc. rewrite rfind_from_app. cbn [rfind_from]. rewrite N.eqb_refl.
  apply rfind_from_absent, Hc.
Qed.

(** Stripping leaves an object between braces where it is. *)
Lemma strip_wrapped (pre post inner : list N) :
  rev (lstrip (rev (lstrip (pre ++ (LBRACE :: inner ++ [RBRACE]) ++ post))))
  = lstrip pre ++ (LBRACE :: inner ++ [RBRACE]) ++ rev (lstrip (rev post)).
Proof.
  change (pre ++ (LBRACE :: inner ++ [RBRACE]) ++ post)
    with (pre ++ LBRACE :: ((inner ++ [RBRACE]) ++ post)).
  rewrite lstrip_app by reflexivity.
  replace (lstrip pre ++ LBRACE :: (inner ++ [RBRACE]) ++ post)
    with ((lstrip pre ++ LBRACE :: inner) ++ RBRACE :: post)
    by (rewrite <- !app_assoc; reflexivity).
  rewrite rev_app_distr.
  change (rev (RBRACE :: post)) with (rev post ++ [RBRACE]).
  rewrite <- app_assoc.
  change ([RBRACE] ++ rev (lstrip pre ++ LBRACE :: inner))
    with (RBRACE :: rev (lstrip pre ++ LBRACE :: inner)).
  rewrite lstrip_app by reflexivity.
  rewrite rev_app_distr.
  change (rev (RBRACE :: rev (lstrip pre ++ LBRACE :: inner)))
    with (rev (rev (lstrip pre ++ LBRACE :: inner)) ++ [RBRACE]).
  rewrite rev_involutive. cbn [app]. rewrite <- !app_assoc. cbn [app].
  rewrite <- ?app_assoc. reflexivity.
Qed.

(** A completion made of an object between braces, with text before it that
    has no opening brace and text after it that has no closing brace: the
    span cut out of the stripped completion is the object. *)
Lemma json_span_of_wrapped (pre post : pystr) (inner : list N) :
  LBRACE ∉ codepoints pre -> RBRACE ∉ codepoints post ->
  let body := PyStr (LBRACE :: inner ++ [RBRACE]) in
  let response_text := str_strip (pre +++ body +++ post) in
  has_json_span response_text = true
  /\ str_slice response_text (json_start response_text) (json_end response_text) = body.
Proof.
  intros Hpre Hpost body response_text.
  destruct pre as [pre], post as [post]. simpl in Hpre, Hpost.
  destruct (lstrip_suffix pre) as [ws1 Hws1].
  destruct (lstrip_suffix (rev post)) as [ws2 Hws2].
  set (pre' := lstrip pre) in *. set (post' := rev (lstrip (rev post))).
  assert (Hpre' : LBRACE ∉ pre').
  { intros Hin. apply Hpre. rewrite Hws1. apply elem_of_app. right. exact Hin. }
  assert (Hpost' : RBRACE ∉ post').
  { intros Hin. apply Hpost. unfold post' in Hin. rewrite elem_of_rev in Hin.
    rewrite <- elem_of_rev, Hws2. apply elem_of_app. right. exact Hin. }
  assert (Htext : response_text = PyStr (pre' ++ (LBRACE :: inner ++ [RBRACE]) ++ post')).
  { unfold response_text, str_strip, str_cat, body. simpl codepoints. f_equal.
    apply strip_wrapped. }
  assert (Hstart : json_start response_text = Z.of_nat (length pre')).
  { rewrite Htext. unfold json_start, str_find. simpl codepoints.
    rewrite find_from_app by exact Hpre'. lia. }
  assert (Hend : json_end response_text = Z.of_nat (length pre' + S (S (length inner)))).
  { rewrite Htext. unfold json_end, str_rfind. cbn [codepoints].
    assert (Hl : pre' ++ (LBRACE :: inner ++ [RBRACE]) ++ post'
                 = (pre' ++ LBRACE :: inner) ++ RBRACE :: post')
      by (cbn [app]; rewrite <- !app_assoc; reflexivity).
    rewrite Hl, rfind_from_last by exact Hpost'. rewrite length_app. cbn [length]. lia. }
  split.
  - unfold has_json_span. rewrite Hstart, Hend.
    apply andb_true_intro. split.
    + apply negb_true_iff, Z.eqb_neq. lia.
    + apply Z.gtb_lt. lia.
  - rewrite Hstart, Hend, Htext. unfold str_slice, body. simpl codepoints. f_equal.
    rewrite Nat2Z.id.
    replace (Z.to_nat (Z.of_nat (length pre' + S (S (length inner))) - Z.of_nat (length pre')))
      with (length (LBRACE :: inner ++ [RBRACE]))
      by (simpl; rewrite length_app; simpl; lia).
    rewrite drop_app_length.
    exact (take_app_length (LBRACE :: inner ++ [RBRACE]) post').
Qed.

(** X16. The classifier reads the object inside the completion: when the
    model answers an object between braces with any text before it that has
    no opening brace and any text after it that has no closing brace (white
    space, a sentence of introduction, a closing remark), the analysis (in
    either module) is built from that object alone, as parsed by
    [json.loads]. *)
Theorem classify_reads_the_object_inside_the_completion (e : env)
    (llm : trace -> pystr -> res pystr) (issue : issue_record) (p : pystr) (t : trace)
    (pre post : pystr) (inner : list N) (items : list (pystr * pyval)) :
  cerebras_llm e = Some llm ->
  LBRACE ∉ codepoints pre -> RBRACE ∉ codepoints post ->
  llm t p = Return (pre +++ PyStr (LBRACE :: inner ++ [RBRACE]) +++ post) ->
  json_loads e (PyStr (LBRACE :: inner ++ [RBRACE])) = Return (PDict items) ->
  (Gmail.prompt_of issue = Return p ->
   Gmail.classify_maintenance_issue e issue t
   = (Return (Gmail.repair issue (dict_of_items items)), t ++ [LlmInvoked p]))
  /\ (Backend.prompt_of issue = Return p ->
      Backend.classify_maintenance_issue e issue t
      = (Return (Backend.validate_category (dict_of_items items)), t ++ [LlmInvoked p])).
Proof.
  intros Hllm Hpre Hpost Hanswer Hjson.
  assert (Hparsed : parsed_completion e llm p t = Some (dict_of_items items)).
  { unfold parsed_completion. rewrite Hanswer.
    pose proof (json_span_of_wrapped pre post inner Hpre Hpost) as Hspan.
    cbv zeta in Hspan. destruct Hspan as [Hspan Hslice].
    cbv zeta. rewrite Hspan, Hslice, Hjson. reflexivity. }
  split; intros Hp.
  - exact (gmail_classify_parsed e llm issue p t _ Hllm Hp Hparsed).
  - exact (backend_classify_parsed e llm issue p t _ Hllm Hp Hparsed).
Qed.

(** The completion [Here is the analysis: {...} Hope it helps.] *)
Lemma classify_reads_the_object_inside_the_completion_witness :
  Gmail.classify_maintenance_issue
    (Lite.env_of None None None (Some (Demo.model_saying Demo.chatty_plumbing)))
    Demo.full_issue []
  = (Return (Gmail.repair Demo.full_issue
               (dict_of_items [("category", PStr "Plumbing"); ("priority", PStr "High")])),
     [LlmInvoked (Gmail.classify_prompt "AC not cooling in room 204" "tenant@example.com"
                    "Mon, 6 Jan 2025 09:00:00"
                    "The air conditioning in room 204 blows warm air.")]).
Proof.
  refine (proj1 (classify_reads_the_object_inside_the_completion
                   (Lite.env_of None None None (Some (Demo.model_saying Demo.chatty_plumbing)))
                   (Demo.model_saying Demo.chatty_plumbing) Demo.full_issue
                   (Gmail.classify_prompt "AC not cooling in room 204" "tenant@example.com"
                      "Mon, 6 Jan 2025 09:00:00"
                      "The air conditioning in room 204 blows warm air.")
                   [] "Here is the analysis: " " Hope it helps."
                   (codepoints (Demo.json_field "category" "Plumbing" +++ ", "
                                  +++ Demo.json_field "priority" "High"))
                   [("category", PStr "Plumbing"); ("priority", PStr "High")]
                   eq_refl _ _ _ _) _).
  - apply (bool_decide_eq_true_1 (LBRACE ∉ _)). vm_compute. reflexivity.
  - apply (bool_decide_eq_true_1 (RBRACE ∉ _)). vm_compute. reflexivity.
  - vm_compute. reflexivity.
  - vm_compute. reflexivity.
  - reflexivity.
Defined.

(** *** The endpoints of [backend.py] *)

(** A classification of [backend.py] returns, reaching neither store nor
    channel and calling the model at most once. *)
Lemma backend_classify_run e issue t :
  exists analysis extra,
    Backend.classify_maintenance_issue e issue t = (Return analysis, t ++ extra)
    /\ outside_calls extra = []
    /\ (length (model_calls extra) <= 1)%nat.
Proof.
  destruct (backend_classify_cases e issue t)
    as [[Hn H]|(llm & Hllm & [(ex & Hp & H)|(p & Hp & [(d & _ & H)|[ex H]])])];
    rewrite H; eexists; eexists;
    (split; [try reflexivity; rewrite app_nil_r; reflexivity|]);
    (split; [reflexivity|simpl; lia]).
Qed.

(** The tasks scheduled for a list of processed issues. *)
Definition tasks_of (e : env) (request : Backend.ProcessEmailsRequest)
    (items : list processed_item) : list Backend.background_task :=
  flat_map (fun item => Backend.tasks_for e request (item_issue item) (item_analysis item))
           items.

(** The loop of [process_emails]. *)
Lemma backend_process_each_run e request issues t :
  exists items extra,
    Backend.process_each e request issues t
    = (Return (items, tasks_of e request items), t ++ extra)
    /\ map item_issue items = issues
    /\ outside_calls extra = []
    /\ (length (model_calls extra) <= length issues)%nat.
Proof.
  revert t. induction issues as [|issue rest IH]; intros t.
  - exists [], []. simpl. rewrite app_nil_r. repeat split. lia.
  - cbn [Backend.process_each]. unfold mbind, M_bind, mret, M_ret. cbv beta iota.
    destruct (backend_classify_run e issue t) as (analysis & ex1 & Hcl & Hout1 & Hcalls1).
    rewrite Hcl.
    destruct (IH (t ++ ex1)) as (items & ex2 & Hrest & Hmap & Hout2 & Hcalls2).
    rewrite Hrest.
    exists ({| item_issue := issue; item_analysis := analysis |} :: items), (ex1 ++ ex2).
    split; [rewrite <- app_assoc; reflexivity|].
    split; [simpl; rewrite Hmap; reflexivity|].
    split; [rewrite outside_calls_app, Hout1, Hout2; reflexivity|].
    rewrite model_calls_app, length_app. simpl. lia.
Qed.

(** X17. When its fetch succeeds, [process_emails] answers with status
    [success], the number of fetched issues as [processed] and the fetched
    issues in their order, each with its analysis.  During the request it
    calls neither the ticket store nor the chat channel, and the model at
    most once for each issue: the writes are only scheduled, one ticket for
    each issue when a store is configured and one notification for each issue
    when the request asks for notifications and a channel is configured. *)
Theorem process_emails_reports_every_fetched_issue (e : env)
    (request : Backend.ProcessEmailsRequest) (t : trace)
    (fetched : list issue_record) (t1 : trace) :
  Backend.fetch_gmail_issues e (Backend.max_results request) t = (Return fetched, t1) ->
  exists result extra,
    Backend.process_emails e request t
    = (Return (result, tasks_of e request (Backend.issues result)), t1 ++ extra)
    /\ Backend.status result = "success"
    /\ Backend.processed result = length fetched
    /\ map item_issue (Backend.issues result) = fetched
    /\ outside_calls extra = []
    /\ (length (model_calls extra) <= length fetched)%nat
    /\ (Backend.send_notifications request <> Some true ->
        forall issue analysis,
          Backend.SlackTask issue analysis ∉ tasks_of e request (Backend.issues result)).
Proof.
  intros Hfetch. unfold Backend.process_emails, try_except.
  rewrite (bind_returns _ _ _ _ _ Hfetch).
  destruct fetched as [|issue rest].
  { exists {| Backend.status := "success"; Backend.message := "No emails found";
               Backend.processed := 0; Backend.issues := [] |}, [].
    rewrite app_nil_r. split; [reflexivity|]. simpl.
    repeat split; try lia. intros _ i a Hin. apply elem_of_nil in Hin. exact Hin. }
  remember (issue :: rest) as fetched eqn:Hf.
  destruct (backend_process_each_run e request fetched t1)
    as (items & extra & Hrun & Hmap & Hout & Hcalls).
  rewrite Hf in *. clear Hf. rewrite (bind_returns _ _ _ _ _ Hrun).
  unfold mret, M_ret.
  exists {| Backend.status := "success";
            Backend.message := "Processed " +++ str_of_nat (length items) +++ " emails";
            Backend.processed := length items; Backend.issues := items |}, extra.
  split; [reflexivity|]. cbn [Backend.status Backend.processed Backend.issues].
  split; [reflexivity|]. split; [rewrite <- Hmap, length_map; reflexivity|].
  split; [exact Hmap|]. split; [exact Hout|]. split; [exact Hcalls|].
  intros Hflag i a Hin. unfold tasks_of in Hin. apply list_elem_of_In, in_flat_map in Hin.
  destruct Hin as (item & _ & Hin). unfold Backend.tasks_for in Hin.
  apply in_app_or in Hin. destruct Hin as [Hin|Hin].
  - destruct (notion_client e); simpl in Hin; [destruct Hin as [Hin|[]]; discriminate Hin|
                                                destruct Hin].
  - destruct (Backend.send_notifications request) as [[|]|];
      [exfalso; apply Hflag; reflexivity| |]; destruct Hin.
Qed.

(** The sample mailbox with a store and a channel, for a request that asks
    for no notification: two issues, and a ticket scheduled for each. *)
Lemma process_emails_reports_every_fetched_issue_witness :
  exists result extra,
    Backend.process_emails
      (Lite.env_of (Some Demo.mailbox) (Some Demo.store_ok) (Some Demo.channel_ok) None)
      {| Backend.max_results := Some 10; Backend.send_notifications := Some false |} []
    = (Return (result,
               tasks_of (Lite.env_of (Some Demo.mailbox) (Some Demo.store_ok)
                           (Some Demo.channel_ok) None)
                 {| Backend.max_results := Some 10; Backend.send_notifications := Some false |}
                 (Backend.issues result)),
       [GmailListed (Some 10); GmailGot "m1"; GmailGot "m2"] ++ extra)
    /\ Backend.processed result = 2%nat
    /\ outside_calls extra = [].
Proof.
  destruct (process_emails_reports_every_fetched_issue
              (Lite.env_of (Some Demo.mailbox) (Some Demo.store_ok) (Some Demo.channel_ok) None)
              {| Backend.max_results := Some 10; Backend.send_notifications := Some false |} []
              [Demo.full_issue; Demo.bare_issue]
              [GmailListed (Some 10); GmailGot "m1"; GmailGot "m2"] eq_refl)
    as (result & extra & Hrun & _ & Hn & _ & Hout & _).
  exists result, extra. split; [exact Hrun|]. split; [exact Hn|exact Hout].
Defined.

(** A body whose exceptions all become the HTTP error 500. *)
Lemma try_except_500 {A} (body : M A) t ex t' :
  try_except body (fun ex => raise (HTTPException 500 (exn_str ex))) t = (Raise ex, t') ->
  exists detail, ex = HTTPException 500 detail.
Proof.
  unfold try_except, raise. destruct (body t) as [[a|ex0] t0]; intros H; inversion H; eauto.
Qed.

(** A body whose HTTP errors pass and whose other exceptions become the HTTP
    error 500. *)
Lemma try_except_http {A} (body : M A) t ex t' :
  try_except body (fun ex => if is_HTTPException ex then raise ex
                             else raise (HTTPException 500 (exn_str ex))) t
  = (Raise ex, t') ->
  exists code detail, ex = HTTPException code detail.
Proof.
  unfold try_except, raise. destruct (body t) as [[a|ex0] t0]; intros H; [discriminate H|].
  destruct ex0; simpl in H; inversion H; eauto.
Qed.

(** X18. What the endpoints let out when they fail.  [process_emails] and
    [get_dashboard_stats] turn every exception into the HTTP error 500, the
    503 of a missing mail service included; [classify_email] lets an HTTP
    error through with its own status, so that a missing mail service is a
    503 there, and turns everything else into a 500. *)
Theorem endpoint_failures_are_http_errors (e : env) (t : trace) :
  (forall request ex t',
     Backend.process_emails e request t = (Raise ex, t') -> exists detail, ex = HTTPException 500 detail)
  /\ (forall ex t',
        Backend.get_dashboard_stats e t = (Raise ex, t') ->
        exists detail, ex = HTTPException 500 detail)
  /\ (forall email_id ex t',
        Backend.classify_email e email_id t = (Raise ex, t') ->
        exists code detail, ex = HTTPException code detail)
  /\ (gmail_service e = None ->
      (forall request,
         Backend.process_emails e request t
         = (Raise (HTTPException 500
                     (exn_str (HTTPException 503 "Gmail service not initialized"))), t))
      /\ Backend.get_dashboard_stats e t
         = (Raise (HTTPException 500
                     (exn_str (HTTPException 503 "Gmail service not initialized"))), t)
      /\ (forall email_id,
            Backend.classify_email e email_id t
            = (Raise (HTTPException 503 "Gmail service not initialized"), t))).
Proof.
  split; [|split; [|split]].
  - intros request ex t' H. exact (try_except_500 _ _ _ _ H).
  - intros ex t' H. exact (try_except_500 _ _ _ _ H).
  - intros email_id ex t' H. exact (try_except_http _ _ _ _ H).
  - intros Hapi. split; [|split].
    + intros request. unfold Backend.process_emails, try_except.
      rewrite bind_run. unfold Backend.fetch_gmail_issues. rewrite Hapi. reflexivity.
    + unfold Backend.get_dashboard_stats, try_except.
      rewrite bind_run. unfold Backend.fetch_gmail_issues. rewrite Hapi. reflexivity.
    + intros email_id. unfold Backend.classify_email, try_except.
      rewrite bind_run. unfold Backend.fetch_gmail_issues. rewrite Hapi. reflexivity.
Qed.

(** Without a mail service. *)
Lemma endpoint_failures_are_http_errors_witness :
  Backend.classify_email (Lite.env_of None None None None) "m1" []
  = (Raise (HTTPException 503 "Gmail service not initialized"), []).
Proof.
  exact (proj2 (proj2 (proj2 (proj2 (proj2 (endpoint_failures_are_http_errors
                                              (Lite.env_of None None None None) [])))
                             eq_refl)) "m1").
Defined.

(** Every record of a fetch has an id. *)
Lemma backend_fetch_has_ids e n t fetched t1 :
  Backend.fetch_gmail_issues e n t = (Return fetched, t1) ->
  Forall (fun issue => is_Some (issue !! "id")) fetched.
Proof.
  unfold Backend.fetch_gmail_issues.
  destruct (gmail_service e) as [api|]; [|discriminate].
  unfold try_except, mbind, M_bind, call, raise. cbv beta iota.
  destruct (messages_list api t n) as [ids|ex]; [|discriminate].
  rewrite backend_fetch_messages_same.
  destruct (Gmail.fetch_messages api (default [] ids) (t ++ [GmailListed n]))
    as [[l|ex] t2] eqn:Hfetch; [|discriminate].
  intros H. inversion H; subst. apply gmail_fetch_messages_normalized in Hfetch.
  destruct Hfetch as [Hall _]. eapply list.Forall_impl; [exact Hall|].
  intros issue (id & msg & tm & _ & Hn). destruct Hn as [_ Hid _ _ _ _]. eauto.
Qed.

Lemma find_issue_none email_id issues :
  Forall (fun issue => is_Some (issue !! "id")) issues ->
  (forall issue, issue ∈ issues -> issue !! "id" <> Some email_id) ->
  Backend.find_issue email_id issues = Return None.
Proof.
  intros Hids. induction Hids as [|i rest [id Hid] _ IH]; intros Hno; [reflexivity|].
  cbn [Backend.find_issue]. unfold dict_index. rewrite Hid.
  unfold mbind, res_bind. rewrite bool_decide_eq_false_2.
  - apply IH. intros issue Hin. apply Hno. right. exact Hin.
  - intros ->. apply (Hno i); [left|exact Hid].
Qed.

Lemma find_issue_first email_id before issue after :
  Forall (fun issue => is_Some (issue !! "id")) before ->
  (forall i, i ∈ before -> i !! "id" <> Some email_id) ->
  issue !! "id" = Some email_id ->
  Backend.find_issue email_id (before ++ issue :: after) = Return (Some issue).
Proof.
  intros Hids. induction Hids as [|i rest [id Hid] _ IH]; intros Hno Hissue.
  - cbn [app Backend.find_issue]. unfold dict_index. rewrite Hissue.
    unfold mbind, res_bind. rewrite bool_decide_eq_true_2; reflexivity.
  - cbn [app Backend.find_issue]. unfold dict_index. rewrite Hid.
    unfold mbind, res_bind. rewrite bool_decide_eq_false_2.
    + apply IH; [|exact Hissue]. intros j Hin. apply Hno. right. exact Hin.
    + intros ->. apply (Hno i); [left|exact Hid].
Qed.

(** X19. [classify_email] lists the mailbox with [max_results=50] and looks
    for the id among the fetched records: when no record has it, the endpoint
    raises the HTTP error 404 without classifying anything; otherwise it
    classifies the first record that has it, and that one only, and answers
    with what [EmailIssue] makes of the record and its analysis, a failure of
    that constructor becoming the HTTP error 500. *)
Theorem classify_email_finds_the_first_match (e : env) (email_id : pystr) (t : trace)
    (fetched : list issue_record) (t1 : trace) :
  Backend.fetch_gmail_issues e (Some 50) t = (Return fetched, t1) ->
  ((forall issue, issue ∈ fetched -> issue !! "id" <> Some email_id) ->
   Backend.classify_email e email_id t = (Raise (HTTPException 404 "Email not found"), t1))
  /\ (forall before issue after,
        fetched = before ++ issue :: after -> issue !! "id" = Some email_id ->
        (forall i, i ∈ before -> i !! "id" <> Some email_id) ->
        exists analysis extra,
          Backend.classify_maintenance_issue e issue t1 = (Return analysis, t1 ++ extra)
          /\ (length (model_calls extra) <= 1)%nat
          /\ Backend.classify_email e email_id t
             = (match new_EmailIssue e {| item_issue := issue; item_analysis := analysis |} with
                | Return r => Return r
                | Raise ex =>
                  Raise (if is_HTTPException ex then ex else HTTPException 500 (exn_str ex))
                end, t1 ++ extra)).
Proof.
  intros Hfetch. pose proof (backend_fetch_has_ids _ _ _ _ _ Hfetch) as Hids. split.
  - intros Hno. unfold Backend.classify_email, try_except.
    rewrite (bind_returns _ _ _ _ _ Hfetch), bind_run, lift_run.
    rewrite (find_issue_none _ _ Hids Hno). reflexivity.
  - intros before issue after -> Hissue Hno.
    destruct (backend_classify_run e issue t1) as (analysis & extra & Hcl & _ & Hcalls).
    exists analysis, extra. split; [exact Hcl|]. split; [exact Hcalls|].
    unfold Backend.classify_email, try_except.
    rewrite (bind_returns _ _ _ _ _ Hfetch), bind_run, lift_run.
    apply list.Forall_app in Hids. destruct Hids as [Hbefore _].
    rewrite (find_issue_first _ _ _ _ Hbefore Hno Hissue).
    rewrite (bind_returns _ _ _ _ _ Hcl), lift_run.
    destruct (new_EmailIssue e _) as [r|ex]; [reflexivity|].
    unfold raise. destruct (is_HTTPException ex); reflexivity.
Qed.

(** An id the sample mailbox does not list. *)
Lemma classify_email_finds_the_first_match_witness :
  Backend.classify_email (Lite.env_of (Some Demo.mailbox) None None None) "m9" []
  = (Raise (HTTPException 404 "Email not found"),
     [GmailListed (Some 50); GmailGot "m1"; GmailGot "m2"]).
Proof.
  apply (proj1 (classify_email_finds_the_first_match
                  (Lite.env_of (Some Demo.mailbox) None None None) "m9" []
                  [Demo.full_issue; Demo.bare_issue]
                  [GmailListed (Some 50); GmailGot "m1"; GmailGot "m2"] eq_refl)).
  intros issue Hin.
  apply elem_of_cons in Hin. destruct Hin as [->|Hin]; [vm_compute; discriminate|].
  apply elem_of_cons in Hin. destruct Hin as [->|Hin]; [vm_compute; discriminate|].
  apply elem_of_nil in Hin. destruct Hin.
Defined.

(** The objects the model answers carry a priority that can be a dictionary
    key. *)
Definition priority_given (e : env) : Prop :=
  forall llm p tm d,
    cerebras_llm e = Some llm -> parsed_completion e llm p tm = Some d ->
    exists v, d !! "priority" = Some v /\ check_hashable v = Return tt.

(** With such a model the analyses of [backend.py] can be counted. *)
Lemma backend_classify_countable e issue t :
  priority_given e ->
  exists analysis extra,
    Backend.classify_maintenance_issue e issue t = (Return analysis, t ++ extra)
    /\ countable_item {| item_issue := issue; item_analysis := analysis |}
    /\ outside_calls extra = []
    /\ (length (model_calls extra) <= 1)%nat.
Proof.
  intros Hmodel.
  destruct (backend_classify_cases e issue t)
    as [[Hn H]|(llm & Hllm & [(ex & Hp & H)|(p & Hp & [(d & Hd & H)|[ex H]])])];
    rewrite H; eexists; eexists;
    (split; [try reflexivity; rewrite app_nil_r; reflexivity|]);
    (split; [|split; [reflexivity|simpl; lia]]).
  - do 2 eexists. repeat split; reflexivity.
  - do 2 eexists. repeat split; reflexivity.
  - destruct (Hmodel llm p t d Hllm Hd) as (v & Hv & Hhash).
    unfold countable_item. cbn [item_analysis].
    rewrite validate_category_category, (validate_category_other d "priority") by discriminate.
    destruct (in_names (d !! "category") Backend.MAINTENANCE_CATEGORIES) eqn:Hin.
    + apply in_names_true in Hin. destruct Hin as (s & Hs & _).
      exists (PStr s), v. repeat split; assumption.
    + exists (PStr "General Inquiry"), v. repeat split; assumption.
  - do 2 eexists. repeat split; reflexivity.
Qed.

(** The first loop of [get_dashboard_stats]. *)
Lemma backend_classify_each_run e issues t :
  priority_given e ->
  exists items extra,
    Backend.classify_each e issues t = (Return items, t ++ extra)
    /\ map item_issue items = issues
    /\ Forall countable_item items
    /\ outside_calls extra = []
    /\ (length (model_calls extra) <= length issues)%nat.
Proof.
  intros Hmodel. revert t. induction issues as [|issue rest IH]; intros t.
  - exists [], []. simpl. rewrite app_nil_r. repeat split; [constructor|lia].
  - cbn [Backend.classify_each]. unfold mbind, M_bind, mret, M_ret. cbv beta iota.
    destruct (backend_classify_countable e issue t Hmodel)
      as (analysis & ex1 & Hcl & Hcount & Hout1 & Hcalls1).
    rewrite Hcl.
    destruct (IH (t ++ ex1)) as (items & ex2 & Hrest & Hmap & Hall & Hout2 & Hcalls2).
    rewrite Hrest.
    exists ({| item_issue := issue; item_analysis := analysis |} :: items), (ex1 ++ ex2).
    split; [rewrite <- app_assoc; reflexivity|].
    split; [simpl; rewrite Hmap; reflexivity|].
    split; [constructor; assumption|].
    split; [rewrite outside_calls_app, Hout1, Hout2; reflexivity|].
    rewrite model_calls_app, length_app. simpl. lia.
Qed.

(** The sum of the counts of the category statistics. *)
Definition stats_total (stats : list category_stats) : nat :=
  foldr (fun cs n => (cs_count cs + n)%nat) 0%nat stats.

Lemma stats_total_counts cc total :
  stats_total (Backend.category_stats_of cc total) = counts_total cc.
Proof.
  unfold stats_total, Backend.category_stats_of, counts_total.
  induction cc as [|[k n] cc IH]; simpl; [reflexivity|]. rewrite IH. reflexivity.
Qed.

Lemma map_res_id {A} (f : A -> res A) (xs : list A) :
  (forall x, f x = Return x) -> map_res f xs = Return xs.
Proof.
  intros Hf. induction xs as [|x xs IH]; simpl; [reflexivity|]. rewrite Hf, IH. reflexivity.
Qed.

(** X20. The dashboard: when the fetch succeeds, the objects the model
    answers carry a hashable priority and the response models accept their
    arguments, [get_dashboard_stats] classifies every fetched issue (at most
    one call to the model for each, no call to a store or a channel) and
    returns: the number of fetched issues as total; category statistics
    whose counts add up to that total, each with the percentage of its count
    in the total; and the first five classified issues as recent issues. *)
Theorem dashboard_counts_every_fetched_issue (e : env) (t : trace)
    (fetched : list issue_record) (t1 : trace) :
  Backend.fetch_gmail_issues e (Some 20) t = (Return fetched, t1) ->
  priority_given e ->
  (forall x, new_CategoryStats e x = Return x) ->
  (forall x, new_EmailIssue e x = Return x) ->
  (forall x, new_DashboardStats e x = Return x) ->
  exists stats items extra,
    Backend.get_dashboard_stats e t = (Return stats, t1 ++ extra)
    /\ map item_issue items = fetched
    /\ total_issues stats = length fetched
    /\ stats_total (by_category stats) = length fetched
    /\ Forall (fun cs => cs_percentage cs = percentage (cs_count cs) (length fetched))
              (by_category stats)
    /\ recent_issues stats = take 5 items
    /\ outside_calls extra = []
    /\ (length (model_calls extra) <= length fetched)%nat.
Proof.
  intros Hfetch Hmodel Hcs Hei Hds.
  destruct (backend_classify_each_run e fetched t1 Hmodel)
    as (items & extra & Hrun & Hmap & Hall & Hout & Hcalls).
  destruct (backend_count_items_spec items [] (snd Backend.initial_counts) Hall)
    as (cc & pc & Hcount & Htotal & _ & _).
  change ([], Backend.initial_counts.2) with Backend.initial_counts in Hcount.
  assert (Hlen : length items = length fetched) by (rewrite <- Hmap, length_map; reflexivity).
  exists {| total_issues := length items;
            by_category := Backend.category_stats_of cc (length items);
            by_priority := pc; recent_issues := take 5 items |}, items, extra.
  split.
  { unfold Backend.get_dashboard_stats, try_except.
    rewrite (bind_returns _ _ _ _ _ Hfetch), (bind_returns _ _ _ _ _ Hrun).
    rewrite bind_run, lift_run, Hcount. cbv beta iota.
    rewrite bind_run, lift_run, (map_res_id _ _ Hcs).
    rewrite bind_run, lift_run, (map_res_id _ _ Hei).
    rewrite lift_run, Hds. reflexivity. }
  cbn [total_issues by_category recent_issues].
  split; [exact Hmap|]. split; [exact Hlen|].
  split; [rewrite stats_total_counts, Htotal; simpl; exact Hlen|].
  split; [|split; [reflexivity|split; [exact Hout|exact Hcalls]]].
  rewrite <- Hlen. unfold Backend.category_stats_of.
  apply list.Forall_forall. intros cs Hin. apply list_elem_of_fmap in Hin.
  destruct Hin as (kv & -> & _). reflexivity.
Qed.

(** The sample mailbox without a model: two issues, both under General
    Inquiry. *)
Lemma dashboard_counts_every_fetched_issue_witness :
  exists stats t',
    Backend.get_dashboard_stats (Lite.env_of (Some Demo.mailbox) None None None) []
    = (Return stats, t')
    /\ total_issues stats = 2%nat
    /\ stats_total (by_category stats) = 2%nat.
Proof.
  destruct (dashboard_counts_every_fetched_issue
              (Lite.env_of (Some Demo.mailbox) None None None) []
              [Demo.full_issue; Demo.bare_issue]
              [GmailListed (Some 20); GmailGot "m1"; GmailGot "m2"] eq_refl)
    as (stats & items & extra & Hrun & _ & Htotal & Hsum & _).
  - intros llm p tm d Hllm. discriminate Hllm.
  - intros x. reflexivity.
  - intros x. reflexivity.
  - intros x. reflexivity.
  - exists stats. eexists. split; [exact Hrun|]. split; [exact Htotal|exact Hsum].
Defined.

(** *** The priority counts of the two summaries *)





(** *** The daily summary without the model *)

(** The order of the category lines: [sorted_by_count] keeps every item,
    puts the counts in decreasing order, and leaves items of the same count
    in the order they had. *)
Lemma insert_by_count_perm x l : insert_by_count x l ≡ₚ x :: l.
Proof.
  induction l as [|y l IH]; simpl; [reflexivity|].
  destruct (x.2 <? y.2)%nat; [|reflexivity].
  rewrite IH. apply Permutation_swap.
Qed.

(** Every item has a count at least as large as the items after it. *)
Fixpoint by_decreasing_count (l : counts) : Prop :=
  match l with
  | [] => True
  | x :: rest => Forall (fun y : pyval * nat => (y.2 <= x.2)%nat) rest
                 /\ by_decreasing_count rest
  end.

Lemma insert_by_count_sorted x l :
  by_decreasing_count l -> by_decreasing_count (insert_by_count x l).
Proof.
  induction l as [|y l IH]; simpl.
  - intros _. split; constructor.
  - intros [Hy Hl]. destruct (Nat.ltb_spec x.2 y.2) as [Hlt|Hge].
    + split; [|exact (IH Hl)].
      apply list.Forall_forall. intros z Hz.
      rewrite (insert_by_count_perm x l) in Hz.
      apply elem_of_cons in Hz. destruct Hz as [->|Hz]; [lia|].
      rewrite list.Forall_forall in Hy. apply Hy, Hz.
    + split; [|split; assumption].
      constructor; [exact Hge|].
      eapply list.Forall_impl; [exact Hy|]. intros z Hz. simpl in Hz. lia.
Qed.

Lemma insert_by_count_filter n x l :
  List.filter (fun kv : pyval * nat => (kv.2 =? n)%nat) (insert_by_count x l)
  = List.filter (fun kv : pyval * nat => (kv.2 =? n)%nat) (x :: l).
Proof.
  induction l as [|y l IH]; [reflexivity|].
  cbn [insert_by_count]. destruct (Nat.ltb_spec x.2 y.2) as [Hlt|Hge]; [|reflexivity].
  cbn [List.filter] in *. rewrite IH.
  destruct (Nat.eqb_spec x.2 n) as [Hx|Hx]; [|reflexivity].
  destruct (Nat.eqb_spec y.2 n) as [Hyn|Hyn]; [lia|reflexivity].
Qed.

(** The line of a category in the report. *)
Definition category_line (e : env) (cc : pyval * nat) : pystr :=
  "• " +++ match cc.1 with
           | PStr s => glyph Gmail.category_emojis "📋" s
           | _ => "📋"
           end +++ " " +++ py_str e cc.1 +++ ": " +++ str_of_nat cc.2 +++ "
".

Lemma category_lines_text e d :
  hashable_keys d ->
  Gmail.category_lines e d
  = Return (foldr str_cat "" (map (category_line e) (sorted_by_count d))).
Proof.
  intros H. apply hashable_keys_sorted in H. unfold Gmail.category_lines.
  unfold mbind, res_bind, mret, res_ret.
  assert (Hlines : forall l, hashable_keys l ->
            map_res (fun cc : pyval * nat =>
                       match table_get Gmail.category_emojis cc.1 "📋" with
                       | Return emoji =>
                         Return ("• " +++ emoji +++ " " +++ py_str e cc.1 +++ ": "
                                   +++ str_of_nat cc.2 +++ "
")
                       | Raise ex => Raise ex
                       end) l
            = Return (map (category_line e) l)).
  { induction 1 as [|[k n] l Hk _ IH]; [reflexivity|].
    cbn [map_res map]. rewrite IH. unfold category_line, table_get.
    cbn [fst snd] in *. rewrite Hk. destruct k; reflexivity. }
  rewrite (Hlines _ H). reflexivity.
Qed.

(** X21. The categories of the daily report are listed by decreasing count:
    the text [generate_daily_summary_with_ai] builds for them has one line
    for each category, in the order given by
    [sorted(category_counts.items(), key=lambda x: x[1], reverse=True)],
    which keeps every category with its count, puts the counts in decreasing
    order, and leaves categories of the same count in the order in which they
    were first met. *)
Theorem categories_are_listed_by_decreasing_count (e : env) (d : counts) :
  hashable_keys d ->
  Gmail.category_lines e d
  = Return (foldr str_cat "" (map (category_line e) (sorted_by_count d)))
  /\ sorted_by_count d ≡ₚ d
  /\ by_decreasing_count (sorted_by_count d)
  /\ forall n, List.filter (fun kv : pyval * nat => (kv.2 =? n)%nat) (sorted_by_count d)
               = List.filter (fun kv : pyval * nat => (kv.2 =? n)%nat) d.
Proof.
  intros Hkeys. split; [exact (category_lines_text e d Hkeys)|]. clear Hkeys.
  induction d as [|x d (Hperm & Hsorted & Hstable)]; simpl.
  - split; [reflexivity|]. split; [exact I|reflexivity].
  - split; [rewrite insert_by_count_perm, Hperm; reflexivity|].
    split; [apply insert_by_count_sorted, Hsorted|].
    intros n. rewrite (insert_by_count_filter n x _). simpl.
    rewrite Hstable. reflexivity.
Qed.

(** One plumbing issue met before two electrical ones. *)
Lemma categories_are_listed_by_decreasing_count_witness :
  Gmail.category_lines (Lite.env_of None None None None)
    [(PStr "Plumbing", 1%nat); (PStr "Electrical", 2%nat)]
  = Return "• ⚡ Electrical: 2
• 🚰 Plumbing: 1
".
Proof.
  rewrite (proj1 (categories_are_listed_by_decreasing_count
                    (Lite.env_of None None None None)
                    [(PStr "Plumbing", 1%nat); (PStr "Electrical", 2%nat)]
                    ltac:(repeat constructor))).
  vm_compute. reflexivity.
Defined.

(** The report built without the model is built, for counts and items as the
    counting loop and the classifier leave them. *)
Lemma gmail_fallback_summary_returns e items cc pc t :
  hashable_keys cc ->
  (forall s, s ∈ ["High"; "Medium"; "Low"] -> exists m, counts_index pc s = Return m) ->
  Forall listable_item items ->
  exists report, Gmail.fallback_summary e items cc pc t = (Return report, t).
Proof.
  intros Hcc Hpc Hitems. unfold Gmail.fallback_summary, Gmail.strftime_now.
  unfold mbind, M_bind, mret, M_ret, lift. cbv beta iota.
  rewrite (category_lines_text e cc Hcc).
  destruct (Hpc "High") as [h Hh]; [repeat constructor|].
  destruct (Hpc "Medium") as [m Hm]; [repeat constructor|].
  destruct (Hpc "Low") as [l Hl]; [repeat constructor|].
  rewrite Hh, Hm, Hl.
  destruct (top_issue_lines_returns e 1 (take 5 items)) as [top Htop].
  { apply Forall_take. exact Hitems. }
  rewrite Htop. eexists. reflexivity.
Qed.

(** A narrated report comes from an answer of the model. *)
Lemma gmail_narrated_summary_answer e llm items cc pc t r t' :
  Gmail.narrated_summary e llm items cc pc t = (Return r, t') ->
  exists p content, llm t p = Return content.
Proof.
  unfold Gmail.narrated_summary, Gmail.strftime_now.
  unfold mbind, M_bind, mret, M_ret, lift, call. intros H.
  outcomes H; inversion H; eauto.
Qed.

(** X22. The daily summary without the model's narrative.  For a batch that
    is not empty, of items with a hashable category and priority and a
    subject, when no model is configured or the model raises at every call,
    [generate_daily_summary_with_ai] still returns a report: the one built
    from the counts alone.  Without a model nothing is called or printed;
    with a failing model the failure is logged in one line, after at most one
    call to the model. *)
Theorem daily_summary_falls_back_without_the_model (e : env) (t : trace)
    (items : list processed_item) :
  items <> [] -> Forall countable_item items -> Forall has_subject items ->
  (forall llm tm p, cerebras_llm e = Some llm -> exists ex, llm tm p = Raise ex) ->
  exists cc pc report t',
    Gmail.count_items items Gmail.initial_counts = Return (cc, pc)
    /\ Gmail.generate_daily_summary_with_ai e items t = (Return report, t')
    /\ Gmail.fallback_summary e items cc pc t' = (Return report, t')
    /\ (cerebras_llm e = None -> t' = t)
    /\ (is_Some (cerebras_llm e) ->
        exists log ex,
          t' = t ++ log ++ [Printed ("⚠️  AI daily summary failed: " +++ exn_str ex)]
          /\ (length (model_calls log) <= 1)%nat
          /\ outside_calls log = []).
Proof.
  intros Hne Hc Hs Hdown.
  destruct (gmail_count_items_spec items [] (snd Gmail.initial_counts) Hc)
    as (cc & pc & Hrun & _ & _ & Hkeys).
  change ([], Gmail.initial_counts.2) with Gmail.initial_counts in Hrun.
  assert (Hfb : forall tm, exists report,
             Gmail.fallback_summary e items cc pc tm = (Return report, tm)).
  { intros tm. apply gmail_fallback_summary_returns.
    - eapply gmail_count_items_hashable; [exact Hrun|constructor].
    - intros s Hin. apply elem_of_cons in Hin. destruct Hin as [->|Hin];
        [exact (Hkeys "High" 0%nat eq_refl)|].
      apply elem_of_cons in Hin. destruct Hin as [->|Hin];
        [exact (Hkeys "Medium" 0%nat eq_refl)|].
      apply elem_of_cons in Hin. destruct Hin as [->|Hin];
        [exact (Hkeys "Low" 0%nat eq_refl)|].
      apply elem_of_nil in Hin. destruct Hin.
    - apply list.Forall_forall. intros x Hx.
      rewrite list.Forall_forall in Hc, Hs. destruct (Hc x Hx) as (c & p & Hcx & Hpx & _).
      split; [|split]; [rewrite Hcx | rewrite Hpx | apply Hs, Hx]; eauto. }
  exists cc, pc. unfold Gmail.generate_daily_summary_with_ai.
  destruct items as [|item rest]; [destruct (Hne eq_refl)|].
  remember (item :: rest) as items eqn:Hitems. clear Hitems Hne.
  rewrite bind_run, lift_run, Hrun. cbv beta iota. rewrite bind_run.
  destruct (cerebras_llm e) as [llm|] eqn:Hllm.
  - unfold try_except. rewrite bind_run.
    destruct (Gmail.narrated_summary e llm items cc pc t) as [[r|ex] t1] eqn:Hn.
    + exfalso. apply gmail_narrated_summary_answer in Hn. destruct Hn as (p & content & Hans).
      destruct (Hdown llm t p eq_refl) as [ex Hex]. congruence.
    + unfold print, mbind, M_bind, mret, M_ret. cbv beta iota.
      destruct (Hfb (t1 ++ [Printed ("⚠️  AI daily summary failed: " +++ exn_str ex)]))
        as [report Hreport].
      exists report, (t1 ++ [Printed ("⚠️  AI daily summary failed: " +++ exn_str ex)]).
      rewrite Hreport.
      split; [reflexivity|]. split; [reflexivity|]. split; [reflexivity|].
      split; [discriminate|]. intros _.
      apply gmail_narrated_summary_trace in Hn. destruct Hn as [->|[p ->]].
      * exists [], ex. repeat split. simpl. lia.
      * exists [LlmInvoked p], ex. rewrite <- app_assoc. repeat split. simpl. lia.
  - unfold mret, M_ret. destruct (Hfb t) as [report Hreport].
    exists report, t. rewrite Hreport.
    split; [reflexivity|]. split; [reflexivity|]. split; [reflexivity|].
    split; [reflexivity|]. intros [x Hx]. discriminate Hx.
Qed.

(** The sample batch with a model that is out of reach. *)
Lemma daily_summary_falls_back_without_the_model_witness :
  exists report t' log,
    Gmail.generate_daily_summary_with_ai
      (Lite.env_of None None None (Some Demo.model_down)) Demo.batch3 []
    = (Return report, t')
    /\ t' = [] ++ log ++ [Printed "⚠️  AI daily summary failed: Connection error."].
Proof.
  destruct (daily_summary_falls_back_without_the_model
              (Lite.env_of None None None (Some Demo.model_down)) [] Demo.batch3)
    as (cc & pc & report & t' & _ & Hrun & _ & _ & Hlog).
  - discriminate.
  - repeat constructor; do 2 eexists; repeat split; reflexivity.
  - repeat constructor; eexists; reflexivity.
  - intros llm tm p Hllm. injection Hllm as <-. eexists. reflexivity.
  - exists report, t', [LlmInvoked (Gmail.summary_prompt 3 "{}" "{}"
        (str_join "
" ["1. [Electrical] High - AC not cooling in room 204 (from tenant@example.com)";
   "2. [Electrical] Low - AC not cooling in room 204 (from tenant@example.com)";
   "3. [Plumbing] High - AC not cooling in room 204 (from tenant@example.com)"]))].
    split; [exact Hrun|].
    vm_compute in Hrun. injection Hrun as _ <-. vm_compute. reflexivity.
Defined.

(** *** The channel id written by [add_channel_id.py] *)

(** Stripping by a predicate, of which the two strips of the script are
    instances. *)
Fixpoint lstrip_by (p : N -> bool) (l : list N) : list N :=
  match l with
  | [] => []
  | x :: r => if p x then lstrip_by p r else l
  end.

Definition strip_by (p : N -> bool) (l : list N) : list N :=
  rev (lstrip_by p (rev (lstrip_by p l))).

Lemma lstrip_is_lstrip_by l : lstrip l = lstrip_by py_isspace l.
Proof. induction l as [|x l IH]; simpl; [reflexivity|]. rewrite IH. reflexivity. Qed.

Lemma lstrip_char_is_lstrip_by c l :
  AddChannelId.lstrip_char c l = lstrip_by (fun x => (x =? c)%N) l.
Proof. induction l as [|x l IH]; simpl; [reflexivity|]. rewrite IH. reflexivity. Qed.

Lemma str_strip_by s : str_strip s = PyStr (strip_by py_isspace (codepoints s)).
Proof. unfold str_strip, strip_by. rewrite !lstrip_is_lstrip_by. reflexivity. Qed.

Lemma str_strip_char_by c s :
  AddChannelId.str_strip_char c s = PyStr (strip_by (fun x => (x =? c)%N) (codepoints s)).
Proof.
  unfold AddChannelId.str_strip_char, strip_by. rewrite !lstrip_char_is_lstrip_by. reflexivity.
Qed.

(** The first and the last element of the list do not satisfy [p]. *)
Definition ends_outside (p : N -> bool) (l : list N) : Prop :=
  (exists x, head l = Some x /\ p x = false)
  /\ (exists y, head (rev l) = Some y /\ p y = false).

Definition all_in (p : N -> bool) (l : list N) : Prop := Forall (fun x => p x = true) l.

Lemma lstrip_by_skip p a l :
  all_in p a -> (exists x, head l = Some x /\ p x = false) -> lstrip_by p (a ++ l) = l.
Proof.
  intros Ha (x & Hx & Hp). induction Ha as [|y a Hy _ IH]; simpl.
  - destruct l as [|z l]; [discriminate Hx|]. simpl in Hx. injection Hx as ->.
    simpl. rewrite Hp. reflexivity.
  - rewrite Hy. exact IH.
Qed.

Lemma head_app_some {A} (l k : list A) x : head l = Some x -> head (l ++ k) = Some x.
Proof. destruct l; [discriminate|]. simpl. auto. Qed.

Lemma all_in_rev p l : all_in p l -> all_in p (rev l).
Proof.
  unfold all_in. rewrite !list.Forall_forall. intros H x Hx. apply H.
  apply list_elem_of_In. apply list_elem_of_In in Hx. apply in_rev. exact Hx.
Qed.

(** Stripping removes what is around a core whose ends are outside [p]. *)
Lemma strip_by_core p a l b :
  all_in p a -> all_in p b -> ends_outside p l -> strip_by p (a ++ l ++ b) = l.
Proof.
  intros Ha Hb [(x & Hx & Hpx) (y & Hy & Hpy)]. unfold strip_by.
  rewrite (lstrip_by_skip p a (l ++ b) Ha)
    by (exists x; split; [apply head_app_some, Hx|exact Hpx]).
  rewrite rev_app_distr.
  rewrite (lstrip_by_skip p (rev b) (rev l) (all_in_rev _ _ Hb))
    by (exists y; split; assumption).
  apply rev_involutive.
Qed.

Lemma strip_by_same p l : ends_outside p l -> strip_by p l = l.
Proof.
  intros H. rewrite <- (strip_by_core p [] l [] (List.Forall_nil _) (List.Forall_nil _) H) at 2.
  rewrite app_nil_r. reflexivity.
Qed.

(** A string of white space strips to nothing. *)
Lemma strip_by_all p l : all_in p l -> strip_by p l = [].
Proof.
  intros H. unfold strip_by.
  assert (Hl : lstrip_by p l = []).
  { induction H as [|x l Hx _ IH]; simpl; [reflexivity|]. rewrite Hx. exact IH. }
  rewrite Hl. reflexivity.
Qed.

(** The value the script writes for a typed line. *)
Definition written (line : pystr) : pystr := AddChannelId.unquote (str_strip line).

(** One of the characters the script strips. *)
Definition is_trimmed (x : N) : bool :=
  py_isspace x || (x =? AddChannelId.DQUOTE)%N || (x =? AddChannelId.SQUOTE)%N.

Lemma ends_outside_weaken (p q : N -> bool) l :
  (forall x, q x = false -> p x = false) -> ends_outside q l -> ends_outside p l.
Proof.
  intros Hpq [(x & Hx & Hqx) (y & Hy & Hqy)]. split; eauto.
Qed.

Lemma ends_outside_wrap p q l :
  p q = false -> ends_outside p (q :: l ++ [q]).
Proof.
  intros Hq. split.
  - exists q. split; [reflexivity|exact Hq].
  - exists q. split; [|exact Hq].
    change (q :: l ++ [q]) with ([q] ++ l ++ [q]).
    rewrite !rev_app_distr. reflexivity.
Qed.

Lemma is_trimmed_false x :
  is_trimmed x = false ->
  py_isspace x = false /\ (x =? AddChannelId.DQUOTE)%N = false
  /\ (x =? AddChannelId.SQUOTE)%N = false.
Proof.
  unfold is_trimmed. intros H. apply orb_false_elim in H. destruct H as [H Hs].
  apply orb_false_elim in H. destruct H as [Hw Hd]. auto.
Qed.

(** Stripping a quote removes the pair of quotes around a core. *)
Lemma strip_by_quotes q l :
  ends_outside (fun x => (x =? q)%N) l -> strip_by (fun x => (x =? q)%N) (q :: l ++ [q]) = l.
Proof.
  intros H.
  assert (Hone : all_in (fun x => (x =? q)%N) [q])
    by (constructor; [apply N.eqb_refl|constructor]).
  exact (strip_by_core _ [q] l [q] Hone Hone H).
Qed.

(** X23. The channel id the script writes is the typed line without the
    white space around it and without the quotes around the id: an id whose
    first and last characters are neither white space nor quotes comes out
    as it is whether it was typed bare, between double quotes, between
    single quotes, or between double quotes with single quotes inside.  The
    three strips are applied once and in that order, so that single quotes
    with double quotes inside leave the double quotes around the id. *)
Theorem channel_id_is_unquoted (c ws1 ws2 : list N) :
  ends_outside is_trimmed c -> all_in py_isspace ws1 -> all_in py_isspace ws2 ->
  let dq := AddChannelId.DQUOTE in
  let sq := AddChannelId.SQUOTE in
  written (PyStr (ws1 ++ c ++ ws2)) = PyStr c
  /\ written (PyStr (ws1 ++ (dq :: c ++ [dq]) ++ ws2)) = PyStr c
  /\ written (PyStr (ws1 ++ (sq :: c ++ [sq]) ++ ws2)) = PyStr c
  /\ written (PyStr (ws1 ++ (dq :: (sq :: c ++ [sq]) ++ [dq]) ++ ws2)) = PyStr c
  /\ written (PyStr (ws1 ++ (sq :: (dq :: c ++ [dq]) ++ [sq]) ++ ws2))
     = PyStr (dq :: c ++ [dq]).
Proof.
  intros Hc Hws1 Hws2 dq sq.
  assert (Hspace : ends_outside py_isspace c)
    by (eapply ends_outside_weaken; [|exact Hc]; intros x Hx; apply is_trimmed_false in Hx; tauto).
  assert (Hdq : ends_outside (fun x => (x =? dq)%N) c)
    by (eapply ends_outside_weaken; [|exact Hc]; intros x Hx; apply is_trimmed_false in Hx; tauto).
  assert (Hsq : ends_outside (fun x => (x =? sq)%N) c)
    by (eapply ends_outside_weaken; [|exact Hc]; intros x Hx; apply is_trimmed_false in Hx; tauto).
  unfold written, AddChannelId.unquote.
  rewrite !str_strip_by, !str_strip_char_by. cbn [codepoints].
  fold dq sq.
  split; [|split; [|split; [|split]]].
  - rewrite (strip_by_core py_isspace ws1 c ws2 Hws1 Hws2 Hspace).
    rewrite (strip_by_same _ c Hdq), (strip_by_same _ c Hsq), (strip_by_same _ c Hspace).
    reflexivity.
  - rewrite (strip_by_core py_isspace ws1 (dq :: c ++ [dq]) ws2 Hws1 Hws2)
      by (apply ends_outside_wrap; reflexivity).
    rewrite (strip_by_quotes dq c Hdq).
    rewrite (strip_by_same _ c Hsq), (strip_by_same _ c Hspace). reflexivity.
  - rewrite (strip_by_core py_isspace ws1 (sq :: c ++ [sq]) ws2 Hws1 Hws2)
      by (apply ends_outside_wrap; reflexivity).
    rewrite (strip_by_same (fun x => (x =? dq)%N) (sq :: c ++ [sq]))
      by (apply ends_outside_wrap; reflexivity).
    rewrite (strip_by_quotes sq c Hsq).
    rewrite (strip_by_same _ c Hspace). reflexivity.
  - rewrite (strip_by_core py_isspace ws1 (dq :: (sq :: c ++ [sq]) ++ [dq]) ws2 Hws1 Hws2)
      by (apply ends_outside_wrap; reflexivity).
    rewrite (strip_by_quotes dq (sq :: c ++ [sq]))
      by (apply ends_outside_wrap; reflexivity).
    rewrite (strip_by_quotes sq c Hsq).
    rewrite (strip_by_same _ c Hspace). reflexivity.
  - rewrite (strip_by_core py_isspace ws1 (sq :: (dq :: c ++ [dq]) ++ [sq]) ws2 Hws1 Hws2)
      by (apply ends_outside_wrap; reflexivity).
    rewrite (strip_by_same (fun x => (x =? dq)%N) (sq :: (dq :: c ++ [dq]) ++ [sq]))
      by (apply ends_outside_wrap; reflexivity).
    rewrite (strip_by_quotes sq (dq :: c ++ [dq]))
      by (apply ends_outside_wrap; reflexivity).
    rewrite (strip_by_same py_isspace (dq :: c ++ [dq]))
      by (apply ends_outside_wrap; reflexivity).
    reflexivity.
Qed.

(** The id of the instructions, typed between double quotes after a space. *)
Lemma channel_id_is_unquoted_witness :
  written (" " +++ dquote +++ "C1234567890" +++ dquote) = "C1234567890".
Proof.
  refine (proj1 (proj2 (channel_id_is_unquoted (codepoints "C1234567890") [32%N] [] _ _ _))).
  - split; eexists; (split; [reflexivity|reflexivity]).
  - repeat constructor.
  - constructor.
Defined.

(** The calls to [set_key] among the actions of a run. *)
Definition writes (t : list AddChannelId.action) : list (pystr * pystr * pystr) :=
  omap (fun a => match a with
                 | AddChannelId.SetKey path key value => Some (path, key, value)
                 | _ => None
                 end) t.

(** X24. The script writes at most once, and only the key
    [SLACK_CHANNEL_ID]: it calls [set_key] exactly when the typed line is not
    blank and a [.env] file was found, with the path of that file and the
    unquoted line.  A blank line (empty or white space) is answered with
    [No channel ID provided] and nothing is written.  The script fails only
    with the exception of [input] or of [set_key].  A line made of two double
    quotes is not blank, so that for it an empty channel id is written. *)
Theorem script_writes_the_channel_id_once (w : AddChannelId.world) :
  writes (AddChannelId.script w).2
  = match AddChannelId.typed w with
    | Return line =>
      if AddChannelId.str_truthy (str_strip line)
         && AddChannelId.str_truthy (AddChannelId.dotenv_path w)
      then [(AddChannelId.dotenv_path w, "SLACK_CHANNEL_ID", written line)]
      else []
    | Raise _ => []
    end
  /\ (forall line,
        AddChannelId.typed w = Return line -> all_in py_isspace (codepoints line) ->
        (AddChannelId.script w).1 = Return tt
        /\ AddChannelId.Print "❌ No channel ID provided" ∈ (AddChannelId.script w).2
        /\ writes (AddChannelId.script w).2 = [])
  /\ (forall ex,
        (AddChannelId.script w).1 = Raise ex ->
        AddChannelId.typed w = Raise ex
        \/ exists line,
             AddChannelId.typed w = Return line
             /\ AddChannelId.set_key w (AddChannelId.dotenv_path w) "SLACK_CHANNEL_ID"
                  (written line) = Raise ex)
  /\ (AddChannelId.typed w = Return (dquote +++ dquote) ->
      AddChannelId.str_truthy (AddChannelId.dotenv_path w) = true ->
      writes (AddChannelId.script w).2
      = [(AddChannelId.dotenv_path w, "SLACK_CHANNEL_ID", "")]).
Proof.
  assert (Hwrites :
    writes (AddChannelId.script w).2
    = match AddChannelId.typed w with
      | Return line =>
        if AddChannelId.str_truthy (str_strip line)
           && AddChannelId.str_truthy (AddChannelId.dotenv_path w)
        then [(AddChannelId.dotenv_path w, "SLACK_CHANNEL_ID", written line)]
        else []
      | Raise _ => []
      end).
  { unfold AddChannelId.script, written.
    destruct (AddChannelId.typed w) as [line|ex]; [|reflexivity].
    destruct (AddChannelId.str_truthy (str_strip line)); [|reflexivity].
    destruct (AddChannelId.str_truthy (AddChannelId.dotenv_path w)); [|reflexivity].
    destruct (AddChannelId.set_key w _ _ _); reflexivity. }
  split; [exact Hwrites|]. split; [|split].
  - intros line Hline Hblank.
    assert (Hstrip : str_strip line = "").
    { rewrite str_strip_by, (strip_by_all _ _ Hblank). reflexivity. }
    rewrite Hwrites. unfold AddChannelId.script. rewrite Hline, Hstrip.
    split; [reflexivity|]. split; [|reflexivity].
    cbn [AddChannelId.str_truthy codepoints snd]. apply elem_of_app. right.
    apply list_elem_of_further, list_elem_of_here.
  - intros ex. unfold AddChannelId.script, written.
    destruct (AddChannelId.typed w) as [line|ex0];
      [|intros H; left; simpl in H; injection H as ->; reflexivity].
    destruct (AddChannelId.str_truthy (str_strip line)); [|discriminate].
    destruct (AddChannelId.str_truthy (AddChannelId.dotenv_path w)); [|discriminate].
    destruct (AddChannelId.set_key w _ _ _) as [[]|ex1] eqn:Hset; [discriminate|].
    intros H. simpl in H. injection H as <-. right. exists line.
    split; [reflexivity|exact Hset].
  - intros Hline Hpath. rewrite Hwrites, Hline, Hpath. reflexivity.
Qed.

(** Two double quotes typed where a [.env] file exists: an empty id is
    written. *)
Lemma script_writes_the_channel_id_once_witness :
  writes (AddChannelId.script
            {| AddChannelId.typed := Return (dquote +++ dquote);
               AddChannelId.dotenv_path := "/app/.env";
               AddChannelId.set_key := fun _ _ _ => Return tt |}).2
  = [("/app/.env", "SLACK_CHANNEL_ID", "")].
Proof.
  exact (proj2 (proj2 (proj2 (script_writes_the_channel_id_once
                                {| AddChannelId.typed := Return (dquote +++ dquote);
                                   AddChannelId.dotenv_path := "/app/.env";
                                   AddChannelId.set_key := fun _ _ _ => Return tt |})))
               eq_refl eq_refl).
Defined.

(** *** The failures the sinks absorb *)

(** C9.  The ticket sink absorbs every failure of the store: with
    a store configured, [add_to_notion] (of either module) returns normally
    whatever [pages.create] raises, the exception being logged.  The
    notification sinks absorb API errors only: a [SlackApiError] of the post
    is logged and [send_slack_message] and [send_slack_notification] return
    normally, whereas any other exception of the post leaves them
    uncaught. *)
Theorem sinks_absorb_store_failures_and_api_errors (e : env) (issue : issue_record)
    (analysis : pydict) (text : pystr) (blocks : option (list slack_block)) (t : trace) :
  (forall notion,
     notion_client e = Some notion ->
     (exists t', Gmail.add_to_notion e issue analysis t = (Return tt, t'))
     /\ (exists t', Backend.add_to_notion e issue analysis t = (Return tt, t'))
     /\ (forall page ex,
           Gmail.notion_page_of e issue analysis t = (Return page, t) ->
           notion t page = Raise ex ->
           Gmail.add_to_notion e issue analysis t
           = (Return tt, t ++ [NotionCreated page;
                               Printed ("❌ Failed to add to Notion: " +++ exn_str ex)]))
     /\ (forall page ex,
           Backend.notion_page_of e issue analysis t = (Return page, t) ->
           notion t page = Raise ex ->
           Backend.add_to_notion e issue analysis t
           = (Return tt, t ++ [NotionCreated page;
                               Printed ("Notion error: " +++ exn_str ex)])))
  /\ (forall client,
        slack_client e = Some client ->
        (forall ex,
           client t (gmail_post e text blocks) = Raise ex ->
           Gmail.send_slack_message e text blocks t
           = if is_SlackApiError ex
             then (Return tt, t ++ [SlackPosted (gmail_post e text blocks);
                                    Printed ("❌ Slack Error: " +++ Gmail.response_error ex)])
             else (Raise ex, t ++ [SlackPosted (gmail_post e text blocks)]))
        /\ (forall post ex,
              Backend.slack_post_of e issue analysis = Return post ->
              client t post = Raise ex ->
              Backend.send_slack_notification e issue analysis t
              = if is_SlackApiError ex
                then (Return tt, t ++ [SlackPosted post;
                                       Printed ("Slack error: " +++ exn_str ex)])
                else (Raise ex, t ++ [SlackPosted post]))).
Proof.
  split.
  - intros notion Hn.
    rewrite (gmail_add_to_notion_configured e notion issue analysis t Hn).
    rewrite (backend_add_to_notion_configured e notion issue analysis t Hn).
    split; [|split; [|split]].
    + destruct (Gmail.notion_page_of e issue analysis t) as [[page|ex] t1];
        [destruct (notion t page) as [[]|ex]|]; eexists; reflexivity.
    + destruct (Backend.notion_page_of e issue analysis t) as [[page|ex] t1];
        [destruct (notion t page) as [[]|ex]|]; eexists; reflexivity.
    + intros page ex -> ->. reflexivity.
    + intros page ex -> ->. reflexivity.
  - intros client Hc. split.
    + intros ex Hpost.
      rewrite (gmail_send_slack_message_configured e client text blocks t Hc), Hpost.
      reflexivity.
    + intros post ex Hbuilt Hpost.
      rewrite (backend_send_slack_notification_configured e client issue analysis t Hc).
      rewrite Hbuilt, Hpost. reflexivity.
Qed.

(** A channel that refuses the post with an API error: the notification of
    [backend.py] logs the error and returns. *)
Lemma sinks_absorb_store_failures_and_api_errors_witness :
  exists post,
    Backend.slack_post_of (Lite.env_of None None (Some Demo.channel_refuses) None)
      Demo.full_issue (Demo.analysis_of "HVAC" "High") = Return post
    /\ Backend.send_slack_notification (Lite.env_of None None (Some Demo.channel_refuses) None)
         Demo.full_issue (Demo.analysis_of "HVAC" "High") []
       = (Return tt, [SlackPosted post;
                      Printed "Slack error: The request to the Slack API failed."]).
Proof.
  eexists. split; [reflexivity|].
  exact (proj2 (proj2 (sinks_absorb_store_failures_and_api_errors
                         (Lite.env_of None None (Some Demo.channel_refuses) None)
                         Demo.full_issue (Demo.analysis_of "HVAC" "High") "" None [])
                      Demo.channel_refuses eq_refl)
               _ (SlackApiError "The request to the Slack API failed." "channel_not_found")
               eq_refl eq_refl).
Defined.

(** C9 does not hold of every failure of the channel: with the network down
    the failure of the post is caught by neither notification sink, and
    reaches the caller. *)
Lemma notification_failure_reaches_the_caller :
  (Gmail.send_slack_message (Lite.env_of None None (Some Demo.channel_down) None)
     "Daily report" None []).1
  = Raise (OtherError "URLError" "<urlopen error timed out>")
  /\ (Backend.send_slack_notification (Lite.env_of None None (Some Demo.channel_down) None)
        Demo.full_issue (Demo.analysis_of "HVAC" "High") []).1
     = Raise (OtherError "URLError" "<urlopen error timed out>").
Proof. split; vm_compute; reflexivity. Qed.

(** *** The length of what the sinks submit *)














(** *** Every fetched issue, once and in order *)


















